(** * Orbital-element extraction of [scripts/fetch_jpl_api.py]

    A shallow embedding of [JPLHorizonsAPI.parse_horizons_output], of
    [JPLHorizonsAPI.fetch_elements] and of the loops of [main], followed by
    the properties of the element extractor, of the TNO classification, of
    the identifier resolution and of the clustering summary.

    Conventions of the embedding.
    - A Python [str] is a [string] whose characters are read as Unicode code
      points below 256; [str.isspace], [str.isdigit], the regular-expression
      classes and case folding are the Unicode ones restricted to that range.
    - A regular expression is a term of [Re.regex], matched by
      backtracking as [re] does.
    - A Python [float] is an IEEE-754 binary64 value, a [spec_float] handled
      with precision 53 and maximal exponent 1024; [float(s)] rounds the
      decimal to the nearest binary64, ties to even.
    - An exception is a value of [exn]; code that may raise returns a
      [result].
    - The web service is a function from the history of requests and the
      current request to a response; the loops of [main] thread the list of
      requests issued so far. *)

From Stdlib Require Import Bool List ZArith NArith Lia String Ascii.
From Stdlib Require Import Floats.SpecFloat.
Import ListNotations.

Local Open Scope string_scope.
Local Open Scope Z_scope.

(** ** Exceptions *)

Inductive exn : Type :=
| ValueError
| IndexError
| TypeError
| KeyError
| AttributeError
| OverflowError.

Inductive result (A : Type) : Type :=
| Ok (a : A)
| Raise (e : exn).

Arguments Ok {A} a.
Arguments Raise {A} e.

Definition rbind {A B : Type} (r : result A) (k : A -> result B) : result B :=
  match r with
  | Ok a => k a
  | Raise e => Raise e
  end.

Notation "x <- r ;; k" := (rbind r (fun x => k))
  (at level 61, r at next level, right associativity).

(** ** Characters and strings *)

Module Str.

Definition code (c : ascii) : N := N_of_ascii c.

Definition between (lo hi : N) (c : ascii) : bool :=
  ((lo <=? code c) && (code c <=? hi))%N.

(** [str.isspace], also the class [\s] of a [str] pattern. *)
Definition isspace (c : ascii) : bool :=
  between 9 13 c || between 28 32 c || (code c =? 133)%N || (code c =? 160)%N.

(** The class [\d] of a [str] pattern: the decimal digits (category Nd). *)
Definition isdecimal (c : ascii) : bool := between 48 57 c.

(** [str.isdigit]: the decimal digits and the superscripts one, two, three. *)
Definition isdigit (c : ascii) : bool :=
  isdecimal c || (code c =? 178)%N || (code c =? 179)%N || (code c =? 185)%N.

(** Simple lower-casing of a code point below 256. *)
Definition lower (c : ascii) : ascii :=
  if between 65 90 c || between 192 214 c || between 216 222 c
  then ascii_of_N (code c + 32)
  else c.

Fixpoint existsb (p : ascii -> bool) (s : string) : bool :=
  match s with
  | EmptyString => false
  | String c r => p c || existsb p r
  end.

Fixpoint forallb (p : ascii -> bool) (s : string) : bool :=
  match s with
  | EmptyString => true
  | String c r => p c && forallb p r
  end.

Fixpoint map (f : ascii -> ascii) (s : string) : string :=
  match s with
  | EmptyString => EmptyString
  | String c r => String (f c) (map f r)
  end.

(** [s.startswith(p)] *)
Fixpoint startswith (p s : string) : bool :=
  match p, s with
  | EmptyString, _ => true
  | String a p', String b s' => Ascii.eqb a b && startswith p' s'
  | String _ _, EmptyString => false
  end.

(** The offset of the first occurrence of [p] in [s]. *)
Fixpoint index (p s : string) : option nat :=
  if startswith p s then Some O
  else match s with
       | EmptyString => None
       | String _ r => option_map S (index p r)
       end.

(** [s.find(p)]: the offset of the first occurrence, or -1. *)
Definition find (p s : string) : Z :=
  match index p s with Some n => Z.of_nat n | None => -1 end.

(** [p in s] *)
Definition contains (p s : string) : bool :=
  match index p s with Some _ => true | None => false end.

Fixpoint drop (n : nat) (s : string) : string :=
  match n, s with
  | O, _ => s
  | S n', String _ r => drop n' r
  | S _, EmptyString => EmptyString
  end.

Fixpoint take (n : nat) (s : string) : string :=
  match n, s with
  | O, _ => EmptyString
  | S n', String c r => String c (take n' r)
  | S _, EmptyString => EmptyString
  end.

(** [s[lo:hi]] for bounds that are not negative. *)
Definition slice (lo hi : Z) (s : string) : string :=
  take (Z.to_nat (hi - lo)) (drop (Z.to_nat lo) s).

Fixpoint lstrip_by (p : ascii -> bool) (s : string) : string :=
  match s with
  | EmptyString => EmptyString
  | String c r => if p c then lstrip_by p r else s
  end.

Fixpoint rstrip_by (p : ascii -> bool) (s : string) : string :=
  match s with
  | EmptyString => EmptyString
  | String c r =>
      match rstrip_by p r with
      | EmptyString => if p c then EmptyString else String c EmptyString
      | r' => String c r'
      end
  end.

Definition strip_by (p : ascii -> bool) (s : string) : string :=
  rstrip_by p (lstrip_by p s).

(** [s.strip()] *)
Definition strip (s : string) : string := strip_by isspace s.

(** [s.split(sep)] for a one-character separator: the pieces between the
    separators, in order; the empty string gives one empty piece. *)
Fixpoint split (sep : ascii) (s : string) : list string :=
  match s with
  | EmptyString => [EmptyString]
  | String c r =>
      if Ascii.eqb c sep then EmptyString :: split sep r
      else match split sep r with
           | [] => [String c EmptyString]
           | p :: ps => String c p :: ps
           end
  end.

(** Truth value of a [str]. *)
Definition truthy (s : string) : bool :=
  match s with EmptyString => false | String _ _ => true end.

(** The longest prefix of characters satisfying [p], and the rest. *)
Fixpoint span (p : ascii -> bool) (s : string) : string * string :=
  match s with
  | EmptyString => (EmptyString, EmptyString)
  | String c r =>
      if p c then let '(a, b) := span p r in (String c a, b)
      else (EmptyString, s)
  end.

End Str.

(** ** Floating-point numbers *)

Module Float.

Definition prec : Z := 53.
Definition emax : Z := 1024.

Definition float : Type := spec_float.

Definition add : float -> float -> float := SFadd prec emax.
Definition ltb : float -> float -> bool := SFltb.

(** The binary64 nearest to [n / d] for positive [n] and [d], with sign
    [neg]. *)
Definition of_ratio (neg : bool) (n d : positive) : float :=
  SFdiv prec emax (S754_finite neg n 0) (S754_finite false d 0).

(** The binary64 nearest to [m * 10 ^ e10] for [m >= 0], with sign [neg]. *)
Definition of_decimal (neg : bool) (m e10 : Z) : float :=
  match m with
  | Zpos p =>
      if 0 <=? e10 then of_ratio neg (p * Z.to_pos (10 ^ e10)) 1
      else of_ratio neg p (Z.to_pos (10 ^ (- e10)))
  | _ => S754_zero neg
  end.

(** [float(z)] for an [int]: the nearest binary64, [OverflowError] beyond
    the finite range. *)
Definition of_int (z : Z) : result float :=
  match binary_normalize prec emax z 0 false with
  | S754_infinity _ => Raise OverflowError
  | f => Ok f
  end.

(** C's [fmod]: the exact remainder, with the sign of the dividend. *)
Definition fmod (x y : float) : float :=
  match x, y with
  | S754_nan, _ | _, S754_nan => S754_nan
  | S754_infinity _, _ => S754_nan
  | _, S754_zero _ => S754_nan
  | _, S754_infinity _ => x
  | S754_zero _, _ => x
  | S754_finite sx mx ex, S754_finite _ my ey =>
      let e := Z.min ex ey in
      let X := Z.shiftl (Zpos mx) (ex - e) in
      let Y := Z.shiftl (Zpos my) (ey - e) in
      binary_normalize prec emax (cond_Zopp sx (X mod Y)) e sx
  end.

Definition is_zero (x : float) : bool :=
  match x with S754_zero _ => true | _ => false end.

Definition zero : float := S754_zero false.

(** [x % y] on floats ([float_rem] of CPython) for a divisor that is not
    zero: the result of [fmod], moved into the divisor's sign. *)
Definition rem (x y : float) : float :=
  let m := fmod x y in
  if is_zero m then S754_zero (ltb y zero)
  else if Bool.eqb (ltb y zero) (ltb m zero) then m
  else add m y.

(** *** [float(s)] for a string *)

(** The characters [float] removes at both ends. *)
Definition isspace (c : ascii) : bool :=
  Str.between 9 13 c || (Str.code c =? 32)%N
  || (Str.code c =? 133)%N || (Str.code c =? 160)%N.

Definition digit_val (c : ascii) : Z := Z.of_N (Str.code c) - 48.

(** Underscores are allowed between two digits only; they are checked and
    removed first. [prev] is the previous character, the null character
    at the start. *)
Fixpoint strip_underscores (prev : ascii) (s : string) : option string :=
  match s with
  | EmptyString => if Ascii.eqb prev "_" then None else Some EmptyString
  | String c r =>
      if Ascii.eqb c "_" then
        if Str.isdecimal prev then strip_underscores c r else None
      else if Ascii.eqb prev "_" && negb (Str.isdecimal c) then None
      else option_map (String c) (strip_underscores c r)
  end.

(** Reads a maximal run of decimal digits: the value accumulated from
    [acc], the number of digits read and the rest. *)
Fixpoint digits (acc : Z) (n : Z) (s : string) : Z * Z * string :=
  match s with
  | String c r =>
      if Str.isdecimal c then digits (10 * acc + digit_val c) (n + 1) r
      else (acc, n, s)
  | EmptyString => (acc, n, s)
  end.

Definition sign (s : string) : bool * string :=
  match s with
  | String "+" r => (false, r)
  | String "-" r => (true, r)
  | _ => (false, s)
  end.

(** The exponent part: [e] or [E], an optional sign, at least one digit,
    then the end of the string. *)
Definition exponent (s : string) : option Z :=
  match s with
  | EmptyString => Some 0
  | String c r =>
      if Ascii.eqb (Str.lower c) "e" then
        let '(neg, r1) := sign r in
        let '(v, n, r2) := digits 0 0 r1 in
        if (0 <? n) && negb (Str.truthy r2)
        then Some (if neg then - v else v)
        else None
      else None
  end.

(** An unsigned decimal number: digits, an optional point and digits, at
    least one digit in all, an optional exponent. The result is the
    integer made of all the digits and the power of ten to apply. *)
Definition number (s : string) : option (Z * Z) :=
  let '(m1, n1, r1) := digits 0 0 s in
  let '(m2, n2, r2) :=
    match r1 with
    | String "." r => digits m1 0 r
    | _ => (m1, 0, r1)
    end in
  if 0 <? n1 + n2 then
    match exponent r2 with
    | Some e => Some (m2, e - n2)
    | None => None
    end
  else None.

(** [float(s)]: the underscores, the spaces at both ends, the sign, then
    one of the words [inf], [infinity] and [nan] in any case, or a decimal
    number; anything else is a [ValueError]. *)
Definition of_string (s : string) : result float :=
  match strip_underscores "000" s with
  | None => Raise ValueError
  | Some t =>
      let '(neg, u) := sign (Str.strip_by isspace t) in
      let w := Str.map Str.lower u in
      if String.eqb w "inf" || String.eqb w "infinity"
      then Ok (S754_infinity neg)
      else if String.eqb w "nan" then Ok S754_nan
      else match number u with
           | Some (m, e10) => Ok (of_decimal neg m e10)
           | None => Raise ValueError
           end
  end.

End Float.

(** ** Values and dictionaries *)

#[warnings="-register-all"]
Inductive pyval : Type :=
| VNone
| VInt (z : Z)
| VFloat (f : Float.float)
| VStr (s : string)
| VDict (d : list (string * pyval)).

(** A [dict] with string keys, in insertion order. *)
Definition dict : Type := list (string * pyval).

Module Dict.

(** [d.get(k)] *)
Fixpoint get (k : string) (d : dict) : option pyval :=
  match d with
  | [] => None
  | (k', v) :: r => if String.eqb k k' then Some v else get k r
  end.

(** [d.get(k, dflt)] *)
Definition get_default (k : string) (dflt : pyval) (d : dict) : pyval :=
  match get k d with Some v => v | None => dflt end.

(** [d[k] = v] *)
Fixpoint set (k : string) (v : pyval) (d : dict) : dict :=
  match d with
  | [] => [(k, v)]
  | (k', v') :: r =>
      if String.eqb k k' then (k', v) :: r else (k', v') :: set k v r
  end.

Definition keys (d : dict) : list string := List.map fst d.

(** Truth value of a [dict]. *)
Definition truthy (d : dict) : bool :=
  match d with [] => false | _ :: _ => true end.

End Dict.

(** Truth value of an optional [dict] ([None] or a dictionary). *)
Definition truthy_opt (o : option dict) : bool :=
  match o with Some d => Dict.truthy d | None => false end.

(** ** Regular expressions

    The constructs the patterns of the source are made of, matched the
    way [re] does: by backtracking, a repetition taking as much as it can
    and giving back one character at a time, the left branch of an
    alternation before the right one, the characters compared ignoring
    case ([re.IGNORECASE]). *)

Module Re.

Inductive regex : Type :=
| Lit (c : ascii)                   (* a character *)
| Many (cls : ascii -> bool)        (* [cls*] *)
| Many1 (cls : ascii -> bool)       (* [cls+] *)
| Cat (r1 r2 : regex)               (* [r1 r2] *)
| Or (r1 r2 : regex)                (* [r1|r2] *)
| Group (k : nat) (r : regex).      (* [(r)], the [k]-th group *)

(** A match object: what each group holds, [None] for a group that did
    not take part. *)
Definition matchobj : Type := list (option string).

(** The number of groups of a pattern. *)
Fixpoint groups (r : regex) : nat :=
  match r with
  | Lit _ | Many _ | Many1 _ => 0
  | Cat r1 r2 | Or r1 r2 => groups r1 + groups r2
  | Group _ r1 => S (groups r1)
  end.

(** The match object with group [k] set to [v]. *)
Fixpoint set_group (k : nat) (v : string) (m : matchobj) : matchobj :=
  match k, m with
  | _, [] => []
  | O, _ => m
  | S O, _ :: rest => Some v :: rest
  | S k', g :: rest => g :: set_group k' v rest
  end.

(** What was read between the input [s] and its suffix [t]. *)
Definition consumed (s t : string) : string :=
  Str.take (String.length s - String.length t) s.

(** [cls*] followed by [k]: the longest run first, then shorter ones. *)
Fixpoint many {A : Type} (cls : ascii -> bool) (s : string)
  (k : string -> option A) : option A :=
  match s with
  | String c r =>
      if cls c then
        match many cls r k with
        | Some x => Some x
        | None => k s
        end
      else k s
  | EmptyString => k s
  end.

(** The pattern [r] at the start of [s], followed by [k]; [m] holds the
    groups matched so far. *)
Fixpoint exec (r : regex) (s : string) (m : matchobj)
  (k : string -> matchobj -> option matchobj) : option matchobj :=
  match r with
  | Lit c =>
      match s with
      | String b t =>
          if Ascii.eqb (Str.lower b) (Str.lower c) then k t m else None
      | EmptyString => None
      end
  | Many cls => many cls s (fun t => k t m)
  | Many1 cls =>
      match s with
      | String b t => if cls b then many cls t (fun u => k u m) else None
      | EmptyString => None
      end
  | Cat r1 r2 => exec r1 s m (fun t m' => exec r2 t m' k)
  | Or r1 r2 =>
      match exec r1 s m k with
      | Some x => Some x
      | None => exec r2 s m k
      end
  | Group g r1 => exec r1 s m (fun t m' => k t (set_group g (consumed s t) m'))
  end.

(** [re.match(r, s, re.IGNORECASE)] *)
Definition match_ (r : regex) (s : string) : option matchobj :=
  exec r s (List.repeat None (groups r)) (fun _ m => Some m).

(** [re.search(r, s, re.IGNORECASE)]: the match at the leftmost position
    that has one. *)
Fixpoint search (r : regex) (s : string) : option matchobj :=
  match match_ r s with
  | Some m => Some m
  | None =>
      match s with
      | EmptyString => None
      | String _ t => search r t
      end
  end.

(** [m.group(k)] for [k >= 1]. *)
Definition group (m : matchobj) (k : nat) : result (option string) :=
  match nth_error m (Nat.pred k) with
  | Some g => Ok g
  | None => Raise IndexError
  end.

(** The class [[\d.+-]]. *)
Definition valchar (c : ascii) : bool :=
  Str.isdecimal c || Ascii.eqb c "." || Ascii.eqb c "+" || Ascii.eqb c "-".

(** The characters of [w] one after the other, then [r]. *)
Fixpoint word (w : string) (r : regex) : regex :=
  match w with
  | EmptyString => r
  | String c w' => Cat (Lit c) (word w' r)
  end.

(** [label\s*=\s*([\d.+-]+)], the group being the [k]-th of the pattern. *)
Definition key_value (k : nat) (label : string) : regex :=
  word label
    (Cat (Many Str.isspace)
       (Cat (Lit "=") (Cat (Many Str.isspace) (Group k (Many1 valchar))))).

End Re.

(** ** The element extractor *)

Definition newline : ascii := "010"%char.

(** [parts[i]] *)
Definition item (parts : list string) (i : nat) : result string :=
  match nth_error parts i with
  | Some s => Ok s
  | None => Raise IndexError
  end.

(** [float(parts[i]) if parts[i] else dflt] *)
Definition field (parts : list string) (i : nat) (dflt : pyval)
  : result pyval :=
  s <- item parts i ;;
  if Str.truthy s then f <- Float.of_string s ;; Ok (VFloat f)
  else Ok dflt.

(** The dictionary display of the tabular strategy. *)
Definition row_elements (parts : list string) : result dict :=
  ec <- field parts 0 (VInt 0) ;;
  qr <- field parts 1 (VInt 0) ;;
  inc <- field parts 2 (VInt 0) ;;
  om <- field parts 3 (VInt 0) ;;
  w <- field parts 4 (VInt 0) ;;
  ma <- field parts 7 (VInt 0) ;;
  a <- field parts 9 (VInt 0) ;;
  ad <- field parts 10 (VInt 0) ;;
  pr <- field parts 11 VNone ;;
  Ok [ ("eccentricity", ec);
       ("perihelion", qr);
       ("inclination", inc);
       ("longitude_ascending_node", om);
       ("argument_perihelion", w);
       ("mean_anomaly", ma);
       ("semimajor_axis", a);
       ("aphelion", ad);
       ("orbital_period", pr) ].

(** [[p.strip() for p in line.split(',')]] *)
Definition split_fields (line : string) : list string :=
  List.map Str.strip (Str.split "," line).

(** The test on a line of the data section. *)
Definition qualifies (line : string) : bool :=
  Str.contains "," line && Str.existsb Str.isdigit line.

(** The body of the loop over the lines: [elements] is the dictionary
    before the line, the result the dictionary after it. *)
Definition scan_line (elements : dict) (line : string) : result dict :=
  if qualifies line then
    let parts := split_fields line in
    if (11 <=? List.length parts)%nat then
      match row_elements parts with
      | Ok d => Ok d
      | Raise ValueError => Ok elements
      | Raise IndexError => Ok elements
      | Raise e => Raise e
      end
    else Ok elements
  else Ok elements.

Fixpoint scan_lines (elements : dict) (lines : list string) : result dict :=
  match lines with
  | [] => Ok elements
  | line :: rest =>
      elements' <- scan_line elements line ;;
      scan_lines elements' rest
  end.

(** The text between the markers, stripped. *)
Definition data_section (text : string) : string :=
  let start := Str.find "$$SOE" text + 5 in
  let end_ := Str.find "$$EOE" text in
  Str.strip (Str.slice start end_ text).

(** The tabular strategy, from the empty dictionary. *)
Definition tabular (text : string) : result dict :=
  if Str.contains "$$SOE" text && Str.contains "$$EOE" text then
    scan_lines [] (Str.split newline (data_section text))
  else Ok [].

(** The patterns of the fallback strategy, in the order of the source. *)
Definition patterns : list (string * Re.regex) :=
  [ ("semimajor_axis", Re.key_value 1 "a");
    ("eccentricity", Re.key_value 1 "e");
    ("inclination", Re.key_value 1 "i");
    ("longitude_ascending_node",
      Re.Or (Re.key_value 1 "node") (Re.key_value 2 "Omega"));
    ("argument_perihelion",
      Re.Or (Re.key_value 1 "peri") (Re.key_value 2 "w"));
    ("mean_anomaly", Re.key_value 1 "M");
    ("perihelion", Re.key_value 1 "q");
    ("aphelion", Re.key_value 1 "Q") ].

Definition truthy_group (g : option string) : bool :=
  match g with Some s => Str.truthy s | None => false end.

(** [match.group(1) if match.group(1) else match.group(2)] *)
Definition matched_value (m : Re.matchobj) : result (option string) :=
  g1 <- Re.group m 1 ;;
  if truthy_group g1 then Ok g1 else Re.group m 2.

(** [float(value)] for a group: [None] is not a number. *)
Definition float_of_group (value : option string) : result Float.float :=
  match value with
  | Some s => Float.of_string s
  | None => Raise TypeError
  end.

(** The body of the loop over the patterns. *)
Definition fallback_step (text : string) (elements : dict)
  (kp : string * Re.regex) : result dict :=
  let '(key, pattern) := kp in
  match Re.search pattern text with
  | Some m =>
      value <- matched_value m ;;
      match float_of_group value with
      | Ok f => Ok (Dict.set key (VFloat f) elements)
      | Raise ValueError => Ok elements
      | Raise e => Raise e
      end
  | None => Ok elements
  end.

Fixpoint fallback_loop (text : string) (elements : dict)
  (ps : list (string * Re.regex)) : result dict :=
  match ps with
  | [] => Ok elements
  | kp :: rest =>
      elements' <- fallback_step text elements kp ;;
      fallback_loop text elements' rest
  end.

(** The fallback strategy, which starts from an empty dictionary. *)
Definition fallback (text : string) : result dict :=
  fallback_loop text [] patterns.

(** [JPLHorizonsAPI.parse_horizons_output]; [object_id] is not used. *)
Definition parse_horizons_output (text object_id : string)
  : result (option dict) :=
  if Str.contains "No matches found" text || Str.contains "Cannot find" text
  then Ok None
  else
    elements <- tabular text ;;
    elements <- (if negb (Dict.truthy elements)
                 then fallback_loop text elements patterns
                 else Ok elements) ;;
    Ok (if Dict.truthy elements then Some elements else None).

(** ** Arithmetic and comparison on values *)

(** [a + b] on numbers and on strings. *)
Definition py_add (a b : pyval) : result pyval :=
  match a, b with
  | VInt x, VInt y => Ok (VInt (x + y))
  | VInt x, VFloat g => f <- Float.of_int x ;; Ok (VFloat (Float.add f g))
  | VFloat f, VInt y => g <- Float.of_int y ;; Ok (VFloat (Float.add f g))
  | VFloat f, VFloat g => Ok (VFloat (Float.add f g))
  | VStr s, VStr t => Ok (VStr (s ++ t))
  | _, _ => Raise TypeError
  end.

(** [a % n] for a number [a] and an [int] literal [n] other than zero.
    (On a string [%] is formatting; no string reaches it here, and the
    model makes it an error.) *)
Definition py_mod (a : pyval) (n : Z) : result pyval :=
  match a with
  | VInt x => Ok (VInt (x mod n))
  | VFloat f => g <- Float.of_int n ;; Ok (VFloat (Float.rem f g))
  | _ => Raise TypeError
  end.

(** [a > n] for an [int] literal [n] small enough to be a float exactly. *)
Definition py_gt (a : pyval) (n : Z) : result bool :=
  match a with
  | VInt x => Ok (n <? x)
  | VFloat f => g <- Float.of_int n ;; Ok (Float.ltb g f)
  | _ => Raise TypeError
  end.

(** A value given to the format [.1f] must be a number. *)
Definition py_format_f (a : pyval) : result pyval :=
  match a with
  | VInt _ | VFloat _ => Ok a
  | VStr _ => Raise ValueError
  | _ => Raise TypeError
  end.

(** [d[k]] *)
Definition subscript (d : dict) (k : string) : result pyval :=
  match Dict.get k d with
  | Some v => Ok v
  | None => Raise KeyError
  end.

(** ** The catalogue *)

Record planet_info : Type := {
  planet_name : string;
  planet_id : string;
  planet_mass : Float.float
}.

Record tno_info : Type := {
  tno_name : string;
  tno_id : string;
  tno_designation : string
}.

Definition get_planet_data : list planet_info :=
  [ {| planet_name := "Jupiter"; planet_id := "599";
       planet_mass := Float.of_decimal false 9545942 (-10) |};
    {| planet_name := "Saturn"; planet_id := "699";
       planet_mass := Float.of_decimal false 2857214 (-10) |};
    {| planet_name := "Uranus"; planet_id := "799";
       planet_mass := Float.of_decimal false 4365785 (-11) |};
    {| planet_name := "Neptune"; planet_id := "899";
       planet_mass := Float.of_decimal false 5149497 (-11) |} ].

Definition get_tno_list : list tno_info :=
  [ {| tno_name := "Sedna"; tno_id := "90377";
       tno_designation := "2003 VB12" |};
    {| tno_name := "Eris"; tno_id := "136199";
       tno_designation := "2003 UB313" |};
    {| tno_name := "Makemake"; tno_id := "136472";
       tno_designation := "2005 FY9" |};
    {| tno_name := "Gonggong"; tno_id := "225088";
       tno_designation := "2007 OR10" |};
    {| tno_name := "2012 VP113"; tno_id := "2012 VP113";
       tno_designation := "2012 VP113" |};
    {| tno_name := "The Goblin"; tno_id := "2015 TG387";
       tno_designation := "2015 TG387" |};
    {| tno_name := "2004 VN112"; tno_id := "2004 VN112";
       tno_designation := "2004 VN112" |};
    {| tno_name := "2010 GB174"; tno_id := "2010 GB174";
       tno_designation := "2010 GB174" |};
    {| tno_name := "2013 SY99"; tno_id := "2013 SY99";
       tno_designation := "2013 SY99" |};
    {| tno_name := "2014 SR349"; tno_id := "2014 SR349";
       tno_designation := "2014 SR349" |};
    {| tno_name := "2014 FE72"; tno_id := "2014 FE72";
       tno_designation := "2014 FE72" |};
    {| tno_name := "Quaoar"; tno_id := "50000";
       tno_designation := "2002 LM60" |};
    {| tno_name := "Orcus"; tno_id := "90482";
       tno_designation := "2004 DW" |};
    {| tno_name := "Haumea"; tno_id := "136108";
       tno_designation := "2003 EL61" |};
    {| tno_name := "Varuna"; tno_id := "20000";
       tno_designation := "2000 WR106" |} ].

(** ** Record assembly, classification and the clustering summary *)

(** The record appended to [planets]. *)
Definition planet_record (info : planet_info) (elements : dict) : dict :=
  [ ("name", VStr (planet_name info));
    ("id", VStr (planet_id info));
    ("mass", VFloat (planet_mass info));
    ("orbital_elements", VDict elements) ].

(** ["extreme_tno" if elements.get('perihelion', 0) > 30 else "tno"] *)
Definition tno_type (elements : dict) : result string :=
  b <- py_gt (Dict.get_default "perihelion" (VInt 0) elements) 30 ;;
  Ok (if b then "extreme_tno" else "tno").

(** The record appended to [tnos]. *)
Definition tno_record (info : tno_info) (elements : dict) : result dict :=
  ty <- tno_type elements ;;
  Ok [ ("name", VStr (tno_name info));
       ("designation", VStr (tno_designation info));
       ("type", VStr ty);
       ("orbital_elements", VDict elements) ].

(** [(elem.get('longitude_ascending_node', 0) +
      elem.get('argument_perihelion', 0)) % 360] *)
Definition lon_peri (elem : dict) : result pyval :=
  s <- py_add (Dict.get_default "longitude_ascending_node" (VInt 0) elem)
              (Dict.get_default "argument_perihelion" (VInt 0) elem) ;;
  py_mod s 360.

(** [t.get('type') == 'extreme_tno'] *)
Definition is_extreme (t : dict) : bool :=
  match Dict.get "type" t with
  | Some (VStr s) => String.eqb s "extreme_tno"
  | _ => false
  end.

(** A line of the clustering table: the name, the longitude of
    perihelion and the perihelion distance. *)
Record cluster_line : Type := {
  line_name : pyval;
  line_lon_peri : pyval;
  line_q : pyval
}.

(** The body of the loop over the extreme TNOs. *)
Definition cluster_entry (tno : dict) : result cluster_line :=
  e <- subscript tno "orbital_elements" ;;
  match e with
  | VDict elem =>
      lp <- lon_peri elem ;;
      name <- subscript tno "name" ;;
      lp' <- py_format_f lp ;;
      q <- py_format_f (Dict.get_default "perihelion" (VInt 0) elem) ;;
      Ok {| line_name := name; line_lon_peri := lp'; line_q := q |}
  | _ => Raise AttributeError
  end.

Fixpoint cluster_entries (ts : list dict) : result (list cluster_line) :=
  match ts with
  | [] => Ok []
  | t :: rest =>
      l <- cluster_entry t ;;
      ls <- cluster_entries rest ;;
      Ok (l :: ls)
  end.

(** The clustering analysis printed at the end of [main]. *)
Definition clustering (tnos : list dict) : result (list cluster_line) :=
  cluster_entries (List.filter is_extreme tnos).

(** ** Fetching and the loops of [main] *)

(** A request: the object identifier and the epoch. *)
Definition request : Type := (string * string)%type.

(** The part of the document written to the file that depends on the
    responses. *)
Record document : Type := {
  doc_planets : list dict;
  doc_etnos : list dict
}.

(** What a run of [main] leaves: the requests issued, the document written
    (if the run got that far) and the clustering table or the exception
    that ended the run. *)
Record run : Type := {
  run_requests : list request;
  run_document : option document;
  run_summary : result (list cluster_line)
}.

Section Service.

(** The service: from the requests answered so far and the request made,
    the decoded body of the response, or [None] when the request or the
    decoding raises. *)
Variable horizons : list request -> request -> option string.

(** [JPLHorizonsAPI.fetch_elements], with the requests issued so far. *)
Definition fetch_elements (object_id epoch : string) (log : list request)
  : option dict * list request :=
  let log' := (log ++ [(object_id, epoch)])%list in
  match horizons log (object_id, epoch) with
  | Some data =>
      match parse_horizons_output data object_id with
      | Ok r => (r, log')
      | Raise _ => (None, log')
      end
  | None => (None, log')
  end.

(** The body of the loop over the planets. *)
Definition planet_step (epoch : string) (st : list dict * list request)
  (info : planet_info) : list dict * list request :=
  let '(planets, log) := st in
  let '(elements, log') := fetch_elements (planet_id info) epoch log in
  match elements with
  | Some e =>
      if Dict.truthy e then ((planets ++ [planet_record info e])%list, log')
      else (planets, log')
  | None => (planets, log')
  end.

(** [for id_format in formats: elements = fetch(id_format); if elements:
    break], from the value [elements] has before the loop. *)
Fixpoint try_formats (epoch : string) (formats : list string)
  (elements : option dict) (log : list request)
  : option dict * list request :=
  match formats with
  | [] => (elements, log)
  | id_format :: rest =>
      let '(elements', log') := fetch_elements id_format epoch log in
      if truthy_opt elements' then (elements', log')
      else try_formats epoch rest elements' log'
  end.

(** The identifier forms tried for a TNO. *)
Definition id_formats (info : tno_info) : list string :=
  [tno_id info; "DES=" ++ tno_id info].

(** The elements retained for a TNO. *)
Definition resolve (epoch : string) (info : tno_info) (log : list request)
  : option dict * list request :=
  try_formats epoch (id_formats info) None log.

(** The body of the loop over the TNOs: the list [tnos] after the step, or
    the exception raised, and the requests issued so far. *)
Definition tno_step (epoch : string) (tnos : list dict) (log : list request)
  (info : tno_info) : result (list dict) * list request :=
  let '(elements, log') := resolve epoch info log in
  (match elements with
   | Some e =>
       if Dict.truthy e then
         r <- tno_record info e ;;
         Ok (tnos ++ [r])%list
       else Ok tnos
   | None => Ok tnos
   end, log').

Fixpoint tno_loop (epoch : string) (tnos : list dict) (log : list request)
  (infos : list tno_info) : result (list dict) * list request :=
  match infos with
  | [] => (Ok tnos, log)
  | info :: rest =>
      match tno_step epoch tnos log info with
      | (Ok tnos', log') => tno_loop epoch tnos' log' rest
      | (Raise e, log') => (Raise e, log')
      end
  end.

Definition epoch : string := "2023-09-13".

(** [main], without the progress lines. Writing the file is taken to
    succeed; the metadata and the constants of the document, which do not
    depend on the responses, are left out. *)
Definition main : run :=
  let '(planets, log1) :=
    List.fold_left (planet_step epoch) get_planet_data ([], []) in
  match tno_loop epoch [] log1 get_tno_list with
  | (Ok tnos, log2) =>
      {| run_requests := log2;
         run_document := Some {| doc_planets := planets; doc_etnos := tnos |};
         run_summary := match tnos with
                        | [] => Ok []
                        | _ :: _ => clustering tnos
                        end |}
  | (Raise e, log2) =>
      {| run_requests := log2; run_document := None; run_summary := Raise e |}
  end.

End Service.

(** ** The request URL

    [urllib.parse.urlencode] on a dictionary of strings, for strings of
    code points below 256: [quote_plus] on each key and value, the pairs
    joined by [=] and [&]. A byte is a character of the same type. *)

Module Url.

(** The characters [quote] never escapes: letters, digits and [_.-~]. *)
Definition always_safe (c : ascii) : bool :=
  Str.between 65 90 c || Str.between 97 122 c || Str.between 48 57 c
  || Ascii.eqb c "_" || Ascii.eqb c "." || Ascii.eqb c "-" || Ascii.eqb c "~".

(** The upper-case hexadecimal digit of a number below sixteen. *)
Definition hexdigit (n : N) : ascii :=
  if (n <? 10)%N then ascii_of_N (48 + n) else ascii_of_N (55 + n).

(** The escape of a byte: a percent sign and two hexadecimal digits. *)
Definition percent (b : ascii) : string :=
  String "%" (String (hexdigit (Str.code b / 16))
                (String (hexdigit (Str.code b mod 16)) EmptyString)).

(** The UTF-8 bytes of a code point below 256. *)
Definition utf8 (c : ascii) : list ascii :=
  if (Str.code c <? 128)%N then [c]
  else [ascii_of_N (192 + Str.code c / 64);
        ascii_of_N (128 + Str.code c mod 64)].

(** [s.encode('utf-8')] *)
Fixpoint encode (s : string) : list ascii :=
  match s with
  | EmptyString => []
  | String c r => (utf8 c ++ encode r)%list
  end.

(** A byte as [quote] writes it; [safe] holds the further characters to
    leave alone, of which only the ASCII ones count. *)
Definition quote_byte (safe : ascii -> bool) (b : ascii) : string :=
  if always_safe b || (safe b && (Str.code b <? 128)%N)
  then String b EmptyString
  else percent b.

(** [urllib.parse.quote_from_bytes(bs, safe)] *)
Fixpoint quote_from_bytes (safe : ascii -> bool) (bs : list ascii)
  : string :=
  match bs with
  | [] => EmptyString
  | b :: r => quote_byte safe b ++ quote_from_bytes safe r
  end.

(** [urllib.parse.quote(s, safe)] *)
Definition quote (safe : ascii -> bool) (s : string) : string :=
  quote_from_bytes safe (encode s).

(** [s.replace(a, b)] for two characters. *)
Definition replace (a b : ascii) (s : string) : string :=
  Str.map (fun c => if Ascii.eqb c a then b else c) s.

(** [urllib.parse.quote_plus(s)] *)
Definition quote_plus (s : string) : string :=
  if Str.contains " " s
  then replace " " "+" (quote (fun c => Ascii.eqb c " ") s)
  else quote (fun _ => false) s.

(** [urllib.parse.urlencode(query)] for a dictionary of strings. *)
Definition urlencode (query : list (string * string)) : string :=
  String.concat "&"
    (List.map (fun kv => quote_plus (fst kv) ++ "=" ++ quote_plus (snd kv))
       query).

End Url.

(** [JPLHorizonsAPI.base_url] *)
Definition base_url : string := "https://ssd.jpl.nasa.gov/api/horizons.api".

(** [f"'{s}'"] *)
Definition quoted (s : string) : string := "'" ++ s ++ "'".

(** The query parameters of [fetch_elements]. *)
Definition query_params (object_id epoch : string) : list (string * string) :=
  [ ("format", "text");
    ("COMMAND", quoted object_id);
    ("OBJ_DATA", "YES");
    ("MAKE_EPHEM", "YES");
    ("EPHEM_TYPE", "ELEMENTS");
    ("CENTER", "'500@10'");
    ("START_TIME", quoted epoch);
    ("STOP_TIME", quoted epoch);
    ("STEP_SIZE", "1 d");
    ("REF_SYSTEM", "ICRF");
    ("REF_PLANE", "ECLIPTIC");
    ("OUT_UNITS", "AU-D");
    ("CSV_FORMAT", "NO") ].

(** The URL [fetch_elements] opens. The service of the section above is
    given the identifier and the epoch, which this URL determines and is
    determined by. *)
Definition request_url (object_id epoch : string) : string :=
  base_url ++ "?" ++ Url.urlencode (query_params object_id epoch).

(** * Vocabulary of the properties *)

(** ** The tabular strategy *)

(** The keys of the display that default to zero, and the field each is
    read from. *)
Definition positions : list (string * nat) :=
  [ ("eccentricity", 0%nat);
    ("perihelion", 1%nat);
    ("inclination", 2%nat);
    ("longitude_ascending_node", 3%nat);
    ("argument_perihelion", 4%nat);
    ("mean_anomaly", 7%nat);
    ("semimajor_axis", 9%nat);
    ("aphelion", 10%nat) ].

(** The nine keys of the display, in its order. *)
Definition element_keys : list string :=
  (List.map fst positions ++ ["orbital_period"])%list.

(** A line that parses: it qualifies, has eleven fields or more, and its
    display raises nothing. *)
Definition parses (line : string) : bool :=
  qualifies line && (11 <=? List.length (split_fields line))%nat &&
  match row_elements (split_fields line) with
  | Ok _ => true
  | Raise _ => false
  end.

(** A string that [float] accepts. *)
Definition is_number (s : string) : bool :=
  match Float.of_string s with Ok _ => true | Raise _ => false end.

(** ** Shape of the extracted elements *)

(** The values the strategies store: a binary64 float, or the integer
    zero. *)
Definition elem_value (v : pyval) : bool :=
  match v with
  | VInt z => z =? 0
  | VFloat f => valid_binary Float.prec Float.emax f
  | _ => false
  end.

(** Every value but that of the orbital period is such a value. *)
Definition entry_ok (kv : string * pyval) : Prop :=
  fst kv = "orbital_period" \/ elem_value (snd kv) = true.

Definition elements_ok (d : dict) : Prop := Forall entry_ok d.

(** ** The fallback strategy *)

(** In the patterns of the source the classes [\s], [=] and [[\d.+-]] are
    pairwise disjoint and the group ends its branch: a repetition never
    has to give back what it has taken, and a branch is read off in one
    pass. [Scan] is that reading, on the labels of the branches. *)

Module Scan.

(** The literal text [lab], ignoring case: gives what follows it. *)
Fixpoint literal (lab s : string) : option string :=
  match lab, s with
  | EmptyString, _ => Some s
  | String a l, String b r =>
      if Ascii.eqb (Str.lower b) (Str.lower a) then literal l r else None
  | String _ _, EmptyString => None
  end.

(** One branch at the start of [s]: the text of its group. *)
Definition branch (lab s : string) : option string :=
  match literal lab s with
  | Some r1 =>
      match Str.lstrip_by Str.isspace r1 with
      | String "=" r2 =>
          let v := fst (Str.span Re.valchar (Str.lstrip_by Str.isspace r2)) in
          if Str.truthy v then Some v else None
      | _ => None
      end
  | None => None
  end.

(** The branches at the start of [s]: the first one that matches. *)
Fixpoint alternation (labs : list string) (s : string)
  : option Re.matchobj :=
  match labs with
  | [] => None
  | lab :: rest =>
      match branch lab s with
      | Some v => Some (Some v :: List.map (fun _ => None) rest)
      | None => option_map (cons None) (alternation rest s)
      end
  end.

(** The leftmost position at which a branch matches. *)
Fixpoint search (labs : list string) (s : string) : option Re.matchobj :=
  match alternation labs s with
  | Some m => Some m
  | None =>
      match s with
      | EmptyString => None
      | String _ r => search labs r
      end
  end.

End Scan.

(** A pattern with one or two branches, as all those of the source are. *)
Definition short (labs : list string) : Prop :=
  List.length labs = 1%nat \/ List.length labs = 2%nat.

(** The pattern whose branches have the given labels. *)
Definition of_labels (labs : list string) : Re.regex :=
  match labs with
  | [l1] => Re.key_value 1 l1
  | [l1; l2] => Re.Or (Re.key_value 1 l1) (Re.key_value 2 l2)
  | _ => Re.Many1 (fun _ => false)
  end.

(** The labels of the patterns of the source. *)
Definition label_patterns : list (string * list string) :=
  [ ("semimajor_axis", ["a"]);
    ("eccentricity", ["e"]);
    ("inclination", ["i"]);
    ("longitude_ascending_node", ["node"; "Omega"]);
    ("argument_perihelion", ["peri"; "w"]);
    ("mean_anomaly", ["M"]);
    ("perihelion", ["q"]);
    ("aphelion", ["Q"]) ].

(** The number a pattern yields on a text, when it matches and the matched
    text is a number. *)
Definition extracted (text : string) (labs : list string)
  : option Float.float :=
  match Scan.search labs text with
  | Some m =>
      match matched_value m with
      | Ok (Some v) =>
          match Float.of_string v with
          | Ok f => Some f
          | Raise _ => None
          end
      | _ => None
      end
  | None => None
  end.

(** The effect of one step of the loop over the patterns. *)
Definition store (text : string) (elements : dict) (kp : string * list string)
  : dict :=
  match extracted text (snd kp) with
  | Some f => Dict.set (fst kp) (VFloat f) elements
  | None => elements
  end.

(** ** Texts *)

(** The test on the two phrases of an unknown object. *)
Definition not_found (text : string) : bool :=
  Str.contains "No matches found" text || Str.contains "Cannot find" text.

(** A line feed, the separator of the lines. *)
Definition nl : string := String newline "".

(** A response made of a data section with the given lines. *)
Definition block (lines : list string) : string :=
  "$$SOE" ++ nl ++ String.concat nl lines ++ nl ++ "$$EOE".

(** The row of the example. *)
Definition example_row : string :=
  "0.25,30.1,10.5,100.2,200.3,0,0,15.0,0,400.0,500.0,1000".

(** The elements the example row stands for, each the binary64 nearest to
    the decimal written in the row. *)
Definition example_elements : dict :=
  [ ("eccentricity", VFloat (Float.of_ratio false 25 100));
    ("perihelion", VFloat (Float.of_ratio false 301 10));
    ("inclination", VFloat (Float.of_ratio false 105 10));
    ("longitude_ascending_node", VFloat (Float.of_ratio false 1002 10));
    ("argument_perihelion", VFloat (Float.of_ratio false 2003 10));
    ("mean_anomaly", VFloat (Float.of_ratio false 15 1));
    ("semimajor_axis", VFloat (Float.of_ratio false 400 1));
    ("aphelion", VFloat (Float.of_ratio false 500 1));
    ("orbital_period", VFloat (Float.of_ratio false 1000 1)) ].

(** The example row with its first and last fields left empty. *)
Definition sparse_row : string :=
  ",30.1,10.5,100.2,200.3,0,0,15.0,0,400.0,500.0,".

(** The example row without its last field: eleven fields, all numbers. *)
Definition eleven_row : string :=
  "0.25,30.1,10.5,100.2,200.3,0,0,15.0,0,400.0,500.0".

(** The example row with a twelfth field that is not a number. *)
Definition unknown_period_row : string :=
  "0.25,30.1,10.5,100.2,200.3,0,0,15.0,0,400.0,500.0,n.a.".

(** A response whose data section holds the example row and then another
    row. *)
Definition two_row_text : string :=
  block [example_row; "1,2,3,4,5,6,7,8,9,10,11,12"].

(** A service that knows every object under its designation only, with
    the example row for elements. *)
Definition designation_only : list request -> request -> option string :=
  fun _ r =>
    if Str.startswith "DES=" (fst r) then Some (block [example_row])
    else Some "No matches found".

(** ** Numbers *)

(** The binary64 values: the floats whose mantissa and exponent are in
    the canonical form of the format. *)
Definition binary64 (x : Float.float) : Prop :=
  valid_binary Float.prec Float.emax x = true.

(** The exponent of the format for a number of [e] binary digits before
    the point. *)
Definition fexp64 (e : Z) : Z := Z.max (e - 53) (-1074).

(** [n < x] for the number [x] that a float stands for, the mantissa
    scaled by the power of two of the exponent; nothing is below a NaN. *)
Definition above (n : Z) (x : Float.float) : Prop :=
  match x with
  | S754_zero _ => n < 0
  | S754_infinity s => s = false
  | S754_nan => False
  | S754_finite s m e =>
      let v := if s then Zneg m else Zpos m in
      if 0 <=? e then n < v * 2 ^ e else n * 2 ^ (- e) < v
  end.

(** [n < v] for the number a value stands for. *)
Definition exceeds (v : pyval) (n : Z) : Prop :=
  match v with
  | VInt x => n < x
  | VFloat f => above n f
  | _ => False
  end.

(** A number whose float, if it is one, is a binary64 value. *)
Definition number (v : pyval) : Prop :=
  match v with
  | VInt _ => True
  | VFloat f => binary64 f
  | _ => False
  end.

(** The floats of the integers 30 and 360. *)
Definition thirty : Float.float := S754_finite false 8444249301319680 (-48).

Definition three_sixty : Float.float :=
  S754_finite false 6333186975989760 (-44).

(** ** The clustering summary *)

(** The float of an angle; the one of the integer zero is [+0.0]. *)
Definition angle_float (v : pyval) : Float.float :=
  match v with
  | VFloat f => f
  | _ => Float.zero
  end.

(** The longitude of perihelion: the sum of the longitude of the ascending
    node and of the argument of perihelion, zero standing for an absent
    one, modulo 360. Two integers are added and reduced as integers;
    otherwise the sum and the remainder are those of binary64. *)
Definition longitude_of_perihelion (elem : dict) : pyval :=
  let node :=
    match Dict.get "longitude_ascending_node" elem with
    | Some v => v
    | None => VInt 0
    end in
  let peri :=
    match Dict.get "argument_perihelion" elem with
    | Some v => v
    | None => VInt 0
    end in
  match node, peri with
  | VInt x, VInt y => VInt ((x + y) mod 360)
  | _, _ =>
      VFloat (Float.rem (Float.add (angle_float node) (angle_float peri))
                three_sixty)
  end.

(** The records of the list [tnos]: four keys, and elements of the shape
    the extractor gives. *)
Definition tno_ok (t : dict) : Prop :=
  exists name designation ty e,
    t = [ ("name", VStr name); ("designation", VStr designation);
          ("type", VStr ty); ("orbital_elements", VDict e) ] /\
    elements_ok e.

(** A line of the table is that of a record: its name, its longitude of
    perihelion and its perihelion distance. *)
Definition line_of (t : dict) (l : cluster_line) : Prop :=
  exists elem,
    Dict.get "orbital_elements" t = Some (VDict elem) /\
    Dict.get "name" t = Some (line_name l) /\
    line_lon_peri l = longitude_of_perihelion elem /\
    line_q l = Dict.get_default "perihelion" (VInt 0) elem.

(** ** The request URL *)

(** A character as it stands in a query string: a space as a plus sign, a
    letter, a digit or one of [_.-~] as itself, any other as the escapes
    of its UTF-8 bytes. *)
Definition escape_char (c : ascii) : string :=
  if Ascii.eqb c " " then "+"
  else Url.quote_from_bytes (fun _ => false) (Url.utf8 c).

(** A text as it stands in a query string. *)
Fixpoint escape (s : string) : string :=
  match s with
  | EmptyString => EmptyString
  | String c r => escape_char c ++ escape r
  end.

(** The characters of an escaped text. *)
Definition escaped_char (c : ascii) : bool :=
  Url.always_safe c || Ascii.eqb c "%" || Ascii.eqb c "+".

(** The characters of the URL. *)
Definition url_char (c : ascii) : bool :=
  escaped_char c || Ascii.eqb c "=" || Ascii.eqb c "&" || Ascii.eqb c "?"
  || Ascii.eqb c ":" || Ascii.eqb c "/".

(** The value of a hexadecimal digit. *)
Definition hexval (c : ascii) : N :=
  if Str.between 48 57 c then Str.code c - 48 else Str.code c - 55.

(** The character the first escape of a text stands for, and what
    follows that escape. *)
Definition unescape_char (s : string) : option (ascii * string) :=
  match s with
  | String "+" r => Some (" "%char, r)
  | String "%" (String h1 (String h2 r)) =>
      let b := (16 * hexval h1 + hexval h2)%N in
      if (b <? 128)%N then Some (ascii_of_N b, r)
      else
        match r with
        | String "%" (String h3 (String h4 r')) =>
            Some (ascii_of_N ((b - 192) * 64
                              + (16 * hexval h3 + hexval h4 - 128)), r')
        | _ => None
        end
  | String c r => Some (c, r)
  | EmptyString => None
  end.

(** ** The lines of the data section *)

(** The lines the loop of the tabular strategy runs over: those of the
    data section when the text has both markers, none otherwise. *)
Definition data_lines (text : string) : list string :=
  if Str.contains "$$SOE" text && Str.contains "$$EOE" text
  then Str.split newline (data_section text)
  else [].

(** The last of the lines that parses, if one does. *)
Definition last_parsed (lines : list string) : option string :=
  List.find parses (List.rev lines).

(** The fields the display reads. *)
Definition used_fields : list nat := [0; 1; 2; 3; 4; 7; 9; 10; 11]%nat.

(** The field [i] is there, and is empty or a number. *)
Definition readable (parts : list string) (i : nat) : bool :=
  match nth_error parts i with
  | Some s => negb (Str.truthy s) || is_number s
  | None => false
  end.

(** A field that holds no comma. *)
Definition comma_free (s : string) : bool :=
  negb (Str.existsb (fun c => Ascii.eqb c ",") s).

(** A response whose markers come in the wrong order around a row, with
    an eccentricity written after them. *)
Definition reversed_text : string :=
  "$$EOE" ++ nl ++ example_row ++ nl ++ "$$SOE e = 0.5".

(** ** The entries of the fallback dictionary *)

(** The entry a pattern contributes to the fallback dictionary: its key
    with the float of the matched text, or nothing. *)
Definition found (text : string) (kp : string * Re.regex) : dict :=
  match Re.search (snd kp) text with
  | Some m =>
      match matched_value m with
      | Ok (Some v) =>
          match Float.of_string v with
          | Ok f => [(fst kp, VFloat f)]
          | Raise _ => []
          end
      | _ => []
      end
  | None => []
  end.

(** A float that is a number, finite or infinite. *)
Definition not_nan (x : Float.float) : bool :=
  match x with S754_nan => false | _ => true end.

(** An entry of the fallback dictionary: a binary64 float that is not a
    NaN, under one of the keys of the patterns. *)
Definition fallback_entry (kv : string * pyval) : Prop :=
  In (fst kv) (List.map fst patterns) /\
  exists f, snd kv = VFloat f /\ binary64 f /\ not_nan f = true.

(** ** The shape of the elements *)

(** An entry of the elements: a binary64 float, the integer zero under a
    key other than the orbital period, or [None] under that key. *)
Definition value_ok (kv : string * pyval) : Prop :=
  match snd kv with
  | VFloat f => binary64 f
  | VInt z => z = 0 /\ fst kv <> "orbital_period"
  | VNone => fst kv = "orbital_period"
  | _ => False
  end.

(** The shape of the elements: keys among the nine of the display, none
    twice, and values as above. *)
Definition schema (d : dict) : Prop :=
  NoDup (Dict.keys d) /\ incl (Dict.keys d) element_keys /\
  Forall value_ok d.

(** ** The run of [main] *)

(** The records kept for the entries of a catalogue: in the order of the
    catalogue, one at most for an entry, each related to its entry. *)
Inductive picked {A B : Type} (R : A -> B -> Prop)
  : list A -> list B -> Prop :=
| picked_nil : picked R [] []
| picked_skip (a : A) (l : list A) (d : list B) :
    picked R l d -> picked R (a :: l) d
| picked_keep (a : A) (l : list A) (r : B) (d : list B) :
    R a r -> picked R l d -> picked R (a :: l) (r :: d).

(** The record of a planet: that of its catalogue entry, with elements
    that are not empty and of the shape the extractor gives. *)
Definition planet_entry (info : planet_info) (r : dict) : Prop :=
  exists e, r = planet_record info e /\ Dict.truthy e = true /\ elements_ok e.

(** The record of a TNO, likewise. *)
Definition tno_entry (info : tno_info) (r : dict) : Prop :=
  exists e, tno_record info e = Ok r /\ Dict.truthy e = true /\ elements_ok e.

(** The requests made for a TNO: its identifier, or its identifier and
    then the form prefixed with [DES=]. *)
Definition attempts (ep : string) (info : tno_info) (rs : list request)
  : Prop :=
  rs = [(tno_id info, ep)] \/
  rs = [(tno_id info, ep); ("DES=" ++ tno_id info, ep)].

(** The line of the table of a TNO: its name, and a perihelion distance
    above 30. *)
Definition table_line (info : tno_info) (l : cluster_line) : Prop :=
  line_name l = VStr (tno_name info) /\ exceeds (line_q l) 30.

(** ** A service that answers a request the same way whenever it is made *)

(** The elements a service that answers a request the same way whenever it
    is made gives for an identifier. *)
Definition elements_of (answer : request -> option string)
  (object_id : string) : option dict :=
  match answer (object_id, epoch) with
  | Some data =>
      match parse_horizons_output data object_id with
      | Ok r => r
      | Raise _ => None
      end
  | None => None
  end.

(** The record of a planet under such a service, if it has one. *)
Definition planet_of (answer : request -> option string)
  (info : planet_info) : list dict :=
  match elements_of answer (planet_id info) with
  | Some e => [planet_record info e]
  | None => []
  end.

(** The elements retained for a TNO: those of its identifier, else those
    of the form prefixed with [DES=]. *)
Definition retained (answer : request -> option string) (info : tno_info)
  : option dict :=
  match elements_of answer (tno_id info) with
  | Some e => Some e
  | None => elements_of answer ("DES=" ++ tno_id info)
  end.

(** The record of a TNO under such a service, if it has one. *)
Definition tno_of (answer : request -> option string) (info : tno_info)
  : list dict :=
  match retained answer info with
  | Some e =>
      match tno_record info e with
      | Ok r => [r]
      | Raise _ => []
      end
  | None => []
  end.

(** The requests made for a TNO under such a service. *)
Definition requests_of (answer : request -> option string) (info : tno_info)
  : list request :=
  match elements_of answer (tno_id info) with
  | Some _ => [(tno_id info, epoch)]
  | None => [(tno_id info, epoch); ("DES=" ++ tno_id info, epoch)]
  end.

(** ** Angles *)

(** A float of the given sign that is zero, or finite and at most 360 in
    magnitude, its exponent at most -44. *)
Definition upto (s : bool) (x : Float.float) : Prop :=
  match x with
  | S754_zero s' => s' = s
  | S754_finite s' m e => s' = s /\ e <= -44 /\ Zpos m <= 360 * 2 ^ (- e)
  | _ => False
  end.

(** An angle as [% 360] leaves it: an integer from 0 to 359, or a float
    that is a NaN, [+0.0] or positive and not above 360. *)
Definition turn (v : pyval) : Prop :=
  match v with
  | VInt z => 0 <= z < 360
  | VFloat S754_nan => True
  | VFloat (S754_zero s) => s = false
  | VFloat (S754_finite s m e) =>
      s = false /\ ~ above 360 (S754_finite s m e)
  | _ => False
  end.

(** Whether bits were lost in a shift. *)
Definition inexact (mrs : shr_record) : bool := shr_r mrs || shr_s mrs.

(** * Properties *)

(** ** The result monad *)

Lemma rbind_ok {A B : Type} (r : result A) (k : A -> result B) (b : B) :
  rbind r k = Ok b -> exists a, r = Ok a /\ k a = Ok b.
Proof.
  destruct r as [a | e]; simpl; intros H.
  - exists a; split; [reflexivity | exact H].
  - discriminate H.
Qed.

Lemma rbind_raise {A B : Type} (r : result A) (k : A -> result B) (e : exn) :
  rbind r k = Raise e ->
  r = Raise e \/ exists a, r = Ok a /\ k a = Raise e.
Proof.
  destruct r as [a | e']; simpl; intros H.
  - right; exists a; split; [reflexivity | exact H].
  - left; injection H as ->; reflexivity.
Qed.

(** Splits a successful chain of binds into its steps. *)
Ltac bind_inv H :=
  let a := fresh "v" in
  let Ha := fresh "Hv" in
  apply rbind_ok in H; destruct H as [a [Ha H]].

(** ** Strings *)

Lemma truthy_empty (s : string) : Str.truthy s = false <-> s = "".
Proof.
  destruct s; simpl; split; intros H; try reflexivity; discriminate H.
Qed.

Lemma contains_index (p s : string) :
  Str.contains p s = true -> exists n, Str.index p s = Some n.
Proof.
  unfold Str.contains. destruct (Str.index p s) as [n |]; intros H.
  - exists n; reflexivity.
  - discriminate H.
Qed.

(** ** [float(s)] *)

(** [float] on a string raises nothing but [ValueError]. *)
Lemma of_string_raise (s : string) (e : exn) :
  Float.of_string s = Raise e -> e = ValueError.
Proof.
  unfold Float.of_string.
  destruct (Float.strip_underscores "000" s) as [t |].
  - destruct (Float.sign (Str.strip_by Float.isspace t)) as [neg u].
    destruct (String.eqb (Str.map Str.lower u) "inf"
              || String.eqb (Str.map Str.lower u) "infinity");
      [discriminate |].
    destruct (String.eqb (Str.map Str.lower u) "nan"); [discriminate |].
    destruct (Float.number u) as [[m e10] |]; [discriminate |].
    intros H; injection H as <-; reflexivity.
  - intros H; injection H as <-; reflexivity.
Qed.

(** The empty string is not a number. *)
Lemma of_string_truthy (s : string) (f : Float.float) :
  Float.of_string s = Ok f -> Str.truthy s = true.
Proof.
  destruct s; [discriminate | reflexivity].
Qed.

(** ** Binary64 values *)

Lemma digits2_bounds (p : positive) :
  2 ^ (Zpos (digits2_pos p) - 1) <= Zpos p < 2 ^ Zpos (digits2_pos p).
Proof.
  induction p as [p IH | p IH |]; cbn [digits2_pos].
  - rewrite Pos2Z.inj_succ, (Pos2Z.inj_xI p).
    replace (Z.succ (Zpos (digits2_pos p)) - 1)
      with (Z.succ (Zpos (digits2_pos p) - 1)) by lia.
    rewrite !Z.pow_succ_r by lia.
    generalize dependent (2 ^ (Zpos (digits2_pos p) - 1)).
    generalize (2 ^ Zpos (digits2_pos p)). intros; lia.
  - rewrite Pos2Z.inj_succ, (Pos2Z.inj_xO p).
    replace (Z.succ (Zpos (digits2_pos p)) - 1)
      with (Z.succ (Zpos (digits2_pos p) - 1)) by lia.
    rewrite !Z.pow_succ_r by lia.
    generalize dependent (2 ^ (Zpos (digits2_pos p) - 1)).
    generalize (2 ^ Zpos (digits2_pos p)). intros; lia.
  - simpl. lia.
Qed.

(** The mantissa of a binary64 value has at most 53 bits, and exactly 53
    above the smallest exponent. *)
Lemma binary64_mantissa (s : bool) (m : positive) (e : Z) :
  binary64 (S754_finite s m e) ->
  Zpos m < 2 ^ 53 /\ (-1074 < e -> 2 ^ 52 <= Zpos m).
Proof.
  unfold binary64, valid_binary, bounded, canonical_mantissa, fexp, emin,
    Float.prec, Float.emax.
  intros H. apply andb_prop in H. destruct H as [H _].
  apply Z.eqb_eq in H.
  pose proof (digits2_bounds m) as [Hlo Hhi].
  assert (Hd : Zpos (digits2_pos m) <= 53) by lia.
  split.
  - apply Z.lt_le_trans with (1 := Hhi).
    apply Z.pow_le_mono_r; lia.
  - intros He. assert (Hd' : Zpos (digits2_pos m) = 53) by lia.
    rewrite Hd' in Hlo. exact Hlo.
Qed.

(** *** Rounding gives binary64 values *)

Lemma fexp64_eq (e : Z) : fexp Float.prec Float.emax e = fexp64 e.
Proof. reflexivity. Qed.

Lemma Zdigits2_nonneg (m : Z) : 0 <= Zdigits2 m.
Proof. destruct m; simpl; lia. Qed.

Lemma Zdigits2_bounds (m : Z) :
  0 < m -> 2 ^ (Zdigits2 m - 1) <= m < 2 ^ Zdigits2 m.
Proof.
  destruct m as [| p | p]; try lia. intros _. apply digits2_bounds.
Qed.

Lemma Zdigits2_pos (m : Z) : 0 < m -> 0 < Zdigits2 m.
Proof. destruct m; simpl; lia. Qed.

Lemma Zdigits2_unique (m k : Z) :
  2 ^ (k - 1) <= m < 2 ^ k -> 0 < k -> Zdigits2 m = k.
Proof.
  intros [Hlo Hhi] Hk.
  assert (Hm : 0 < m).
  { apply Z.lt_le_trans with (2 := Hlo). apply Z.pow_pos_nonneg; lia. }
  destruct (Zdigits2_bounds m Hm) as [Hlo' Hhi'].
  pose proof (Zdigits2_pos m Hm) as Hd.
  destruct (Z.lt_trichotomy (Zdigits2 m) k) as [H | [H | H]]; [| exact H |].
  - exfalso.
    assert (2 ^ Zdigits2 m <= 2 ^ (k - 1)) by (apply Z.pow_le_mono_r; lia).
    lia.
  - exfalso.
    assert (2 ^ k <= 2 ^ (Zdigits2 m - 1)) by (apply Z.pow_le_mono_r; lia).
    lia.
Qed.

Lemma Zdigits2_div (m n : Z) :
  0 < m -> 0 <= n ->
  (n < Zdigits2 m -> Zdigits2 (m / 2 ^ n) = Zdigits2 m - n) /\
  (Zdigits2 m <= n -> m / 2 ^ n = 0).
Proof.
  intros Hm Hn. destruct (Zdigits2_bounds m Hm) as [Hlo Hhi].
  assert (Hp : 0 < 2 ^ n) by (apply Z.pow_pos_nonneg; lia).
  split; intros H.
  - apply Zdigits2_unique; [| lia]. split.
    + apply Z.div_le_lower_bound; [exact Hp |].
      rewrite <- Z.pow_add_r by lia.
      replace (n + (Zdigits2 m - n - 1)) with (Zdigits2 m - 1) by lia.
      exact Hlo.
    + apply Z.div_lt_upper_bound; [exact Hp |].
      rewrite <- Z.pow_add_r by lia.
      replace (n + (Zdigits2 m - n)) with (Zdigits2 m) by lia.
      exact Hhi.
  - apply Z.div_small. split; [lia |].
    apply Z.lt_le_trans with (1 := Hhi). apply Z.pow_le_mono_r; lia.
Qed.

Lemma shr_1_m (mrs : shr_record) :
  0 <= shr_m mrs -> shr_m (shr_1 mrs) = shr_m mrs / 2.
Proof.
  destruct mrs as [m r s]. cbn [shr_m]. intros Hm.
  rewrite <- Z.div2_div.
  destruct m as [| [p | p |] | p]; try reflexivity; lia.
Qed.

Lemma iter_shr_m (p : positive) (mrs : shr_record) :
  0 <= shr_m mrs ->
  shr_m (iter_pos shr_1 p mrs) = shr_m mrs / 2 ^ Zpos p.
Proof.
  revert mrs. induction p as [p IH | p IH |]; intros mrs Hm; cbn [iter_pos].
  - assert (H1 : 0 <= shr_m (shr_1 mrs))
      by (rewrite shr_1_m by exact Hm; apply Z.div_pos; lia).
    assert (Hp : 0 < 2 ^ Zpos p) by (apply Z.pow_pos_nonneg; lia).
    assert (H2 : 0 <= shr_m (iter_pos shr_1 p (shr_1 mrs)))
      by (rewrite IH by exact H1; apply Z.div_pos; lia).
    rewrite IH by exact H2. rewrite IH by exact H1.
    rewrite shr_1_m by exact Hm.
    rewrite !Z.div_div by lia. f_equal.
    rewrite (Pos2Z.inj_xI p).
    replace (2 * Zpos p + 1) with (1 + Zpos p + Zpos p) by lia.
    rewrite !Z.pow_add_r by lia. change (2 ^ 1) with 2. ring.
  - assert (Hp : 0 < 2 ^ Zpos p) by (apply Z.pow_pos_nonneg; lia).
    assert (H2 : 0 <= shr_m (iter_pos shr_1 p mrs))
      by (rewrite IH by exact Hm; apply Z.div_pos; lia).
    rewrite IH by exact H2. rewrite IH by exact Hm.
    rewrite !Z.div_div by lia. f_equal.
    rewrite (Pos2Z.inj_xO p).
    replace (2 * Zpos p) with (Zpos p + Zpos p) by lia.
    rewrite !Z.pow_add_r by lia. ring.
  - rewrite shr_1_m by exact Hm. reflexivity.
Qed.

Lemma shr_record_of_loc_m (m : Z) (l : location) :
  shr_m (shr_record_of_loc m l) = m.
Proof. destruct l as [| []]; reflexivity. Qed.

(** The mantissa and the exponent after the shift that brings a mantissa
    to the exponent of its format. *)
Lemma shr_fexp_m (m e : Z) (l : location) :
  0 <= m ->
  let n := Z.max 0 (fexp64 (Zdigits2 m + e) - e) in
  shr_m (fst (shr_fexp Float.prec Float.emax m e l)) = m / 2 ^ n /\
  snd (shr_fexp Float.prec Float.emax m e l) = e + n.
Proof.
  intros Hm. unfold shr_fexp. rewrite fexp64_eq. cbv zeta.
  destruct (fexp64 (Zdigits2 m + e) - e) as [| p | p] eqn:E; unfold shr.
  - cbn [fst snd]. rewrite shr_record_of_loc_m.
    change (Z.max 0 0) with 0. rewrite Z.pow_0_r, Z.div_1_r. lia.
  - cbn [fst snd]. rewrite iter_shr_m
      by (rewrite shr_record_of_loc_m; exact Hm).
    rewrite shr_record_of_loc_m.
    replace (Z.max 0 (Zpos p)) with (Zpos p) by lia. split; reflexivity.
  - cbn [fst snd]. rewrite shr_record_of_loc_m.
    replace (Z.max 0 (Zneg p)) with 0 by lia.
    rewrite Z.pow_0_r, Z.div_1_r. lia.
Qed.

Lemma round_nearest_even_cases (m : Z) (l : location) :
  round_nearest_even m l = m \/ round_nearest_even m l = m + 1.
Proof.
  destruct l as [| []]; simpl; auto. destruct (Z.even m); auto.
Qed.

(** After the shift, the mantissa and the exponent are in the canonical
    form, or the mantissa is zero at the smallest exponent. *)
Lemma shift_canonical (m e : Z) :
  0 <= m -> e <= fexp64 (Zdigits2 m + e) ->
  let n := Z.max 0 (fexp64 (Zdigits2 m + e) - e) in
  0 <= m / 2 ^ n /\
  (m / 2 ^ n = 0 -> e + n = -1074) /\
  (0 < m / 2 ^ n -> fexp64 (Zdigits2 (m / 2 ^ n) + (e + n)) = e + n).
Proof.
  intros Hm He n.
  assert (Hn : n = fexp64 (Zdigits2 m + e) - e) by (unfold n; lia).
  assert (Hn0 : 0 <= n) by lia.
  assert (Hp : 0 < 2 ^ n) by (apply Z.pow_pos_nonneg; lia).
  split; [apply Z.div_pos; lia |].
  destruct (Z.eq_dec m 0) as [-> | Hm0].
  - rewrite Z.div_0_l by lia. split; [| lia].
    intros _. change (Zdigits2 0) with 0 in *. unfold fexp64 in *. lia.
  - destruct (Zdigits2_div m n ltac:(lia) Hn0) as [Hlt Hge].
    destruct (Z_lt_le_dec n (Zdigits2 m)) as [H | H].
    + specialize (Hlt H). split.
      * intros H0. rewrite H0 in Hlt. change (Zdigits2 0) with 0 in Hlt. lia.
      * intros _. rewrite Hlt.
        replace (Zdigits2 m - n + (e + n)) with (Zdigits2 m + e) by lia. lia.
    + specialize (Hge H). rewrite Hge. split; [| lia].
      intros _. unfold fexp64 in *. lia.
Qed.

Lemma round_shift_canonical (m' e' m1 : Z) :
  0 <= m' -> (m' = 0 -> e' = -1074) ->
  (0 < m' -> fexp64 (Zdigits2 m' + e') = e') ->
  m1 = m' \/ m1 = m' + 1 ->
  let n2 := Z.max 0 (fexp64 (Zdigits2 m1 + e') - e') in
  0 <= m1 / 2 ^ n2 /\
  (0 < m1 / 2 ^ n2 ->
   fexp64 (Zdigits2 (m1 / 2 ^ n2) + (e' + n2)) = e' + n2).
Proof.
  intros Hm' Hz Hc Hm1 n2.
  assert (Hn0 : 0 <= n2) by (unfold n2; lia).
  assert (Hp : 0 < 2 ^ n2) by (apply Z.pow_pos_nonneg; lia).
  split; [apply Z.div_pos; lia |]. intros Hpos.
  assert (Hm1pos : 0 < m1).
  { destruct (Z.eq_dec m1 0) as [-> | ]; [| lia].
    rewrite Z.div_0_l in Hpos by lia. lia. }
  assert (Hsame : Zdigits2 m1 = Zdigits2 m' -> 0 < m' ->
                  fexp64 (Zdigits2 (m1 / 2 ^ n2) + (e' + n2)) = e' + n2).
  { intros Hd Hp'. specialize (Hc Hp').
    assert (n2 = 0) by (unfold n2; rewrite Hd; lia).
    replace n2 with 0 in *. rewrite Z.pow_0_r, Z.div_1_r, Hd, Z.add_0_r.
    exact Hc. }
  destruct Hm1 as [-> | ->]; [apply Hsame; [reflexivity | lia] |].
  destruct (Z.eq_dec m' 0) as [-> | Hm0].
  - specialize (Hz eq_refl). subst e'.
    assert (n2 = 0) by (unfold n2; reflexivity).
    replace n2 with 0 in *. reflexivity.
  - assert (Hp' : 0 < m') by lia. specialize (Hc Hp').
    destruct (Zdigits2_bounds m' Hp') as [Hlo Hhi].
    pose proof (Zdigits2_pos m' Hp') as Hd.
    destruct (Z.eq_dec (m' + 1) (2 ^ Zdigits2 m')) as [Heq | Hne].
    + assert (Hd1 : Zdigits2 (m' + 1) = Zdigits2 m' + 1).
      { apply Zdigits2_unique; [| lia].
        replace (Zdigits2 m' + 1 - 1) with (Zdigits2 m') by lia.
        split; [lia |]. rewrite Z.pow_add_r by lia.
        change (2 ^ 1) with 2. lia. }
      unfold fexp64 in Hc.
      destruct (Z_le_gt_dec (-1074) (Zdigits2 m' + e' - 53)) as [Hn | Hs].
      * assert (Hn2 : n2 = 1) by (unfold n2, fexp64; rewrite Hd1; lia).
        replace n2 with 1 in *. change (2 ^ 1) with 2 in *.
        assert (Hhalf : (m' + 1) / 2 = 2 ^ (Zdigits2 m' - 1)).
        { rewrite Heq.
          replace (Zdigits2 m') with (1 + (Zdigits2 m' - 1)) at 1 by lia.
          rewrite Z.pow_add_r by lia. change (2 ^ 1) with 2.
          rewrite Z.mul_comm, Z.div_mul by lia. reflexivity. }
        rewrite Hhalf.
        assert (Hdh : Zdigits2 (2 ^ (Zdigits2 m' - 1)) = Zdigits2 m').
        { apply Zdigits2_unique; [| lia]. split; [lia |].
          apply Z.pow_lt_mono_r; lia. }
        rewrite Hdh. unfold fexp64. lia.
      * assert (Hn2 : n2 = 0) by (unfold n2, fexp64; rewrite Hd1; lia).
        replace n2 with 0 in *. rewrite Z.pow_0_r, Z.div_1_r, Hd1.
        unfold fexp64. lia.
    + apply Hsame; [| exact Hp'].
      apply Zdigits2_unique; [| lia]. split; lia.
Qed.

(** Rounding a mantissa that has the digits of its format, or more, gives
    a binary64 value. *)
Lemma binary_round_aux_valid (s : bool) (m e : Z) (l : location) :
  0 <= m -> e <= fexp64 (Zdigits2 m + e) ->
  binary64 (binary_round_aux Float.prec Float.emax s m e l).
Proof.
  intros Hm He. unfold binary64, binary_round_aux.
  destruct (shr_fexp_m m e l Hm) as [Hm' He'].
  destruct (shr_fexp Float.prec Float.emax m e l) as [mrs' e'].
  cbn [fst snd] in Hm', He'.
  destruct (shift_canonical m e Hm He) as (H0 & Hz & Hc).
  cbv zeta in H0, Hz, Hc.
  rewrite <- Hm' in H0, Hz, Hc. rewrite <- He' in Hz, Hc.
  pose proof (round_nearest_even_cases (shr_m mrs') (loc_of_shr_record mrs'))
    as Hr.
  set (m1 := round_nearest_even (shr_m mrs') (loc_of_shr_record mrs')) in *.
  assert (Hm1 : 0 <= m1) by lia.
  destruct (shr_fexp_m m1 e' loc_Exact Hm1) as [Hm'' He''].
  destruct (shr_fexp Float.prec Float.emax m1 e' loc_Exact) as [mrs'' e''].
  cbn [fst snd] in Hm'', He''.
  destruct (round_shift_canonical (shr_m mrs') e' m1 H0 Hz Hc Hr) as [_ Hcan].
  cbv zeta in Hcan. rewrite <- Hm'', <- He'' in Hcan.
  destruct (shr_m mrs'') as [| p | p]; try reflexivity.
  destruct (e'' <=? Float.emax - Float.prec) eqn:Eb; [| reflexivity].
  cbn [valid_binary]. unfold bounded, canonical_mantissa.
  rewrite Eb, andb_true_r. apply Z.eqb_eq.
  rewrite fexp64_eq. apply Hcan. lia.
Qed.

Lemma fexp64_mono (a b : Z) : a <= b -> fexp64 a <= fexp64 b.
Proof. unfold fexp64. lia. Qed.

(** The quotient of the division has the digits rounding needs. *)
Lemma div_core_roundable (n d : positive) :
  let '(q, e, _) :=
    SFdiv_core_binary Float.prec Float.emax (Zpos n) 0 (Zpos d) 0 in
  0 <= q /\ e <= fexp64 (Zdigits2 q + e).
Proof.
  unfold SFdiv_core_binary. rewrite fexp64_eq.
  set (d1 := Zdigits2 (Zpos n)). set (d2 := Zdigits2 (Zpos d)).
  replace (d1 + 0 - (d2 + 0)) with (d1 - d2) by lia.
  change (0 - 0) with 0.
  set (e := Z.min (fexp64 (d1 - d2)) 0).
  set (s := 0 - e).
  assert (Hs : 0 <= s) by (unfold s, e; lia).
  assert (Hm' : match s with
                | Zpos _ => Z.shiftl (Zpos n) s
                | 0 => Zpos n
                | Zneg _ => 0
                end = Zpos n * 2 ^ s).
  { destruct s as [| p | p] eqn:Es; [| | lia].
    - rewrite Z.pow_0_r. lia.
    - rewrite Z.shiftl_mul_pow2 by lia. reflexivity. }
  rewrite Hm'. clear Hm'.
  destruct (Z.div_eucl (Zpos n * 2 ^ s) (Zpos d)) as [q r] eqn:E.
  assert (Hq : q = Zpos n * 2 ^ s / Zpos d) by (unfold Z.div; rewrite E; reflexivity).
  assert (Hp : 0 < 2 ^ s) by (apply Z.pow_pos_nonneg; lia).
  assert (Hq0 : 0 <= q) by (rewrite Hq; apply Z.div_pos; lia).
  split; [exact Hq0 |].
  destruct (Zdigits2_bounds (Zpos n) ltac:(lia)) as [Hn _].
  destruct (Zdigits2_bounds (Zpos d) ltac:(lia)) as [_ Hd].
  fold d1 in Hn. fold d2 in Hd.
  assert (Hd1 : 0 < d1) by (apply Zdigits2_pos; lia).
  assert (Hd2 : 0 < d2) by (apply Zdigits2_pos; lia).
  destruct (Z_le_gt_dec 0 (d1 + s - d2 - 1)) as [Hk | Hk].
  - assert (Hlow : 2 ^ (d1 + s - d2 - 1) <= q).
    { rewrite Hq. apply Z.div_le_lower_bound; [lia |].
      apply Z.le_trans with (2 ^ d2 * 2 ^ (d1 + s - d2 - 1)).
      - apply Z.mul_le_mono_nonneg_r; [apply Z.pow_nonneg |]; lia.
      - rewrite <- Z.pow_add_r by lia.
        replace (d2 + (d1 + s - d2 - 1)) with (d1 - 1 + s) by lia.
        rewrite Z.pow_add_r by lia.
        apply Z.mul_le_mono_nonneg_r; lia. }
    assert (Hqpos : 0 < q).
    { apply Z.lt_le_trans with (2 := Hlow). apply Z.pow_pos_nonneg; lia. }
    destruct (Zdigits2_bounds q Hqpos) as [_ Hqhi].
    assert (Hdq : d1 + s - d2 - 1 < Zdigits2 q).
    { destruct (Z_lt_le_dec (d1 + s - d2 - 1) (Zdigits2 q)) as [H | H];
        [exact H | exfalso].
      assert (2 ^ Zdigits2 q <= 2 ^ (d1 + s - d2 - 1))
        by (apply Z.pow_le_mono_r; lia).
      lia. }
    apply Z.le_trans with (fexp64 (d1 - d2)); [unfold e; lia |].
    apply fexp64_mono. unfold s in Hdq. lia.
  - pose proof (Zdigits2_nonneg q) as Hdq.
    unfold s, e, fexp64 in *. lia.
Qed.

Lemma of_ratio_valid (neg : bool) (n d : positive) :
  binary64 (Float.of_ratio neg n d).
Proof.
  unfold Float.of_ratio, SFdiv.
  pose proof (div_core_roundable n d) as H.
  destruct (SFdiv_core_binary Float.prec Float.emax (Zpos n) 0 (Zpos d) 0)
    as [[q e] l].
  destruct H as [Hq He]. apply binary_round_aux_valid; assumption.
Qed.

Lemma of_decimal_valid (neg : bool) (m e10 : Z) :
  binary64 (Float.of_decimal neg m e10).
Proof.
  unfold Float.of_decimal. destruct m; try reflexivity.
  destruct (0 <=? e10); apply of_ratio_valid.
Qed.

(** Every float read from a string is a binary64 value. *)
Lemma of_string_valid (s : string) (f : Float.float) :
  Float.of_string s = Ok f -> binary64 f.
Proof.
  unfold Float.of_string.
  destruct (Float.strip_underscores "000" s) as [t |]; [| discriminate].
  destruct (Float.sign (Str.strip_by Float.isspace t)) as [neg u].
  destruct (String.eqb (Str.map Str.lower u) "inf"
            || String.eqb (Str.map Str.lower u) "infinity").
  - intros H; injection H as <-; reflexivity.
  - destruct (String.eqb (Str.map Str.lower u) "nan").
    + intros H; injection H as <-; reflexivity.
    + destruct (Float.number u) as [[m e10] |]; [| discriminate].
      intros H; injection H as <-. apply of_decimal_valid.
Qed.

(** ** Fields of a row *)

Lemma item_nth_error (parts : list string) (i : nat) (s : string) :
  item parts i = Ok s <-> nth_error parts i = Some s.
Proof.
  unfold item. destruct (nth_error parts i); split; congruence.
Qed.

(** What a field of the display evaluates to. *)
Lemma field_ok (parts : list string) (i : nat) (dflt v : pyval) :
  field parts i dflt = Ok v <->
  exists s, nth_error parts i = Some s /\
    ((s = "" /\ v = dflt) \/ (exists f, Float.of_string s = Ok f /\ v = VFloat f)).
Proof.
  unfold field, item. split.
  - destruct (nth_error parts i) as [s |]; simpl; [| discriminate].
    intros H. exists s; split; [reflexivity |].
    destruct s as [| c r]; simpl in H.
    + left; split; congruence.
    + right. destruct (Float.of_string (String c r)) as [f | e]; simpl in H.
      * exists f; split; congruence.
      * discriminate H.
  - intros [s [Hs [[-> ->] | [f [Hf ->]]]]]; rewrite Hs; simpl.
    + reflexivity.
    + rewrite (of_string_truthy _ _ Hf), Hf. reflexivity.
Qed.

Lemma field_raise (parts : list string) (i : nat) (dflt : pyval) (e : exn) :
  field parts i dflt = Raise e -> e = ValueError \/ e = IndexError.
Proof.
  unfold field, item.
  destruct (nth_error parts i) as [s |]; simpl.
  - destruct (Str.truthy s); [| discriminate].
    destruct (Float.of_string s) as [f | e'] eqn:E; simpl; [discriminate |].
    intros H; injection H as <-. left; exact (of_string_raise _ _ E).
  - intros H; injection H as <-. right; reflexivity.
Qed.

(** A successful display: its nine entries, each the value of its field. *)
Lemma row_elements_ok (parts : list string) (d : dict) :
  row_elements parts = Ok d ->
  exists ec qr inc om w ma a ad pr,
    d = [ ("eccentricity", ec); ("perihelion", qr); ("inclination", inc);
          ("longitude_ascending_node", om); ("argument_perihelion", w);
          ("mean_anomaly", ma); ("semimajor_axis", a); ("aphelion", ad);
          ("orbital_period", pr) ] /\
    field parts 0 (VInt 0) = Ok ec /\ field parts 1 (VInt 0) = Ok qr /\
    field parts 2 (VInt 0) = Ok inc /\ field parts 3 (VInt 0) = Ok om /\
    field parts 4 (VInt 0) = Ok w /\ field parts 7 (VInt 0) = Ok ma /\
    field parts 9 (VInt 0) = Ok a /\ field parts 10 (VInt 0) = Ok ad /\
    field parts 11 VNone = Ok pr.
Proof.
  unfold row_elements. intros H.
  do 9 bind_inv H. injection H as <-.
  do 9 eexists. repeat split; eassumption.
Qed.

Lemma row_elements_raise (parts : list string) (e : exn) :
  row_elements parts = Raise e -> e = ValueError \/ e = IndexError.
Proof.
  unfold row_elements. intros H.
  repeat (apply rbind_raise in H;
          destruct H as [H | [? [_ H]]]; [exact (field_raise _ _ _ _ H) |]).
  discriminate H.
Qed.

(** The body of the loop over the lines never raises: it gives the display
    of the line, or leaves the dictionary as it was. *)
Lemma scan_line_cases (elements : dict) (line : string) :
  (exists d, row_elements (split_fields line) = Ok d /\
             scan_line elements line = Ok d) \/
  scan_line elements line = Ok elements.
Proof.
  unfold scan_line.
  destruct (qualifies line); [| right; reflexivity].
  destruct (11 <=? List.length (split_fields line))%nat; [| right; reflexivity].
  destruct (row_elements (split_fields line)) as [d | e] eqn:E.
  - left; exists d; split; reflexivity.
  - right. destruct (row_elements_raise _ _ E) as [-> | ->]; reflexivity.
Qed.

(** ** Dictionaries *)

Lemma get_set_same (k : string) (v : pyval) (d : dict) :
  Dict.get k (Dict.set k v d) = Some v.
Proof.
  induction d as [| [k' v'] r IH]; simpl.
  - rewrite String.eqb_refl. reflexivity.
  - destruct (String.eqb k k') eqn:E; simpl; rewrite E.
    + reflexivity.
    + exact IH.
Qed.

Lemma get_set_other (k k' : string) (v : pyval) (d : dict) :
  k <> k' -> Dict.get k (Dict.set k' v d) = Dict.get k d.
Proof.
  intros Hk. induction d as [| [k2 v2] r IH]; simpl.
  - destruct (String.eqb_spec k k'); [contradiction | reflexivity].
  - destruct (String.eqb_spec k' k2) as [-> | Hn]; simpl.
    + destruct (String.eqb_spec k k2); [contradiction | reflexivity].
    + destruct (String.eqb k k2); [reflexivity | exact IH].
Qed.

Lemma get_in (k : string) (v : pyval) (d : dict) :
  Dict.get k d = Some v -> In (k, v) d.
Proof.
  induction d as [| [k' v'] r IH]; simpl; [discriminate |].
  destruct (String.eqb_spec k k') as [-> | _]; intros H.
  - injection H as ->. left; reflexivity.
  - right; exact (IH H).
Qed.

Lemma set_truthy (k : string) (v : pyval) (d : dict) :
  Dict.truthy (Dict.set k v d) = true.
Proof.
  destruct d as [| [k' v'] r]; simpl; [reflexivity |].
  destruct (String.eqb k k'); reflexivity.
Qed.

(** ** Shape of the extracted elements *)

Lemma elements_ok_get (d : dict) (k : string) (v : pyval) :
  elements_ok d -> Dict.get k d = Some v -> k <> "orbital_period" ->
  elem_value v = true.
Proof.
  intros Hd Hg Hk. apply get_in in Hg.
  unfold elements_ok in Hd. rewrite Forall_forall in Hd.
  destruct (Hd _ Hg) as [H | H]; [contradiction | exact H].
Qed.

Lemma elements_ok_default (d : dict) (k : string) :
  elements_ok d -> k <> "orbital_period" ->
  elem_value (Dict.get_default k (VInt 0) d) = true.
Proof.
  intros Hd Hk. unfold Dict.get_default.
  destruct (Dict.get k d) as [v |] eqn:E.
  - exact (elements_ok_get _ _ _ Hd E Hk).
  - reflexivity.
Qed.

Lemma elements_ok_set (d : dict) (k : string) (f : Float.float) :
  binary64 f -> elements_ok d -> elements_ok (Dict.set k (VFloat f) d).
Proof.
  intros Hf. unfold elements_ok.
  induction 1 as [| [k' v'] r Hkv Hr IH]; simpl.
  - constructor; [right; exact Hf | constructor].
  - destruct (String.eqb_spec k k') as [-> | _].
    + constructor; [right; exact Hf | exact Hr].
    + constructor; [exact Hkv | exact IH].
Qed.

Lemma field_elem_value (parts : list string) (i : nat) (v : pyval) :
  field parts i (VInt 0) = Ok v -> elem_value v = true.
Proof.
  intros H. apply field_ok in H.
  destruct H as [s [_ [[_ ->] | [f [Hf ->]]]]]; [reflexivity |].
  exact (of_string_valid _ _ Hf).
Qed.

Lemma row_elements_shape (parts : list string) (d : dict) :
  row_elements parts = Ok d ->
  elements_ok d /\ Dict.keys d = element_keys.
Proof.
  intros H. apply row_elements_ok in H.
  destruct H as (ec & qr & inc & om & w & ma & a & ad & pr & -> & H).
  decompose [and] H. split; [| reflexivity].
  unfold elements_ok.
  repeat (constructor;
          [first [ right; simpl; eapply field_elem_value; eassumption
                 | left; reflexivity ] |]).
  constructor.
Qed.

(** ** The tabular strategy *)

Lemma scan_line_parses (elements : dict) (line : string) :
  scan_line elements line =
  if parses line then row_elements (split_fields line) else Ok elements.
Proof.
  unfold scan_line, parses.
  destruct (qualifies line); cbn [andb]; [| reflexivity].
  destruct (11 <=? List.length (split_fields line))%nat; cbn [andb];
    [| reflexivity].
  destruct (row_elements (split_fields line)) as [d | e] eqn:E; [reflexivity |].
  destruct (row_elements_raise _ _ E) as [-> | ->]; reflexivity.
Qed.

(** The loop over the lines never raises; its result is the dictionary it
    started from or the display of a line, with all nine keys. *)
Lemma scan_lines_total (lines : list string) (elements : dict) :
  exists d, scan_lines elements lines = Ok d /\
    (d = elements \/ (elements_ok d /\ Dict.keys d = element_keys)).
Proof.
  revert elements. induction lines as [| line rest IH]; intros elements; simpl.
  - exists elements; split; [reflexivity | left; reflexivity].
  - destruct (scan_line_cases elements line) as [[d' [Hrow ->]] | ->]; simpl.
    + destruct (IH d') as [d [Hd [Heq | Hshape]]]; exists d;
        (split; [exact Hd | right]).
      * rewrite Heq. exact (row_elements_shape _ _ Hrow).
      * exact Hshape.
    + exact (IH elements).
Qed.

Lemma scan_lines_app (l1 l2 : list string) (elements d : dict) :
  scan_lines elements l1 = Ok d ->
  scan_lines elements (l1 ++ l2) = scan_lines d l2.
Proof.
  revert elements. induction l1 as [| line rest IH]; intros elements; simpl.
  - intros H; injection H as ->; reflexivity.
  - destruct (scan_line elements line) as [d' | e]; simpl; [| discriminate].
    apply IH.
Qed.

Lemma scan_lines_unparsed (lines : list string) (elements : dict) :
  List.forallb (fun l => negb (parses l)) lines = true ->
  scan_lines elements lines = Ok elements.
Proof.
  induction lines as [| line rest IH]; simpl; [reflexivity |].
  intros H. apply andb_prop in H. destruct H as [Hl Hr].
  rewrite scan_line_parses.
  destruct (parses line); [discriminate Hl |]. simpl. exact (IH Hr).
Qed.

Lemma tabular_total (text : string) :
  exists d, tabular text = Ok d /\
    (d = [] \/ (elements_ok d /\ Dict.keys d = element_keys)).
Proof.
  unfold tabular.
  destruct (Str.contains "$$SOE" text && Str.contains "$$EOE" text).
  - apply scan_lines_total.
  - exists []; split; [reflexivity | left; reflexivity].
Qed.

(** ** The patterns *)

Lemma branch_truthy (lab s v : string) :
  Scan.branch lab s = Some v -> Str.truthy v = true.
Proof.
  unfold Scan.branch.
  destruct (Scan.literal lab s) as [r1 |]; [| discriminate].
  destruct (Str.lstrip_by Str.isspace r1) as [| c r2]; [discriminate |].
  destruct (Ascii.eqb_spec c "="%char) as [-> | Hc].
  - destruct (Str.truthy (fst (Str.span Re.valchar
                (Str.lstrip_by Str.isspace r2)))) eqn:E; [| discriminate].
    intros H; injection H as <-; exact E.
  - destruct c as [[] [] [] [] [] [] [] []]; try discriminate.
    contradiction Hc; reflexivity.
Qed.

(** After a match, [value] is the text of the group that matched, which
    is never empty: reading the groups raises nothing. *)
Lemma alternation_value (pattern : list string) (s : string) (m : Re.matchobj) :
  short pattern -> Scan.alternation pattern s = Some m ->
  exists v, matched_value m = Ok (Some v) /\ Str.truthy v = true.
Proof.
  intros Hs H.
  destruct pattern as [| l1 [| l2 [| l3 rest]]];
    try (destruct Hs as [Hs | Hs]; discriminate Hs); simpl in H.
  - destruct (Scan.branch l1 s) as [v |] eqn:E1; [| discriminate].
    injection H as <-. exists v.
    pose proof (branch_truthy _ _ _ E1) as Hv.
    split; [unfold matched_value; simpl; rewrite Hv; reflexivity | exact Hv].
  - destruct (Scan.branch l1 s) as [v |] eqn:E1.
    + injection H as <-. exists v.
      pose proof (branch_truthy _ _ _ E1) as Hv.
      split; [unfold matched_value; simpl; rewrite Hv; reflexivity | exact Hv].
    + destruct (Scan.branch l2 s) as [v |] eqn:E2; [| discriminate].
      injection H as <-. exists v.
      pose proof (branch_truthy _ _ _ E2) as Hv.
      unfold matched_value; simpl. split; [reflexivity | exact Hv].
Qed.

Lemma search_value (pattern : list string) (s : string) (m : Re.matchobj) :
  short pattern -> Scan.search pattern s = Some m ->
  exists v, matched_value m = Ok (Some v) /\ Str.truthy v = true.
Proof.
  intros Hs. induction s as [| c r IH]; simpl.
  - destruct (Scan.alternation pattern "") as [m' |] eqn:E; [| discriminate].
    intros H; injection H as <-. exact (alternation_value _ _ _ Hs E).
  - destruct (Scan.alternation pattern (String c r)) as [m' |] eqn:E.
    + intros H; injection H as <-. exact (alternation_value _ _ _ Hs E).
    + exact IH.
Qed.

(** Matching ignores the case of the label. *)
Lemma literal_fold (l1 l2 s : string) :
  Str.map Str.lower l1 = Str.map Str.lower l2 ->
  Scan.literal l1 s = Scan.literal l2 s.
Proof.
  revert l2 s. induction l1 as [| a l1 IH]; intros [| b l2] s; simpl;
    try discriminate; [reflexivity |].
  intros H. injection H as Hab Hl.
  destruct s as [| c r]; [reflexivity |].
  rewrite Hab. destruct (Ascii.eqb (Str.lower c) (Str.lower b));
    [apply IH; exact Hl | reflexivity].
Qed.

Lemma search_fold (l1 l2 s : string) :
  Str.map Str.lower l1 = Str.map Str.lower l2 ->
  Scan.search [l1] s = Scan.search [l2] s.
Proof.
  intros H. induction s as [| c r IH]; simpl; unfold Scan.branch;
    rewrite (literal_fold l1 l2 _ H); [reflexivity |].
  rewrite IH. reflexivity.
Qed.

(** *** The backtracking search is the one-pass search *)

Lemma many_skip {A : Type} (cls : ascii -> bool) (k : string -> option A)
  (s : string) :
  (forall c t, cls c = true -> k (String c t) = None) ->
  Re.many cls s k = k (Str.lstrip_by cls s).
Proof.
  intros Hk. induction s as [| c r IH]; simpl; [reflexivity |].
  destruct (cls c) eqn:E; [| reflexivity].
  rewrite IH. destruct (k (Str.lstrip_by cls r)); [reflexivity |].
  apply Hk; exact E.
Qed.

Lemma many_all {A : Type} (cls : ascii -> bool) (f : string -> A)
  (s : string) :
  Re.many cls s (fun t => Some (f t)) = Some (f (snd (Str.span cls s))).
Proof.
  induction s as [| c r IH]; simpl; [reflexivity |].
  destruct (cls c); [| reflexivity].
  rewrite IH. destruct (Str.span cls r); reflexivity.
Qed.

Lemma span_length (p : ascii -> bool) (s : string) :
  (String.length (snd (Str.span p s)) <= String.length s)%nat.
Proof.
  induction s as [| c r IH]; simpl; [lia |].
  destruct (p c); [| simpl; lia].
  destruct (Str.span p r); simpl in *; lia.
Qed.

Lemma consumed_cons (c : ascii) (t u : string) :
  (String.length u <= String.length t)%nat ->
  Re.consumed (String c t) u = String c (Re.consumed t u).
Proof.
  intros H. unfold Re.consumed. simpl String.length.
  replace (S (String.length t) - String.length u)%nat
    with (S (String.length t - String.length u)) by lia.
  reflexivity.
Qed.

Lemma consumed_span (p : ascii -> bool) (s : string) :
  Re.consumed s (snd (Str.span p s)) = fst (Str.span p s).
Proof.
  induction s as [| c r IH]; simpl; [reflexivity |].
  destruct (p c).
  - pose proof (span_length p r) as Hl.
    destruct (Str.span p r) as [a b]; simpl in *.
    rewrite consumed_cons by exact Hl. rewrite IH. reflexivity.
  - unfold Re.consumed. simpl. rewrite Nat.sub_diag. reflexivity.
Qed.

Lemma exec_word (w : string) (r : Re.regex) (s : string) (m : Re.matchobj)
  (k : string -> Re.matchobj -> option Re.matchobj) :
  Re.exec (Re.word w r) s m k =
  match Scan.literal w s with
  | Some t => Re.exec r t m k
  | None => None
  end.
Proof.
  revert s. induction w as [| a w IH]; intros s; simpl; [reflexivity |].
  destruct s as [| b t]; [reflexivity |].
  destruct (Ascii.eqb (Str.lower b) (Str.lower a)); [apply IH | reflexivity].
Qed.

Lemma groups_word (w : string) (r : Re.regex) :
  Re.groups (Re.word w r) = Re.groups r.
Proof.
  induction w as [| a w IH]; simpl; [reflexivity | exact IH].
Qed.

(** Neither the sign [=] nor a character of a number is a space, and
    lower-casing leaves the sign alone. *)
Lemma isspace_not_sign (c : ascii) :
  Str.isspace c = true -> Ascii.eqb (Str.lower c) (Str.lower "=") = false.
Proof.
  destruct c as [[] [] [] [] [] [] [] []]; vm_compute; congruence.
Qed.

Lemma isspace_not_valchar (c : ascii) :
  Str.isspace c = true -> Re.valchar c = false.
Proof.
  destruct c as [[] [] [] [] [] [] [] []]; vm_compute; congruence.
Qed.

Lemma lower_sign (c : ascii) :
  Ascii.eqb (Str.lower c) (Str.lower "=") = Ascii.eqb c "=".
Proof.
  destruct c as [[] [] [] [] [] [] [] []]; vm_compute; reflexivity.
Qed.

(** A branch of the source, matched by backtracking, is the branch read
    in one pass. *)
Lemma exec_key_value (g : nat) (lab s : string) (m : Re.matchobj) :
  Re.exec (Re.key_value g lab) s m (fun _ m' => Some m') =
  option_map (fun v => Re.set_group g v m) (Scan.branch lab s).
Proof.
  unfold Re.key_value, Scan.branch. rewrite exec_word.
  destruct (Scan.literal lab s) as [r1 |]; [| reflexivity].
  cbn [Re.exec]. rewrite many_skip.
  2: { intros c t Hc. rewrite (isspace_not_sign c Hc). reflexivity. }
  destruct (Str.lstrip_by Str.isspace r1) as [| b r2]; [reflexivity |].
  rewrite lower_sign.
  destruct (Ascii.eqb_spec b "="%char) as [-> | Hb].
  - rewrite many_skip.
    2: { intros c t Hc. rewrite (isspace_not_valchar c Hc). reflexivity. }
    destruct (Str.lstrip_by Str.isspace r2) as [| b' t]; [reflexivity |].
    cbn [Str.span]. destruct (Re.valchar b'); [| reflexivity].
    rewrite (many_all Re.valchar
               (fun u => Re.set_group g (Re.consumed (String b' t) u) m)).
    rewrite consumed_cons by apply span_length.
    rewrite consumed_span.
    destruct (Str.span Re.valchar t) as [a b]; reflexivity.
  - destruct b as [[] [] [] [] [] [] [] []]; try reflexivity.
    contradiction Hb; reflexivity.
Qed.

Lemma groups_key_value (g : nat) (lab : string) :
  Re.groups (Re.key_value g lab) = 1%nat.
Proof. unfold Re.key_value. rewrite groups_word. reflexivity. Qed.

Lemma match_of_labels (labs : list string) (s : string) :
  short labs -> Re.match_ (of_labels labs) s = Scan.alternation labs s.
Proof.
  intros Hs.
  destruct labs as [| l1 [| l2 [| l3 rest]]];
    try (destruct Hs as [Hs | Hs]; discriminate Hs);
    unfold Re.match_, of_labels; cbn [Re.groups Scan.alternation].
  - rewrite groups_key_value. cbn [List.repeat]. rewrite exec_key_value.
    destruct (Scan.branch l1 s); reflexivity.
  - rewrite !groups_key_value. cbn [List.repeat Nat.add Re.exec].
    rewrite !exec_key_value.
    destruct (Scan.branch l1 s); [reflexivity |].
    destruct (Scan.branch l2 s); reflexivity.
Qed.

Lemma search_of_labels (labs : list string) (s : string) :
  short labs -> Re.search (of_labels labs) s = Scan.search labs s.
Proof.
  intros Hs. induction s as [| c r IH]; cbn [Re.search Scan.search];
    rewrite (match_of_labels labs _ Hs).
  - reflexivity.
  - rewrite IH. reflexivity.
Qed.

Lemma patterns_labels :
  patterns =
  List.map (fun kp => (fst kp, of_labels (snd kp))) label_patterns.
Proof. reflexivity. Qed.

(** ** The fallback strategy *)

Lemma fallback_step_store (text : string) (elements : dict)
  (kp : string * list string) :
  short (snd kp) ->
  fallback_step text elements (fst kp, of_labels (snd kp)) =
  Ok (store text elements kp).
Proof.
  destruct kp as [key labs]. unfold fallback_step, store, extracted.
  cbn [fst snd]. intros Hs. rewrite (search_of_labels labs text Hs).
  destruct (Scan.search labs text) as [m |] eqn:E; [| reflexivity].
  destruct (search_value _ _ _ Hs E) as [v [-> _]]. cbn [rbind float_of_group].
  destruct (Float.of_string v) as [f | e] eqn:Ef; [reflexivity |].
  rewrite (of_string_raise _ _ Ef). reflexivity.
Qed.

Lemma fallback_loop_store (text : string) (ps : list (string * list string))
  (elements : dict) :
  Forall (fun kp => short (snd kp)) ps ->
  fallback_loop text elements
    (List.map (fun kp => (fst kp, of_labels (snd kp))) ps) =
  Ok (List.fold_left (store text) ps elements).
Proof.
  intros Hps. revert elements.
  induction Hps as [| kp rest Hkp _ IH]; intros elements;
    cbn [List.map fallback_loop List.fold_left].
  - reflexivity.
  - rewrite (fallback_step_store _ _ _ Hkp). cbn [rbind]. apply IH.
Qed.

Lemma patterns_short : Forall (fun kp => short (snd kp)) label_patterns.
Proof.
  unfold label_patterns, short.
  repeat (constructor; [simpl; auto |]). constructor.
Qed.

(** The fallback strategy never raises. *)
Lemma fallback_store (text : string) :
  fallback text = Ok (List.fold_left (store text) label_patterns []).
Proof.
  unfold fallback. rewrite patterns_labels.
  exact (fallback_loop_store text label_patterns [] patterns_short).
Qed.

Lemma store_get_other (text : string) (elements : dict)
  (kp : string * list string) (k : string) :
  k <> fst kp -> Dict.get k (store text elements kp) = Dict.get k elements.
Proof.
  intros Hk. unfold store. destruct (extracted text (snd kp)); [| reflexivity].
  apply get_set_other; exact Hk.
Qed.

Lemma fold_store_get_other (text : string) (ps : list (string * list string))
  (elements : dict) (k : string) :
  ~ In k (List.map fst ps) ->
  Dict.get k (List.fold_left (store text) ps elements) = Dict.get k elements.
Proof.
  revert elements. induction ps as [| kp rest IH]; intros elements Hk; simpl.
  - reflexivity.
  - simpl in Hk. rewrite IH by tauto. apply store_get_other.
    intros ->. apply Hk. left; reflexivity.
Qed.

(** What the loop leaves under a key that one of the patterns carries,
    when no two patterns carry the same key. *)
Lemma fold_store_get (text : string) (ps : list (string * list string))
  (elements : dict) (key : string) (pattern : list string) :
  NoDup (List.map fst ps) -> In (key, pattern) ps ->
  Dict.get key (List.fold_left (store text) ps elements) =
  match extracted text pattern with
  | Some f => Some (VFloat f)
  | None => Dict.get key elements
  end.
Proof.
  revert elements. induction ps as [| kp rest IH]; intros elements Hnd Hin.
  - destruct Hin.
  - simpl in Hnd. inversion Hnd as [| k ks Hk Hrest]; subst.
    destruct Hin as [-> | Hin]; simpl.
    + rewrite fold_store_get_other by exact Hk.
      unfold store; simpl. destruct (extracted text pattern).
      * apply get_set_same.
      * reflexivity.
    + rewrite (IH _ Hrest Hin).
      destruct (extracted text pattern); [reflexivity |].
      apply store_get_other. intros ->. apply Hk.
      apply (in_map fst) in Hin. exact Hin.
Qed.

Lemma patterns_nodup : NoDup (List.map fst label_patterns).
Proof.
  unfold label_patterns; simpl.
  repeat (constructor;
          [simpl; intros H;
           repeat (destruct H as [H | H]; [discriminate H |]); exact H |]).
  constructor.
Qed.

Lemma extracted_valid (text : string) (pattern : list string)
  (f : Float.float) :
  extracted text pattern = Some f -> binary64 f.
Proof.
  unfold extracted.
  destruct (Scan.search pattern text) as [m |]; [| discriminate].
  destruct (matched_value m) as [[v |] | e]; try discriminate.
  destruct (Float.of_string v) as [g | e] eqn:E; [| discriminate].
  intros H; injection H as <-. exact (of_string_valid _ _ E).
Qed.

Lemma store_ok (text : string) (elements : dict) (kp : string * list string) :
  elements_ok elements -> elements_ok (store text elements kp).
Proof.
  intros H. unfold store.
  destruct (extracted text (snd kp)) as [f |] eqn:E; [| exact H].
  apply elements_ok_set; [exact (extracted_valid _ _ _ E) | exact H].
Qed.

Lemma fold_store_ok (text : string) (ps : list (string * list string))
  (elements : dict) :
  elements_ok elements -> elements_ok (List.fold_left (store text) ps elements).
Proof.
  revert elements. induction ps as [| kp rest IH]; intros elements H; simpl.
  - exact H.
  - apply IH. apply store_ok; exact H.
Qed.

(** ** The extractor as a whole *)

(** The extractor never raises. Without a sentinel, its result is the
    dictionary of the tabular strategy when that is not empty, else the
    dictionary of the fallback strategy, and absent when both are empty. *)
Lemma parse_cases (text object_id : string) :
  exists t, tabular text = Ok t /\
    parse_horizons_output text object_id =
    Ok (if not_found text then None
        else if Dict.truthy t then Some t
        else let d := List.fold_left (store text) label_patterns [] in
             if Dict.truthy d then Some d else None).
Proof.
  destruct (tabular_total text) as [t [Ht _]]. exists t; split; [exact Ht |].
  unfold parse_horizons_output. fold (not_found text).
  destruct (not_found text); [reflexivity |].
  rewrite Ht. cbn [rbind].
  destruct t as [| kv r]; cbn [Dict.truthy negb].
  - rewrite patterns_labels.
    rewrite (fallback_loop_store text label_patterns [] patterns_short).
    reflexivity.
  - reflexivity.
Qed.

(** Whatever the extractor returns is not empty and has well-shaped values. *)
Lemma parse_some (text object_id : string) (d : dict) :
  parse_horizons_output text object_id = Ok (Some d) ->
  Dict.truthy d = true /\ elements_ok d.
Proof.
  destruct (parse_cases text object_id) as [t [Ht ->]].
  destruct (not_found text); [discriminate |].
  destruct (Dict.truthy t) eqn:Et.
  - intros H; injection H as <-. split; [exact Et |].
    destruct (tabular_total text) as [t' [Ht' Hs]].
    rewrite Ht in Ht'; injection Ht' as <-.
    destruct Hs as [-> | [Hok _]]; [discriminate Et | exact Hok].
  - cbv zeta.
    assert (Hok : elements_ok (List.fold_left (store text) label_patterns []))
      by (apply fold_store_ok; constructor).
    remember (List.fold_left (store text) label_patterns []) as d' eqn:Hd'.
    destruct (Dict.truthy d') eqn:Ed; [| discriminate].
    intros H; injection H as <-. split; [exact Ed | exact Hok].
Qed.

(** ** Reading a row: hypotheses on the fields *)

Lemma field_number (parts : list string) (i : nat) (dflt : pyval)
  (f : Float.float) :
  (i < List.length parts)%nat ->
  Float.of_string (nth i parts "") = Ok f ->
  field parts i dflt = Ok (VFloat f).
Proof.
  intros Hi Hf. apply field_ok. exists (nth i parts "").
  split; [apply nth_error_nth'; exact Hi |].
  right; exists f; split; [exact Hf | reflexivity].
Qed.

Lemma field_empty (parts : list string) (i : nat) (dflt : pyval) :
  nth_error parts i = Some "" -> field parts i dflt = Ok dflt.
Proof.
  intros Hi. apply field_ok. exists "".
  split; [exact Hi | left; split; reflexivity].
Qed.

(** ** The extractor against its specification *)

(** C1, as the code has it. A qualifying line with at least twelve fields,
    whose fields 0, 1, 2, 3, 4, 7, 9 and 10 are numbers and whose field 11
    is empty or a number, replaces the dictionary by the nine entries read
    at those positions: eccentricity from field 0, perihelion from field 1,
    inclination from field 2, longitude of the ascending node from field
    3, argument of perihelion from field 4, mean anomaly from field 7,
    semimajor axis from field 9, aphelion from field 10, and the orbital
    period from field 11, null when that field is empty. *)
Theorem tabular_row_positions (elements : dict) (line : string)
  (ec qr inc om w ma a ad : Float.float) (pr : pyval) :
  qualifies line = true ->
  (12 <= List.length (split_fields line))%nat ->
  Float.of_string (nth 0 (split_fields line) "") = Ok ec ->
  Float.of_string (nth 1 (split_fields line) "") = Ok qr ->
  Float.of_string (nth 2 (split_fields line) "") = Ok inc ->
  Float.of_string (nth 3 (split_fields line) "") = Ok om ->
  Float.of_string (nth 4 (split_fields line) "") = Ok w ->
  Float.of_string (nth 7 (split_fields line) "") = Ok ma ->
  Float.of_string (nth 9 (split_fields line) "") = Ok a ->
  Float.of_string (nth 10 (split_fields line) "") = Ok ad ->
  (nth 11 (split_fields line) "" = "" /\ pr = VNone) \/
  (exists p, Float.of_string (nth 11 (split_fields line) "") = Ok p /\
             pr = VFloat p) ->
  scan_line elements line =
  Ok [ ("eccentricity", VFloat ec);
       ("perihelion", VFloat qr);
       ("inclination", VFloat inc);
       ("longitude_ascending_node", VFloat om);
       ("argument_perihelion", VFloat w);
       ("mean_anomaly", VFloat ma);
       ("semimajor_axis", VFloat a);
       ("aphelion", VFloat ad);
       ("orbital_period", pr) ].
Proof.
  intros Hq Hlen H0 H1 H2 H3 H4 H7 H9 H10 H11.
  unfold scan_line. rewrite Hq.
  replace (11 <=? List.length (split_fields line))%nat with true
    by (symmetry; apply Nat.leb_le; lia).
  assert (Hpr : field (split_fields line) 11 VNone = Ok pr).
  { destruct H11 as [[He ->] | [p [Hp ->]]].
    - apply field_empty. rewrite <- He. apply nth_error_nth'. lia.
    - apply field_number; [lia | exact Hp]. }
  unfold row_elements.
  rewrite (field_number _ 0 _ ec), (field_number _ 1 _ qr),
    (field_number _ 2 _ inc), (field_number _ 3 _ om),
    (field_number _ 4 _ w), (field_number _ 7 _ ma),
    (field_number _ 9 _ a), (field_number _ 10 _ ad), Hpr
    by (assumption || lia).
  reflexivity.
Qed.

(** The example row, after anything, gives the elements it stands for. *)
Lemma tabular_row_positions_witness :
  scan_line [("eccentricity", VInt 0)] example_row = Ok example_elements.
Proof.
  apply (tabular_row_positions [("eccentricity", VInt 0)] example_row
           (Float.of_ratio false 25 100) (Float.of_ratio false 301 10)
           (Float.of_ratio false 105 10) (Float.of_ratio false 1002 10)
           (Float.of_ratio false 2003 10) (Float.of_ratio false 15 1)
           (Float.of_ratio false 400 1) (Float.of_ratio false 500 1)
           (VFloat (Float.of_ratio false 1000 1)));
    try (vm_compute; reflexivity).
  right. exists (Float.of_ratio false 1000 1).
  split; vm_compute; reflexivity.
Defined.

(** C1 as stated fails on the code. A row of exactly eleven numbers
    qualifies and passes the test on the number of fields, but nothing is
    extracted from it; and a row whose first eleven fields are numbers is
    skipped as a whole when its twelfth field is not a number. *)
Lemma tabular_row_counterexample :
  (qualifies eleven_row = true /\
   List.length (split_fields eleven_row) = 11%nat /\
   List.forallb is_number (split_fields eleven_row) = true /\
   scan_line [] eleven_row = Ok [] /\
   parse_horizons_output (block [eleven_row]) "90377" = Ok None) /\
  (qualifies unknown_period_row = true /\
   List.length (split_fields unknown_period_row) = 12%nat /\
   List.forallb is_number (firstn 11 (split_fields unknown_period_row))
     = true /\
   scan_line [] unknown_period_row = Ok [] /\
   parse_horizons_output (block [unknown_period_row]) "90377" = Ok None).
Proof.
  vm_compute. repeat split; reflexivity.
Qed.

(** A line of exactly eleven fields never changes the dictionary: field
    11 is read whatever the number of fields, and the index error is
    caught with the errors of [float]. *)
Lemma eleven_fields_skipped (elements : dict) (line : string) :
  List.length (split_fields line) = 11%nat ->
  scan_line elements line = Ok elements.
Proof.
  intros Hlen. destruct (scan_line_cases elements line) as [[d [Hrow _]] | H];
    [exfalso | exact H].
  apply row_elements_ok in Hrow.
  destruct Hrow as (ec & qr & inc & om & w & ma & a & ad & pr & _ & Hf).
  decompose [and] Hf.
  match goal with
  | Hp : field (split_fields line) 11 VNone = Ok pr |- _ =>
      apply field_ok in Hp; destruct Hp as [s [Hs _]]
  end.
  assert (Hn : nth_error (split_fields line) 11 = None)
    by (apply nth_error_None; lia).
  congruence.
Qed.

(** C2. The extractor never raises and never returns an empty dictionary:
    its result is absent or a dictionary with at least one key, and it is
    absent when both strategies end with no element. *)
Theorem never_empty_mapping (text object_id : string) :
  exists r, parse_horizons_output text object_id = Ok r /\
    (r = None \/ exists d k, r = Some d /\ In k (Dict.keys d)) /\
    (tabular text = Ok [] -> fallback text = Ok [] -> r = None).
Proof.
  destruct (parse_cases text object_id) as [t [Ht Hp]].
  destruct (parse_horizons_output text object_id) as [r | e] eqn:E;
    [| discriminate Hp].
  exists r. split; [reflexivity |]. split.
  - destruct r as [d |]; [right | left; reflexivity].
    destruct (parse_some _ _ _ E) as [Hd _].
    destruct d as [| [k v] rest]; [discriminate Hd |].
    exists ((k, v) :: rest), k. split; [reflexivity | left; reflexivity].
  - intros Ht' Hf. rewrite Ht in Ht'. injection Ht' as ->.
    rewrite fallback_store in Hf. injection Hf as Hf.
    injection Hp as ->. rewrite Hf. simpl.
    destruct (not_found text); reflexivity.
Qed.

(** A text with no marker and no pattern: both strategies end empty. *)
Lemma never_empty_mapping_witness :
  parse_horizons_output "API SOURCE: NASA/JPL Horizons" "599" = Ok None.
Proof.
  destruct (never_empty_mapping "API SOURCE: NASA/JPL Horizons" "599")
    as [r [Hr [_ Habsent]]].
  rewrite Hr. f_equal. apply Habsent; vm_compute; reflexivity.
Defined.

(** C3. A text that contains one of the two phrases of an unknown object
    gives absent, whatever else it contains. *)
Theorem not_found_absent (text object_id : string) :
  Str.contains "No matches found" text = true \/
  Str.contains "Cannot find" text = true ->
  parse_horizons_output text object_id = Ok None.
Proof.
  intros H. unfold parse_horizons_output.
  destruct H as [-> | ->]; [reflexivity |].
  rewrite orb_true_r. reflexivity.
Qed.

(** The phrase after a well-formed data section, and before a pattern. *)
Lemma not_found_absent_witness :
  parse_horizons_output (block [example_row] ++ " No matches found") "1" = Ok None
  /\ parse_horizons_output "Cannot find e = 0.85" "1" = Ok None.
Proof.
  split; apply not_found_absent.
  - left; vm_compute; reflexivity.
  - right; vm_compute; reflexivity.
Defined.

(** The binary64 values of the example. *)
Example example_elements_bits :
  example_elements =
  [ ("eccentricity", VFloat (S754_finite false 4503599627370496 (-54)));
    ("perihelion", VFloat (S754_finite false 8472396798990746 (-48)));
    ("inclination", VFloat (S754_finite false 5910974510923776 (-49)));
    ("longitude_ascending_node",
      VFloat (S754_finite false 7050948166601933 (-46)));
    ("argument_perihelion",
      VFloat (S754_finite false 7047429729393050 (-45)));
    ("mean_anomaly", VFloat (S754_finite false 8444249301319680 (-49)));
    ("semimajor_axis", VFloat (S754_finite false 7036874417766400 (-44)));
    ("aphelion", VFloat (S754_finite false 8796093022208000 (-44)));
    ("orbital_period", VFloat (S754_finite false 8796093022208000 (-43))) ].
Proof. vm_compute. reflexivity. Qed.

Lemma example_row_parses :
  parses example_row = true /\
  row_elements (split_fields example_row) = Ok example_elements.
Proof. vm_compute. split; reflexivity. Qed.

(** C4, as the code has it. In a text with no phrase of an unknown object,
    whose data section holds the example row with no line after it that
    parses, extraction returns the elements of the example row: the last
    line that parses decides. *)
Theorem example_row_extracted (text object_id : string)
  (before after : list string) :
  Str.contains "No matches found" text = false ->
  Str.contains "Cannot find" text = false ->
  Str.contains "$$SOE" text = true ->
  Str.contains "$$EOE" text = true ->
  Str.split newline (data_section text) = (before ++ example_row :: after)%list ->
  List.forallb (fun l => negb (parses l)) after = true ->
  parse_horizons_output text object_id = Ok (Some example_elements).
Proof.
  intros Hn1 Hn2 Hs He Hlines Hafter.
  destruct (parse_cases text object_id) as [t [Ht ->]].
  unfold not_found. rewrite Hn1, Hn2. cbn [orb].
  unfold tabular in Ht. rewrite Hs, He, Hlines in Ht. cbn [andb] in Ht.
  destruct (scan_lines_total before []) as [d0 [Hd0 _]].
  rewrite (scan_lines_app _ _ _ _ Hd0) in Ht.
  cbn [scan_lines] in Ht. rewrite scan_line_parses in Ht.
  destruct example_row_parses as [Hp Hr]. rewrite Hp, Hr in Ht.
  cbn [rbind] in Ht.
  rewrite (scan_lines_unparsed _ _ Hafter) in Ht.
  injection Ht as <-. reflexivity.
Qed.

(** The example row after a header line and before a line of text. *)
Lemma example_row_extracted_witness :
  parse_horizons_output
    (block ["JDTDB, EC, QR, IN, OM, W, Tp, N, MA, TA, A, AD, PR";
            example_row; "end of table"]) "90377"
  = Ok (Some example_elements).
Proof.
  apply (example_row_extracted _ "90377"
           ["JDTDB, EC, QR, IN, OM, W, Tp, N, MA, TA, A, AD, PR"]
           ["end of table"]); vm_compute; reflexivity.
Defined.

(** C4 as stated fails on the code: the data section below holds the
    example row, and extraction returns the elements of the row after
    it. *)
Lemma example_row_counterexample :
  not_found two_row_text = false /\
  List.existsb (String.eqb example_row)
    (Str.split newline (data_section two_row_text)) = true /\
  parse_horizons_output two_row_text "90377" <> Ok (Some example_elements) /\
  exists d, parse_horizons_output two_row_text "90377" = Ok (Some d) /\
    Dict.get "eccentricity" d = Some (VFloat (Float.of_ratio false 1 1)) /\
    Dict.get "orbital_period" d = Some (VFloat (Float.of_ratio false 12 1)).
Proof.
  split; [vm_compute; reflexivity |].
  split; [vm_compute; reflexivity |].
  split.
  - vm_compute. intros H; discriminate H.
  - eexists. split; [vm_compute; reflexivity |].
    split; vm_compute; reflexivity.
Qed.

(** What the display holds for the fields that are empty: the integer zero
    at the eight positions, null for the orbital period. *)
Lemma row_empty_fields (parts : list string) (d : dict) :
  row_elements parts = Ok d ->
  (forall key i, In (key, i) positions -> nth_error parts i = Some "" ->
     Dict.get key d = Some (VInt 0)) /\
  (nth_error parts 11 = Some "" ->
     Dict.get "orbital_period" d = Some VNone).
Proof.
  intros H. apply row_elements_ok in H.
  destruct H as (ec & qr & inc & om & w & ma & a & ad & pr & -> & H).
  decompose [and] H; clear H. split.
  - intros key i Hin Hi.
    assert (Hz : forall v, field parts i (VInt 0) = Ok v -> v = VInt 0).
    { intros v Hv. rewrite (field_empty _ _ _ Hi) in Hv.
      injection Hv as <-; reflexivity. }
    unfold positions in Hin; simpl in Hin.
    repeat (destruct Hin as [Hin | Hin];
            [injection Hin as <- <-; simpl; f_equal; apply Hz; assumption |]).
    destruct Hin.
  - intros Hi. simpl. f_equal.
    match goal with
    | Hf : field parts 11 VNone = Ok _ |- _ =>
        rewrite (field_empty _ _ _ Hi) in Hf; injection Hf as <-
    end.
    reflexivity.
Qed.

(** C5. In the tabular strategy an empty field at one of the eight
    positions gives the integer zero under its key, and an empty field 11
    gives a null orbital period; the row with its first field empty has
    eccentricity zero. In the fallback strategy a matched text that is not
    a number leaves its key absent. *)
Theorem missing_values_asymmetry :
  (forall parts d, row_elements parts = Ok d ->
     (forall key i, In (key, i) positions -> nth_error parts i = Some "" ->
        Dict.get key d = Some (VInt 0)) /\
     (nth_error parts 11 = Some "" ->
        Dict.get "orbital_period" d = Some VNone)) /\
  (exists d, scan_line [] sparse_row = Ok d /\
     Dict.get "eccentricity" d = Some (VInt 0) /\
     Dict.get "orbital_period" d = Some VNone) /\
  (forall text key pattern m v,
     In (key, pattern) patterns ->
     Re.search pattern text = Some m ->
     matched_value m = Ok (Some v) ->
     Float.of_string v = Raise ValueError ->
     exists d, fallback text = Ok d /\ Dict.get key d = None).
Proof.
  split; [| split].
  - exact row_empty_fields.
  - eexists. split; [vm_compute; reflexivity |].
    split; reflexivity.
  - intros text key pattern m v Hin Hm Hv Hf.
    exists (List.fold_left (store text) label_patterns []).
    split; [apply fallback_store |].
    rewrite patterns_labels in Hin. apply in_map_iff in Hin.
    destruct Hin as [[key' labs] [Heq Hin]]. cbn [fst snd] in Heq.
    injection Heq as -> <-.
    assert (Hs : short labs).
    { pose proof patterns_short as H. rewrite Forall_forall in H.
      exact (H _ Hin). }
    rewrite (search_of_labels labs text Hs) in Hm.
    rewrite (fold_store_get text label_patterns [] key labs patterns_nodup Hin).
    unfold extracted. rewrite Hm, Hv, Hf. reflexivity.
Qed.

(** An eccentricity written with two points is left out, and the
    semimajor axis beside it is kept. *)
Lemma missing_values_asymmetry_witness :
  exists d, fallback "e = 1.2.3 and a = 450.3" = Ok d /\
    Dict.get "eccentricity" d = None.
Proof.
  destruct missing_values_asymmetry as [_ [_ H]].
  apply (H "e = 1.2.3 and a = 450.3" "eccentricity" (Re.key_value 1 "e")
           [Some "1.2.3"] "1.2.3").
  - right; left; reflexivity.
  - vm_compute; reflexivity.
  - reflexivity.
  - vm_compute; reflexivity.
Defined.

(** C9. The patterns of the perihelion and of the aphelion differ by the
    case of their label only, and the search ignores case: on every text
    both find the same match, and the fallback strategy leaves the same
    thing under both keys, either nothing or the same number. Its
    dictionary is what the extractor returns whenever the tabular strategy
    ends empty. *)
Theorem perihelion_aphelion_same (text : string) :
  Re.search (Re.key_value 1 "q") text = Re.search (Re.key_value 1 "Q") text /\
  exists d, fallback text = Ok d /\
    Dict.get "perihelion" d = Dict.get "aphelion" d /\
    (forall object_id, not_found text = false -> tabular text = Ok [] ->
       parse_horizons_output text object_id =
       Ok (if Dict.truthy d then Some d else None)).
Proof.
  assert (Hq : short ["q"]) by (left; reflexivity).
  assert (HQ : short ["Q"]) by (left; reflexivity).
  split.
  - change (Re.key_value 1 "q") with (of_labels ["q"]).
    change (Re.key_value 1 "Q") with (of_labels ["Q"]).
    rewrite (search_of_labels _ text Hq), (search_of_labels _ text HQ).
    apply search_fold; reflexivity.
  - exists (List.fold_left (store text) label_patterns []).
    split; [apply fallback_store |]. split.
    + rewrite (fold_store_get text label_patterns [] "perihelion" ["q"]
                 patterns_nodup) by (simpl; tauto).
      rewrite (fold_store_get text label_patterns [] "aphelion" ["Q"]
                 patterns_nodup) by (simpl; tauto).
      unfold extracted. rewrite (search_fold "q" "Q" text) by reflexivity.
      reflexivity.
    + intros object_id Hn Ht.
      destruct (parse_cases text object_id) as [t [Ht' ->]].
      rewrite Ht in Ht'. injection Ht' as <-. rewrite Hn. reflexivity.
Qed.

(** A text with a lower-case label only: both keys get its number. *)
Lemma perihelion_aphelion_same_witness :
  parse_horizons_output "q = 76.19 AU" "90377" =
  Ok (Some [ ("perihelion", VFloat (Float.of_ratio false 7619 100));
             ("aphelion", VFloat (Float.of_ratio false 7619 100)) ]).
Proof.
  destruct (perihelion_aphelion_same "q = 76.19 AU") as [_ [d [Hd [_ H]]]].
  rewrite (H "90377") by (vm_compute; reflexivity).
  assert (E : fallback "q = 76.19 AU" =
              Ok [ ("perihelion", VFloat (Float.of_ratio false 7619 100));
                   ("aphelion", VFloat (Float.of_ratio false 7619 100)) ])
    by (vm_compute; reflexivity).
  rewrite E in Hd. injection Hd as <-. reflexivity.
Defined.

(** C10. A line that parses leaves a dictionary with the nine keys, in
    the order of the display; the orbital period is always among them,
    bound to null when field 11 is empty. So is every dictionary of the
    tabular strategy that is not empty. *)
Theorem tabular_nine_keys :
  (forall elements line d,
     parses line = true -> scan_line elements line = Ok d ->
     Dict.keys d =
       [ "eccentricity"; "perihelion"; "inclination";
         "longitude_ascending_node"; "argument_perihelion"; "mean_anomaly";
         "semimajor_axis"; "aphelion"; "orbital_period" ] /\
     (exists v, Dict.get "orbital_period" d = Some v) /\
     (nth_error (split_fields line) 11 = Some "" ->
      Dict.get "orbital_period" d = Some VNone)) /\
  (forall text d, tabular text = Ok d -> d <> [] ->
     Dict.keys d =
       [ "eccentricity"; "perihelion"; "inclination";
         "longitude_ascending_node"; "argument_perihelion"; "mean_anomaly";
         "semimajor_axis"; "aphelion"; "orbital_period" ]).
Proof.
  split.
  - intros elements line d Hp Hd.
    rewrite scan_line_parses, Hp in Hd.
    destruct (row_empty_fields _ _ Hd) as [_ Hnull].
    destruct (row_elements_shape _ _ Hd) as [_ Hkeys].
    split; [exact Hkeys |]. split; [| exact Hnull].
    apply row_elements_ok in Hd.
    destruct Hd as (ec & qr & inc & om & w & ma & a & ad & pr & -> & _).
    exists pr; reflexivity.
  - intros text d Hd Hne.
    destruct (tabular_total text) as [d' [Hd' Hs]].
    rewrite Hd in Hd'. injection Hd' as <-.
    destruct Hs as [-> | [_ Hkeys]]; [contradiction Hne; reflexivity |].
    exact Hkeys.
Qed.

(** The sparse row: nine keys, a null orbital period. *)
Lemma tabular_nine_keys_witness :
  exists d, scan_line [] sparse_row = Ok d /\
    List.length (Dict.keys d) = 9%nat /\
    Dict.get "orbital_period" d = Some VNone.
Proof.
  assert (Hd : scan_line [] sparse_row =
               Ok [ ("eccentricity", VInt 0);
                    ("perihelion", VFloat (Float.of_ratio false 301 10));
                    ("inclination", VFloat (Float.of_ratio false 105 10));
                    ("longitude_ascending_node",
                      VFloat (Float.of_ratio false 1002 10));
                    ("argument_perihelion",
                      VFloat (Float.of_ratio false 2003 10));
                    ("mean_anomaly", VFloat (Float.of_ratio false 15 1));
                    ("semimajor_axis", VFloat (Float.of_ratio false 400 1));
                    ("aphelion", VFloat (Float.of_ratio false 500 1));
                    ("orbital_period", VNone) ])
    by (vm_compute; reflexivity).
  eexists. split; [exact Hd |].
  destruct (proj1 tabular_nine_keys [] sparse_row _
              ltac:(vm_compute; reflexivity) Hd) as [Hk [_ Hn]].
  split; [rewrite Hk; reflexivity |].
  apply Hn. vm_compute; reflexivity.
Defined.

(** ** Comparison of a float with thirty *)

Lemma of_int_thirty : Float.of_int 30 = Ok thirty.
Proof. vm_compute. reflexivity. Qed.

(** On binary64 values the comparison with thirty is that of the numbers. *)
Lemma ltb_thirty (x : Float.float) :
  binary64 x -> Float.ltb thirty x = true <-> above 30 x.
Proof.
  intros Hx.
  destruct x as [s | s | | s m e];
    unfold above, Float.ltb, SFltb, thirty, SFcompare; cbv zeta.
  - split; [discriminate | lia].
  - destruct s; split; congruence.
  - split; [discriminate | contradiction].
  - destruct (binary64_mantissa _ _ _ Hx) as [Hhi Hlo].
    destruct s.
    + split; [discriminate |].
      change (Zneg m) with (- Zpos m).
      destruct (0 <=? e) eqn:E; intros H; exfalso.
      * apply Z.leb_le in E.
        assert (0 <= Zpos m * 2 ^ e)
          by (apply Z.mul_nonneg_nonneg; [lia | apply Z.pow_nonneg; lia]).
        rewrite Z.mul_opp_l in H. lia.
      * assert (0 <= 30 * 2 ^ (- e))
          by (apply Z.mul_nonneg_nonneg; [lia | apply Z.pow_nonneg; lia]).
        lia.
    + destruct (Z.compare_spec (-48) e) as [He | He | He].
      * subst e. change (0 <=? -48) with false. cbv iota.
        change (30 * 2 ^ (- -48)) with (Zpos 8444249301319680).
        rewrite Pos.compare_cont_spec. cbn [Pos.switch_Eq].
        destruct (Pos.compare_spec 8444249301319680 m) as [Hm | Hm | Hm];
          cbn [Pos.switch_Eq].
        -- subst m. split; [discriminate |].
           intros H. contradiction (Z.lt_irrefl _ H).
        -- split; [intros _; exact (Pos2Z.pos_lt_pos _ _ Hm) | reflexivity].
        -- split; [discriminate |].
           intros H. apply Pos2Z.pos_lt_pos in Hm.
           contradiction (Z.lt_asymm _ _ H Hm).
      * split; [intros _ | reflexivity].
        assert (Hm : 2 ^ 52 <= Zpos m) by (apply Hlo; lia).
        change (2 ^ 52) with 4503599627370496 in Hm.
        destruct (0 <=? e) eqn:E.
        -- apply Z.leb_le in E.
           assert (Hp : 0 < 2 ^ e) by (apply Z.pow_pos_nonneg; lia).
           assert (Zpos m * 1 <= Zpos m * 2 ^ e)
             by (apply Z.mul_le_mono_nonneg_l; lia).
           lia.
        -- apply Z.leb_gt in E.
           assert (Hp : 2 ^ (- e) <= 2 ^ 47) by (apply Z.pow_le_mono_r; lia).
           change (2 ^ 47) with 140737488355328 in Hp. lia.
      * split; [discriminate |].
        replace (0 <=? e) with false by (symmetry; apply Z.leb_gt; lia).
        intros H. exfalso.
        assert (Hp : 2 ^ 49 <= 2 ^ (- e)) by (apply Z.pow_le_mono_r; lia).
        change (2 ^ 53) with 9007199254740992 in Hhi.
        change (2 ^ 49) with 562949953421312 in Hp. lia.
Qed.

(** ** Classification *)

Lemma py_gt_thirty (v : pyval) :
  number v -> exists b, py_gt v 30 = Ok b /\ (b = true <-> exceeds v 30).
Proof.
  destruct v as [| x | f | s | d]; cbn [number py_gt exceeds]; intros Hv;
    try contradiction.
  - exists (30 <? x). split; [reflexivity | apply Z.ltb_lt].
  - exists (Float.ltb thirty f). rewrite of_int_thirty. cbn [rbind].
    split; [reflexivity | apply ltb_thirty; exact Hv].
Qed.

(** The comparison raises nothing on the values the extractor produces. *)
Lemma py_gt_elem (v : pyval) :
  elem_value v = true -> exists b, py_gt v 30 = Ok b.
Proof.
  destruct v as [| x | f | s | d]; cbn [elem_value py_gt]; intros Hv;
    try discriminate Hv.
  - exists (30 <? x); reflexivity.
  - rewrite of_int_thirty. exists (Float.ltb thirty f); reflexivity.
Qed.

Lemma tno_type_total (elements : dict) :
  elements_ok elements ->
  exists b : bool,
    tno_type elements = Ok (if b then "extreme_tno" else "tno").
Proof.
  intros Hok. unfold tno_type.
  destruct (py_gt_elem (Dict.get_default "perihelion" (VInt 0) elements))
    as [b Hb].
  - apply elements_ok_default; [exact Hok | discriminate].
  - exists b. rewrite Hb. reflexivity.
Qed.

Lemma elem_value_number (v : pyval) : elem_value v = true -> number v.
Proof.
  destruct v; simpl; intros H; try discriminate H; [exact I | exact H].
Qed.

(** C6. A TNO record whose perihelion (zero when the key is absent) is a
    number is tagged [extreme_tno] exactly when that number is above 30,
    and [tno] otherwise; a NaN is above nothing. The perihelion of every
    dictionary the extractor returns is such a number. A perihelion of 35
    gives [extreme_tno]; 30 and 29.9 give [tno]. A planet record has no
    such tag. *)
Theorem tno_classification :
  (forall info elements,
     number (Dict.get_default "perihelion" (VInt 0) elements) ->
     exists ty,
       tno_record info elements =
       Ok [ ("name", VStr (tno_name info));
            ("designation", VStr (tno_designation info));
            ("type", VStr ty);
            ("orbital_elements", VDict elements) ] /\
       (ty = "extreme_tno" <->
        exceeds (Dict.get_default "perihelion" (VInt 0) elements) 30) /\
       (ty = "tno" <->
        ~ exceeds (Dict.get_default "perihelion" (VInt 0) elements) 30)) /\
  (forall text object_id elements,
     parse_horizons_output text object_id = Ok (Some elements) ->
     number (Dict.get_default "perihelion" (VInt 0) elements)) /\
  tno_type [("perihelion", VFloat (Float.of_ratio false 35 1))]
    = Ok "extreme_tno" /\
  tno_type [("perihelion", VFloat (Float.of_ratio false 30 1))] = Ok "tno" /\
  tno_type [("perihelion", VFloat (Float.of_ratio false 299 10))] = Ok "tno" /\
  (forall info elements, Dict.get "type" (planet_record info elements) = None).
Proof.
  split; [| split; [| repeat split; try (vm_compute; reflexivity)]].
  - intros info elements Hq.
    destruct (py_gt_thirty _ Hq) as [b [Hb Hiff]].
    exists (if b then "extreme_tno" else "tno").
    unfold tno_record, tno_type. rewrite Hb. cbn [rbind].
    split; [reflexivity |].
    destruct b; split; split.
    + intros _. apply Hiff; reflexivity.
    + reflexivity.
    + discriminate.
    + intros H. contradiction H. apply Hiff; reflexivity.
    + discriminate.
    + intros H. apply Hiff in H. discriminate H.
    + intros _ H. apply Hiff in H. discriminate H.
    + reflexivity.
  - intros text object_id elements H.
    apply elem_value_number, elements_ok_default; [| discriminate].
    exact (proj2 (parse_some _ _ _ H)).
Qed.

(** A perihelion of 76.19 (Sedna's) and the record built from it. *)
Lemma tno_classification_witness :
  exists ty,
    tno_record {| tno_name := "Sedna"; tno_id := "90377";
                  tno_designation := "2003 VB12" |}
      [("perihelion", VFloat (Float.of_ratio false 7619 100))] =
    Ok [ ("name", VStr "Sedna"); ("designation", VStr "2003 VB12");
         ("type", VStr ty);
         ("orbital_elements",
           VDict [("perihelion", VFloat (Float.of_ratio false 7619 100))]) ] /\
    ty = "extreme_tno".
Proof.
  destruct (proj1 tno_classification
              {| tno_name := "Sedna"; tno_id := "90377";
                 tno_designation := "2003 VB12" |}
              [("perihelion", VFloat (Float.of_ratio false 7619 100))])
    as [ty [Hr [Hext _]]].
  - vm_compute. reflexivity.
  - exists ty. split; [exact Hr |].
    apply Hext. vm_compute. reflexivity.
Defined.

(** ** Fetching and identifier resolution *)

Section ServiceFacts.

Variable horizons : list request -> request -> option string.

Lemma fetch_elements_log (object_id ep : string) (log : list request) :
  snd (fetch_elements horizons object_id ep log) =
  (log ++ [(object_id, ep)])%list.
Proof.
  unfold fetch_elements.
  destruct (horizons log (object_id, ep)) as [data |]; [| reflexivity].
  destruct (parse_horizons_output data object_id); reflexivity.
Qed.

(** What a fetch returns is what the extractor returned: it is not empty
    and its values are well shaped. *)
Lemma fetch_elements_some (object_id ep : string) (log : list request)
  (e : dict) :
  fst (fetch_elements horizons object_id ep log) = Some e ->
  Dict.truthy e = true /\ elements_ok e.
Proof.
  unfold fetch_elements.
  destruct (horizons log (object_id, ep)) as [data |]; [| discriminate].
  destruct (parse_horizons_output data object_id) as [r | x] eqn:E;
    [| discriminate].
  simpl. intros ->. exact (parse_some _ _ _ E).
Qed.

Lemma fetch_elements_truthy (object_id ep : string) (log : list request) :
  truthy_opt (fst (fetch_elements horizons object_id ep log)) = false ->
  fst (fetch_elements horizons object_id ep log) = None.
Proof.
  destruct (fst (fetch_elements horizons object_id ep log)) as [e |] eqn:E;
    [| reflexivity].
  destruct (fetch_elements_some _ _ _ _ E) as [He _].
  simpl. rewrite He. discriminate.
Qed.

(** The two attempts of the resolution, as one equation. *)
Lemma resolve_attempts (ep : string) (info : tno_info) (log : list request) :
  resolve horizons ep info log =
  if truthy_opt (fst (fetch_elements horizons (tno_id info) ep log))
  then fetch_elements horizons (tno_id info) ep log
  else fetch_elements horizons ("DES=" ++ tno_id info) ep
         (snd (fetch_elements horizons (tno_id info) ep log)).
Proof.
  unfold resolve, id_formats. cbn [try_formats].
  destruct (fetch_elements horizons (tno_id info) ep log) as [e1 l1].
  cbn [fst snd]. destruct (truthy_opt e1); [reflexivity |].
  destruct (fetch_elements horizons ("DES=" ++ tno_id info) ep l1) as [e2 l2].
  destruct (truthy_opt e2); reflexivity.
Qed.

Lemma resolve_some (ep : string) (info : tno_info) (log : list request)
  (e : dict) :
  fst (resolve horizons ep info log) = Some e ->
  Dict.truthy e = true /\ elements_ok e.
Proof.
  rewrite resolve_attempts.
  destruct (truthy_opt (fst (fetch_elements horizons (tno_id info) ep log)));
    apply fetch_elements_some.
Qed.

(** The step of the loop over the TNOs never raises: it appends the record
    of the retained elements, or nothing. *)
Lemma tno_step_cases (ep : string) (info : tno_info) (tnos : list dict)
  (log : list request) :
  match fst (resolve horizons ep info log) with
  | Some e =>
      elements_ok e /\
      exists ty,
        tno_step horizons ep tnos log info =
        (Ok (tnos ++ [ [ ("name", VStr (tno_name info));
                         ("designation", VStr (tno_designation info));
                         ("type", VStr ty);
                         ("orbital_elements", VDict e) ] ])%list,
         snd (resolve horizons ep info log))
  | None =>
      tno_step horizons ep tnos log info =
      (Ok tnos, snd (resolve horizons ep info log))
  end.
Proof.
  pose proof (resolve_some ep info log) as Hsome.
  unfold tno_step.
  destruct (resolve horizons ep info log) as [[e |] l]; cbn [fst snd] in *;
    [| reflexivity].
  destruct (Hsome e eq_refl) as [Ht Hok]. split; [exact Hok |].
  rewrite Ht. unfold tno_record.
  destruct (tno_type_total e Hok) as [b ->]. cbn [rbind].
  eexists; reflexivity.
Qed.

End ServiceFacts.

(** C7. For a TNO the primary identifier is fetched first; the form
    prefixed with [DES=] is fetched only when the first fetch gave no
    data, and nothing else is fetched: the requests issued are the first
    alone or the first then the second. The elements retained are those
    of the first fetch when it gave data and those of the second
    otherwise, and the record appended holds exactly those elements. *)
Theorem identifier_resolution
  (horizons : list request -> request -> option string)
  (ep : string) (info : tno_info) (tnos : list dict) (log : list request) :
  let first := fetch_elements horizons (tno_id info) ep log in
  let second :=
    fetch_elements horizons ("DES=" ++ tno_id info) ep (snd first) in
  resolve horizons ep info log =
    (if truthy_opt (fst first) then first else second) /\
  snd first = (log ++ [(tno_id info, ep)])%list /\
  snd second =
    (log ++ [(tno_id info, ep); (("DES=" ++ tno_id info)%string, ep)])%list /\
  match fst (resolve horizons ep info log) with
  | Some e =>
      exists ty,
        tno_step horizons ep tnos log info =
        (Ok (tnos ++ [ [ ("name", VStr (tno_name info));
                         ("designation", VStr (tno_designation info));
                         ("type", VStr ty);
                         ("orbital_elements", VDict e) ] ])%list,
         snd (resolve horizons ep info log))
  | None =>
      tno_step horizons ep tnos log info =
      (Ok tnos, snd (resolve horizons ep info log))
  end.
Proof.
  cbv zeta. split; [apply resolve_attempts |].
  split; [apply fetch_elements_log |].
  split.
  - rewrite !fetch_elements_log, <- app_assoc. reflexivity.
  - pose proof (tno_step_cases horizons ep info tnos log) as H.
    destruct (fst (resolve horizons ep info log)) as [e |].
    + exact (proj2 H).
    + exact H.
Qed.

Example identifier_resolution_example :
  resolve designation_only epoch
    {| tno_name := "Sedna"; tno_id := "90377";
       tno_designation := "2003 VB12" |} [] =
  (Some example_elements,
   [("90377", "2023-09-13"); ("DES=90377", "2023-09-13")]).
Proof. vm_compute. reflexivity. Qed.

(** ** The clustering summary *)

Lemma of_int_three_sixty : Float.of_int 360 = Ok three_sixty.
Proof. vm_compute. reflexivity. Qed.

Lemma of_int_zero : Float.of_int 0 = Ok Float.zero.
Proof. reflexivity. Qed.

Lemma lon_peri_longitude (elem : dict) :
  elements_ok elem -> lon_peri elem = Ok (longitude_of_perihelion elem).
Proof.
  intros Hok. unfold lon_peri, longitude_of_perihelion.
  pose proof (elements_ok_default elem "longitude_ascending_node" Hok
                ltac:(discriminate)) as Hn.
  pose proof (elements_ok_default elem "argument_perihelion" Hok
                ltac:(discriminate)) as Hp.
  unfold Dict.get_default in *.
  destruct (match Dict.get "longitude_ascending_node" elem with
            | Some v => v | None => VInt 0 end) as [| x | f | s | d];
    try discriminate Hn;
    destruct (match Dict.get "argument_perihelion" elem with
              | Some v => v | None => VInt 0 end) as [| y | g | t | d'];
    try discriminate Hp; cbn [elem_value] in *.
  - reflexivity.
  - apply Z.eqb_eq in Hn. subst x.
    cbn [py_add]. rewrite of_int_zero. cbn [rbind py_mod].
    rewrite of_int_three_sixty. reflexivity.
  - apply Z.eqb_eq in Hp. subst y.
    cbn [py_add]. rewrite of_int_zero. cbn [rbind py_mod].
    rewrite of_int_three_sixty. reflexivity.
  - cbn [py_add rbind py_mod]. rewrite of_int_three_sixty. reflexivity.
Qed.

Lemma longitude_number (elem : dict) :
  py_format_f (longitude_of_perihelion elem) =
  Ok (longitude_of_perihelion elem).
Proof.
  unfold longitude_of_perihelion.
  destruct (match Dict.get "longitude_ascending_node" elem with
            | Some v => v | None => VInt 0 end);
    destruct (match Dict.get "argument_perihelion" elem with
              | Some v => v | None => VInt 0 end); reflexivity.
Qed.

Lemma elem_value_format (v : pyval) :
  elem_value v = true -> py_format_f v = Ok v.
Proof.
  destruct v; simpl; intros H; try discriminate H; reflexivity.
Qed.

Lemma cluster_entry_ok (t : dict) :
  tno_ok t -> exists l, cluster_entry t = Ok l /\ line_of t l.
Proof.
  intros (name & designation & ty & e & -> & Hok).
  unfold cluster_entry. cbn [subscript Dict.get String.eqb Ascii.eqb
                             Bool.eqb rbind].
  rewrite (lon_peri_longitude e Hok). cbn [rbind].
  rewrite longitude_number. cbn [rbind].
  rewrite elem_value_format
    by (apply elements_ok_default; [exact Hok | discriminate]).
  cbn [rbind]. eexists. split; [reflexivity |].
  exists e. repeat split; reflexivity.
Qed.

Lemma cluster_entries_ok (ts : list dict) :
  Forall tno_ok ts ->
  exists ls, cluster_entries ts = Ok ls /\ Forall2 line_of ts ls.
Proof.
  induction 1 as [| t rest Ht _ IH]; simpl.
  - exists []; split; [reflexivity | constructor].
  - destruct (cluster_entry_ok t Ht) as [l [-> Hl]].
    destruct IH as [ls [-> Hls]]. simpl.
    exists (l :: ls); split; [reflexivity | constructor; assumption].
Qed.

Lemma clustering_ok (tnos : list dict) :
  Forall tno_ok tnos ->
  exists ls, clustering tnos = Ok ls /\
    Forall2 line_of (List.filter is_extreme tnos) ls.
Proof.
  intros H. apply cluster_entries_ok.
  rewrite Forall_forall in *. intros t Ht.
  apply filter_In in Ht. apply H. exact (proj1 Ht).
Qed.

Section MainFacts.

Variable horizons : list request -> request -> option string.

Lemma tno_step_ok (ep : string) (info : tno_info) (tnos : list dict)
  (log : list request) :
  Forall tno_ok tnos ->
  exists tnos' log',
    tno_step horizons ep tnos log info = (Ok tnos', log') /\
    Forall tno_ok tnos'.
Proof.
  intros Hts.
  pose proof (tno_step_cases horizons ep info tnos log) as H.
  destruct (fst (resolve horizons ep info log)) as [e |].
  - destruct H as [Hok [ty ->]]. do 2 eexists. split; [reflexivity |].
    apply Forall_app. split; [exact Hts |].
    constructor; [| constructor].
    exists (tno_name info), (tno_designation info), ty, e.
    split; [reflexivity | exact Hok].
  - rewrite H. do 2 eexists. split; [reflexivity | exact Hts].
Qed.

(** The loop over the TNOs never raises. *)
Lemma tno_loop_ok (ep : string) (infos : list tno_info) (tnos : list dict)
  (log : list request) :
  Forall tno_ok tnos ->
  exists tnos' log',
    tno_loop horizons ep tnos log infos = (Ok tnos', log') /\
    Forall tno_ok tnos'.
Proof.
  revert tnos log. induction infos as [| info rest IH]; intros tnos log Hts.
  - exists tnos, log. split; [reflexivity | exact Hts].
  - cbn [tno_loop].
    destruct (tno_step_ok ep info tnos log Hts) as (tnos1 & log1 & -> & H1).
    exact (IH tnos1 log1 H1).
Qed.

End MainFacts.

(** C8. Whatever the service answers, [main] builds its document and
    prints a table with one line for each record of the document tagged
    [extreme_tno], in order; the longitude of perihelion of a line is the
    sum of the longitude of the ascending node and of the argument of
    perihelion of the record's elements, zero standing for an absent one,
    modulo 360. The records of the document hold their four keys and
    nothing of the table. *)
Theorem clustering_summary
  (horizons : list request -> request -> option string) :
  exists doc lines,
    run_document (main horizons) = Some doc /\
    run_summary (main horizons) = Ok lines /\
    Forall2 line_of (List.filter is_extreme (doc_etnos doc)) lines /\
    Forall (fun t => Dict.keys t =
                     ["name"; "designation"; "type"; "orbital_elements"])
      (doc_etnos doc).
Proof.
  unfold main.
  destruct (List.fold_left (planet_step horizons epoch) get_planet_data
              ([], [])) as [planets log1].
  destruct (tno_loop_ok horizons epoch get_tno_list [] log1 (Forall_nil _))
    as (tnos & log2 & -> & Hts).
  cbn [run_document run_summary].
  assert (Hkeys : Forall (fun t => Dict.keys t =
                    ["name"; "designation"; "type"; "orbital_elements"]) tnos).
  { rewrite Forall_forall in *. intros t Ht.
    destruct (Hts t Ht) as (n & d & ty & e & -> & _). reflexivity. }
  destruct tnos as [| t rest].
  - exists {| doc_planets := planets; doc_etnos := [] |}, [].
    repeat split; constructor.
  - destruct (clustering_ok (t :: rest) Hts) as [ls [Hls Hlines]].
    exists {| doc_planets := planets; doc_etnos := t :: rest |}, ls.
    repeat split; assumption.
Qed.

(** A run in which every object is known by its designation only and
    has the example row: fifteen lines, each with the longitude
    100.2 + 200.3 = 300.5 and the perihelion distance 30.1. *)
Example clustering_summary_example :
  run_summary (main designation_only) =
  Ok (List.map
        (fun info =>
           {| line_name := VStr (tno_name info);
              line_lon_peri := VFloat (Float.of_ratio false 3005 10);
              line_q := VFloat (Float.of_ratio false 301 10) |})
        get_tno_list).
Proof. vm_compute. reflexivity. Qed.

(** * Further properties *)

(** ** The request URL *)

Lemma append_assoc (a b c : string) : (a ++ b) ++ c = a ++ (b ++ c).
Proof.
  induction a as [| x a IH]; simpl; [reflexivity |].
  rewrite IH. reflexivity.
Qed.

Lemma map_append (f : ascii -> ascii) (a b : string) :
  Str.map f (a ++ b) = Str.map f a ++ Str.map f b.
Proof.
  induction a as [| x a IH]; simpl; [reflexivity |].
  rewrite IH. reflexivity.
Qed.

Lemma forallb_append (p : ascii -> bool) (a b : string) :
  Str.forallb p (a ++ b) = Str.forallb p a && Str.forallb p b.
Proof.
  induction a as [| x a IH]; simpl; [reflexivity |].
  rewrite IH, andb_assoc. reflexivity.
Qed.

Lemma quote_from_bytes_app (safe : ascii -> bool) (a b : list ascii) :
  Url.quote_from_bytes safe (a ++ b) =
  Url.quote_from_bytes safe a ++ Url.quote_from_bytes safe b.
Proof.
  induction a as [| x a IH]; simpl; [reflexivity |].
  rewrite IH, append_assoc. reflexivity.
Qed.

Lemma contains_space (c : ascii) (r : string) :
  Str.contains " " (String c r) = Ascii.eqb " " c || Str.contains " " r.
Proof.
  unfold Str.contains. cbn [Str.index Str.startswith].
  rewrite andb_true_r.
  destruct (Ascii.eqb " " c); [reflexivity |].
  destruct (Str.index " " r); reflexivity.
Qed.

Lemma escape_char_plain (c : ascii) :
  Ascii.eqb " " c = false ->
  Url.quote_from_bytes (fun _ => false) (Url.utf8 c) = escape_char c.
Proof.
  unfold escape_char. rewrite Ascii.eqb_sym. intros ->. reflexivity.
Qed.

Lemma escape_char_space (c : ascii) :
  Url.replace " " "+"
    (Url.quote_from_bytes (fun c => Ascii.eqb c " ") (Url.utf8 c)) =
  escape_char c.
Proof.
  destruct c as [[] [] [] [] [] [] [] []]; vm_compute; reflexivity.
Qed.

Lemma quote_plain (s : string) :
  Str.contains " " s = false ->
  Url.quote (fun _ => false) s = escape s.
Proof.
  unfold Url.quote. induction s as [| c r IH]; [reflexivity |].
  rewrite contains_space. intros H. apply orb_false_elim in H.
  destruct H as [Hc Hr]. cbn [Url.encode escape].
  rewrite quote_from_bytes_app, (escape_char_plain c Hc), (IH Hr).
  reflexivity.
Qed.

Lemma quote_space (s : string) :
  Url.replace " " "+" (Url.quote (fun c => Ascii.eqb c " ") s) = escape s.
Proof.
  unfold Url.quote, Url.replace. induction s as [| c r IH]; [reflexivity |].
  cbn [Url.encode escape].
  rewrite quote_from_bytes_app, map_append, IH.
  f_equal. apply escape_char_space.
Qed.

(** [quote_plus] escapes a text character by character. *)
Lemma quote_plus_escape (s : string) : Url.quote_plus s = escape s.
Proof.
  unfold Url.quote_plus. destruct (Str.contains " " s) eqn:E.
  - apply quote_space.
  - apply quote_plain; exact E.
Qed.

Lemma escape_append (a b : string) : escape (a ++ b) = escape a ++ escape b.
Proof.
  induction a as [| x a IH]; simpl; [reflexivity |].
  rewrite IH, append_assoc. reflexivity.
Qed.

Lemma escape_char_chars (c : ascii) :
  Str.forallb escaped_char (escape_char c) = true.
Proof.
  destruct c as [[] [] [] [] [] [] [] []]; vm_compute; reflexivity.
Qed.

Lemma escape_chars (s : string) : Str.forallb escaped_char (escape s) = true.
Proof.
  induction s as [| c r IH]; [reflexivity |].
  cbn [escape]. rewrite forallb_append, escape_char_chars, IH. reflexivity.
Qed.

Lemma unescape_escape_char (c : ascii) (r : string) :
  unescape_char (escape_char c ++ r) = Some (c, r).
Proof.
  destruct c as [[] [] [] [] [] [] [] []]; reflexivity.
Qed.

(** Escaping loses nothing: two texts with the same escaped form, each
    followed by a character that escaping never produces, are the same. *)
Lemma escape_inj (a b ra rb : string) (stop : ascii) :
  escaped_char stop = false ->
  escape a ++ String stop ra = escape b ++ String stop rb ->
  a = b /\ ra = rb.
Proof.
  intros Hstop. revert b.
  assert (Hhead : forall c r r', String stop r' <> escape_char c ++ r).
  { intros c r r' H.
    pose proof (escape_char_chars c) as Hc.
    destruct (escape_char c) as [| x e] eqn:E.
    - destruct c as [[] [] [] [] [] [] [] []]; vm_compute in E; discriminate E.
    - simpl in H. injection H as -> _. simpl in Hc.
      rewrite Hstop in Hc. discriminate Hc. }
  induction a as [| x a IH]; intros [| y b]; cbn [escape].
  - simpl. intros H; injection H as ->. split; reflexivity.
  - rewrite append_assoc. simpl. intros H. exfalso. exact (Hhead _ _ _ H).
  - rewrite append_assoc. simpl. intros H. exfalso.
    symmetry in H. exact (Hhead _ _ _ H).
  - rewrite !append_assoc. intros H.
    apply (f_equal unescape_char) in H.
    rewrite !unescape_escape_char in H. injection H as -> H.
    destruct (IH _ H) as [-> ->]. split; reflexivity.
Qed.

Lemma append_inv_head (p a b : string) : p ++ a = p ++ b -> a = b.
Proof.
  induction p as [| x p IH]; simpl; [auto |].
  intros H; injection H as H. exact (IH H).
Qed.

(** The URL, written out. *)
Lemma request_url_shape (object_id ep : string) :
  request_url object_id ep =
  "https://ssd.jpl.nasa.gov/api/horizons.api?format=text&COMMAND=%27"
  ++ escape object_id
  ++ "%27&OBJ_DATA=YES&MAKE_EPHEM=YES&EPHEM_TYPE=ELEMENTS&CENTER=%27500%4010%27&START_TIME=%27"
  ++ escape ep ++ "%27&STOP_TIME=%27" ++ escape ep
  ++ "%27&STEP_SIZE=1+d&REF_SYSTEM=ICRF&REF_PLANE=ECLIPTIC&OUT_UNITS=AU-D&CSV_FORMAT=NO".
Proof.
  unfold request_url, Url.urlencode, query_params, quoted.
  cbn [List.map fst snd String.concat].
  rewrite !quote_plus_escape, !escape_append, !append_assoc. reflexivity.
Qed.

Lemma request_url_parts (object_id ep : string) :
  request_url object_id ep =
  "https://ssd.jpl.nasa.gov/api/horizons.api?format=text&COMMAND="
  ++ escape (quoted object_id)
  ++ "&OBJ_DATA=YES&MAKE_EPHEM=YES&EPHEM_TYPE=ELEMENTS&CENTER=%27500%4010%27&START_TIME="
  ++ escape (quoted ep) ++ "&STOP_TIME=" ++ escape (quoted ep)
  ++ "&STEP_SIZE=1+d&REF_SYSTEM=ICRF&REF_PLANE=ECLIPTIC&OUT_UNITS=AU-D&CSV_FORMAT=NO".
Proof.
  unfold request_url, Url.urlencode, query_params.
  cbn [List.map fst snd String.concat].
  rewrite !quote_plus_escape.
  rewrite !append_assoc. reflexivity.
Qed.

Lemma append_inv_tail (a b : string) (c : ascii) :
  a ++ String c "" = b ++ String c "" -> a = b.
Proof.
  revert b. induction a as [| x a IH]; intros [| y b]; simpl.
  - reflexivity.
  - intros H. injection H as _ H. destruct b; discriminate H.
  - intros H. injection H as _ H. destruct a; discriminate H.
  - intros H. injection H as -> H. rewrite (IH _ H). reflexivity.
Qed.

Lemma quoted_inj (a b : string) : quoted a = quoted b -> a = b.
Proof.
  unfold quoted. simpl. intros H. injection H as H.
  exact (append_inv_tail _ _ _ H).
Qed.

(** X1. The URL [fetch_elements] opens is the base URL, a question
    mark and the thirteen parameters in the order of the source, with the
    identifier and the epoch escaped ([quote_plus]: a space as [+], every
    character other than a letter, a digit or one of [_.-~] as the [%XX]
    escapes of its UTF-8 bytes) between escaped quotes [%27]. Whatever
    the identifier and the epoch, the URL holds no character other than
    letters, digits and [_.-~%+=&?:/]. *)
Theorem request_url_escaped (object_id ep : string) :
  request_url object_id ep =
  "https://ssd.jpl.nasa.gov/api/horizons.api?format=text&COMMAND=%27"
  ++ escape object_id
  ++ "%27&OBJ_DATA=YES&MAKE_EPHEM=YES&EPHEM_TYPE=ELEMENTS&CENTER=%27500%4010%27&START_TIME=%27"
  ++ escape ep ++ "%27&STOP_TIME=%27" ++ escape ep
  ++ "%27&STEP_SIZE=1+d&REF_SYSTEM=ICRF&REF_PLANE=ECLIPTIC&OUT_UNITS=AU-D&CSV_FORMAT=NO"
  /\ Str.forallb url_char (request_url object_id ep) = true.
Proof.
  split; [apply request_url_shape |].
  rewrite request_url_shape.
  assert (He : forall s, Str.forallb url_char (escape s) = true).
  { intros s. pose proof (escape_chars s) as H.
    induction (escape s) as [| c r IH]; [reflexivity |].
    simpl in *. apply andb_prop in H. destruct H as [Hc Hr].
    unfold url_char. rewrite Hc. simpl. exact (IH Hr). }
  rewrite !forallb_append, !He. reflexivity.
Qed.

(** X2. Two calls of [fetch_elements] open the same URL exactly when
    they have the same identifier and the same epoch: escaping loses
    nothing, so the form prefixed with [DES=] is never the request of the
    bare identifier. *)
Theorem request_url_inj (id1 ep1 id2 ep2 : string) :
  request_url id1 ep1 = request_url id2 ep2 <-> id1 = id2 /\ ep1 = ep2.
Proof.
  split; [| intros [-> ->]; reflexivity].
  rewrite !request_url_parts. intros H.
  apply append_inv_head in H.
  apply (escape_inj _ _ _ _ "&"%char eq_refl) in H.
  destruct H as [Hid H]. apply quoted_inj in Hid.
  apply (append_inv_head
           "OBJ_DATA=YES&MAKE_EPHEM=YES&EPHEM_TYPE=ELEMENTS&CENTER=%27500%4010%27&START_TIME=")
    in H.
  apply (escape_inj _ _ _ _ "&"%char eq_refl) in H.
  destruct H as [Hep _]. apply quoted_inj in Hep.
  split; assumption.
Qed.

(** The two forms tried for Sedna give two URLs; the URL of an identifier
    with a space. *)
Lemma request_url_inj_witness :
  request_url "90377" "2023-09-13" <> request_url "DES=90377" "2023-09-13" /\
  request_url "2012 VP113" "2023-09-13" =
  "https://ssd.jpl.nasa.gov/api/horizons.api?format=text&COMMAND=%272012+VP113%27&OBJ_DATA=YES&MAKE_EPHEM=YES&EPHEM_TYPE=ELEMENTS&CENTER=%27500%4010%27&START_TIME=%272023-09-13%27&STOP_TIME=%272023-09-13%27&STEP_SIZE=1+d&REF_SYSTEM=ICRF&REF_PLANE=ECLIPTIC&OUT_UNITS=AU-D&CSV_FORMAT=NO".
Proof.
  split.
  - intros H. apply (proj1 (request_url_inj _ _ _ _)) in H.
    destruct H as [H _]. discriminate H.
  - vm_compute. reflexivity.
Defined.

(** ** The last line that parses *)

Lemma rbind_ret {A : Type} (r : result A) : rbind r (fun a => Ok a) = r.
Proof. destruct r; reflexivity. Qed.

Lemma scan_lines_last (lines : list string) (elements : dict) :
  scan_lines elements lines =
  match last_parsed lines with
  | Some line => row_elements (split_fields line)
  | None => Ok elements
  end.
Proof.
  induction lines as [| x l IH] using rev_ind; [reflexivity |].
  destruct (scan_lines_total l elements) as [d [Hd _]].
  rewrite (scan_lines_app _ _ _ _ Hd).
  unfold last_parsed. rewrite rev_app_distr. cbn [List.rev List.app List.find].
  cbn [scan_lines]. rewrite rbind_ret, scan_line_parses.
  destruct (parses x); [reflexivity |].
  rewrite <- Hd, IH. reflexivity.
Qed.

Lemma tabular_last (text : string) :
  tabular text =
  match last_parsed (data_lines text) with
  | Some line => row_elements (split_fields line)
  | None => Ok []
  end.
Proof.
  unfold tabular, data_lines.
  destruct (Str.contains "$$SOE" text && Str.contains "$$EOE" text).
  - apply scan_lines_last.
  - reflexivity.
Qed.

Lemma last_parsed_parses (lines : list string) (line : string) :
  last_parsed lines = Some line -> parses line = true /\ In line lines.
Proof.
  unfold last_parsed. intros H. apply find_some in H.
  destruct H as [Hin Hp]. split; [exact Hp |].
  apply in_rev. exact Hin.
Qed.

Lemma parses_row (line : string) :
  parses line = true ->
  exists d, row_elements (split_fields line) = Ok d /\ Dict.truthy d = true.
Proof.
  unfold parses. intros H. apply andb_prop in H. destruct H as [_ H].
  destruct (row_elements (split_fields line)) as [d | e] eqn:E;
    [| discriminate H].
  exists d. split; [reflexivity |].
  destruct (row_elements_shape _ _ E) as [_ Hk].
  destruct d; [discriminate Hk | reflexivity].
Qed.

(** X3. The extractor as one case analysis. A text with one of the two
    phrases of an unknown object gives nothing. Otherwise, if a line of
    the data section parses, the result is the display of the last such
    line, whatever the other lines and whatever the text holds of the
    patterns of the fallback strategy; if none does (or the markers are
    missing), the result is the dictionary of the fallback strategy, or
    nothing when that is empty. *)
Theorem extractor_last_row (text object_id : string) :
  if not_found text then parse_horizons_output text object_id = Ok None
  else
    match last_parsed (data_lines text) with
    | Some line =>
        exists d, row_elements (split_fields line) = Ok d /\
          parse_horizons_output text object_id = Ok (Some d)
    | None =>
        parse_horizons_output text object_id =
        (d <- fallback text ;; Ok (if Dict.truthy d then Some d else None))
    end.
Proof.
  destruct (parse_cases text object_id) as [t [Ht ->]].
  destruct (not_found text); [reflexivity |].
  rewrite tabular_last in Ht.
  destruct (last_parsed (data_lines text)) as [line |] eqn:E.
  - destruct (last_parsed_parses _ _ E) as [Hp _].
    destruct (parses_row _ Hp) as [d [Hd Hty]].
    exists d. split; [exact Hd |].
    rewrite Hd in Ht. injection Ht as <-. rewrite Hty. reflexivity.
  - injection Ht as <-. rewrite fallback_store. reflexivity.
Qed.

(** ** The fields a row is read from *)

Lemma field_readable (parts : list string) (i : nat) (dflt : pyval) :
  match field parts i dflt with Ok _ => true | Raise _ => false end =
  readable parts i.
Proof.
  unfold field, item, readable, is_number.
  destruct (nth_error parts i) as [s |]; [| reflexivity].
  cbn [rbind]. destruct (Str.truthy s); [| reflexivity].
  destruct (Float.of_string s); reflexivity.
Qed.

Lemma row_readable (parts : list string) :
  match row_elements parts with Ok _ => true | Raise _ => false end =
  List.forallb (readable parts) used_fields.
Proof.
  unfold used_fields. cbn [List.forallb].
  rewrite <- (field_readable parts 0 (VInt 0)), <- (field_readable parts 1 (VInt 0)),
    <- (field_readable parts 2 (VInt 0)), <- (field_readable parts 3 (VInt 0)),
    <- (field_readable parts 4 (VInt 0)), <- (field_readable parts 7 (VInt 0)),
    <- (field_readable parts 9 (VInt 0)), <- (field_readable parts 10 (VInt 0)),
    <- (field_readable parts 11 VNone).
  unfold row_elements.
  repeat match goal with
         | |- context [field parts ?i ?d] =>
             destruct (field parts i d); cbn [rbind andb]; [| reflexivity]
         end.
  reflexivity.
Qed.

Lemma readable_length (parts : list string) (i : nat) :
  readable parts i = true -> (i < List.length parts)%nat.
Proof.
  unfold readable. intros H. apply nth_error_Some.
  destruct (nth_error parts i); [discriminate | discriminate H].
Qed.

Lemma parses_fields (line : string) :
  parses line =
  qualifies line && List.forallb (readable (split_fields line)) used_fields.
Proof.
  unfold parses. rewrite row_readable.
  destruct (qualifies line); cbn [andb]; [| reflexivity].
  destruct (List.forallb (readable (split_fields line)) used_fields) eqn:E;
    [| apply andb_false_r].
  rewrite andb_true_r. apply Nat.leb_le.
  assert (H : readable (split_fields line) 11 = true).
  { rewrite forallb_forall in E. apply E. unfold used_fields. simpl. tauto. }
  apply readable_length in H. lia.
Qed.

Lemma field_agree (parts parts' : list string) (i : nat) (dflt : pyval) :
  nth_error parts i = nth_error parts' i ->
  field parts i dflt = field parts' i dflt.
Proof.
  intros H. unfold field, item. rewrite H. reflexivity.
Qed.

Lemma row_elements_agree (parts parts' : list string) :
  (forall i, In i used_fields -> nth_error parts i = nth_error parts' i) ->
  row_elements parts = row_elements parts'.
Proof.
  intros H. unfold row_elements.
  rewrite (field_agree parts parts' 0), (field_agree parts parts' 1),
    (field_agree parts parts' 2), (field_agree parts parts' 3),
    (field_agree parts parts' 4), (field_agree parts parts' 7),
    (field_agree parts parts' 9), (field_agree parts parts' 10),
    (field_agree parts parts' 11);
    try (apply H; unfold used_fields; simpl; tauto).
  reflexivity.
Qed.

(** X4. The body of the loop over the lines replaces the dictionary by
    the display of the line exactly when the line holds a comma and a
    digit and each of its fields 0, 1, 2, 3, 4, 7, 9, 10 and 11 is there
    and is empty or a number; otherwise it leaves the dictionary as it
    was, raising nothing. A line of eleven fields has no field 11 and is
    skipped. The display depends on those nine fields alone: two rows
    that agree on them give the same result, whatever their fields 5, 6
    and 8 and their fields after the twelfth. *)
Theorem scan_line_fields :
  (forall elements line,
     scan_line elements line =
     if qualifies line
        && List.forallb (readable (split_fields line)) used_fields
     then row_elements (split_fields line)
     else Ok elements) /\
  (forall parts parts',
     (forall i, In i used_fields -> nth_error parts i = nth_error parts' i) ->
     row_elements parts = row_elements parts').
Proof.
  split.
  - intros elements line. rewrite scan_line_parses, parses_fields.
    reflexivity.
  - exact row_elements_agree.
Qed.

(** A row with a date in its field 5, text in its field 6, nothing in its
    field 8 and a thirteenth field, and the example row. *)
Lemma scan_line_fields_witness :
  row_elements
    ["0.25"; "30.1"; "10.5"; "100.2"; "200.3"; "A.D. 2023-Sep-13"; "x";
     "15.0"; ""; "400.0"; "500.0"; "1000"; "more"] =
  row_elements
    ["0.25"; "30.1"; "10.5"; "100.2"; "200.3"; "0"; "0";
     "15.0"; "0"; "400.0"; "500.0"; "1000"].
Proof.
  apply (proj2 scan_line_fields).
  intros i Hi. simpl in Hi.
  repeat (destruct Hi as [<- | Hi]; [reflexivity |]). destruct Hi.
Defined.

(** ** Fields after the twelfth *)

Lemma split_nonempty (sep : ascii) (s : string) : Str.split sep s <> [].
Proof.
  destruct s as [| c r]; cbn [Str.split]; [discriminate |].
  destruct (Ascii.eqb c sep); [discriminate |].
  destruct (Str.split sep r); discriminate.
Qed.

Lemma split_append (sep : ascii) (a b : string) :
  Str.split sep (a ++ String sep b) = (Str.split sep a ++ Str.split sep b)%list.
Proof.
  induction a as [| c a IH]; cbn [String.append Str.split].
  - rewrite Ascii.eqb_refl. reflexivity.
  - destruct (Ascii.eqb c sep); [rewrite IH; reflexivity |].
    rewrite IH. pose proof (split_nonempty sep a) as Hne.
    destruct (Str.split sep a) as [| p ps]; [contradiction Hne; reflexivity |].
    reflexivity.
Qed.

Lemma existsb_append (p : ascii -> bool) (a b : string) :
  Str.existsb p (a ++ b) = Str.existsb p a || Str.existsb p b.
Proof.
  induction a as [| x a IH]; simpl; [reflexivity |].
  rewrite IH, orb_assoc. reflexivity.
Qed.

Lemma startswith_append (p a b : string) :
  Str.startswith p a = true -> Str.startswith p (a ++ b) = true.
Proof.
  revert a. induction p as [| x p IH]; intros a; [reflexivity |].
  destruct a as [| y a]; simpl; [discriminate |].
  destruct (Ascii.eqb x y); [apply IH | discriminate].
Qed.

Lemma contains_append (p a b : string) :
  Str.contains p a = true -> Str.contains p (a ++ b) = true.
Proof.
  unfold Str.contains. induction a as [| x a IH].
  - cbn [Str.index]. destruct (Str.startswith p "") eqn:E; [| discriminate].
    intros _. destruct p; [| discriminate E].
    destruct ("" ++ b); reflexivity.
  - cbn [Str.index String.append].
    destruct (Str.startswith p (String x a)) eqn:E.
    + intros _.
      change (String x (a ++ b)) with (String x a ++ b).
      rewrite (startswith_append _ _ b E). reflexivity.
    + intros H. destruct (Str.startswith p (String x (a ++ b)));
        [reflexivity |].
      destruct (Str.index p a); [| discriminate H].
      specialize (IH eq_refl). destruct (Str.index p (a ++ b));
        [reflexivity | discriminate IH].
Qed.

Lemma readable_app (parts more : list string) (i : nat) :
  (i < List.length parts)%nat ->
  readable (parts ++ more) i = readable parts i.
Proof.
  intros H. unfold readable. rewrite nth_error_app1 by exact H. reflexivity.
Qed.

Lemma field_app (parts more : list string) (i : nat) (dflt : pyval) :
  (i < List.length parts)%nat ->
  field (parts ++ more) i dflt = field parts i dflt.
Proof.
  intros H. unfold field, item. rewrite nth_error_app1 by exact H.
  reflexivity.
Qed.

Lemma row_elements_app (parts more : list string) :
  (12 <= List.length parts)%nat ->
  row_elements (parts ++ more) = row_elements parts.
Proof.
  intros H. unfold row_elements. rewrite !field_app by lia. reflexivity.
Qed.

Lemma parses_length (line : string) :
  parses line = true -> (12 <= List.length (split_fields line))%nat.
Proof.
  rewrite parses_fields. intros H. apply andb_prop in H. destruct H as [_ H].
  rewrite forallb_forall in H.
  assert (H11 : readable (split_fields line) 11 = true)
    by (apply H; unfold used_fields; simpl; tauto).
  apply readable_length in H11. lia.
Qed.

(** X5. Fields after the twelfth change nothing: a line that parses,
    followed by a comma and any text, gives the same dictionary. So does
    the comma that ends a row. *)
Theorem trailing_fields_ignored (elements : dict) (line extra : string) :
  parses line = true ->
  scan_line elements (line ++ "," ++ extra) = scan_line elements line.
Proof.
  intros Hp. pose proof (parses_length line Hp) as Hlen.
  assert (Hf : split_fields (line ++ "," ++ extra) =
               (split_fields line ++ split_fields extra)%list).
  { unfold split_fields. change ("," ++ extra) with (String "," extra).
    rewrite split_append, map_app. reflexivity. }
  assert (Hp' : parses (line ++ "," ++ extra) = true).
  { unfold parses in *. rewrite Hf, row_elements_app by exact Hlen.
    apply andb_prop in Hp. destruct Hp as [Hp Hrow].
    apply andb_prop in Hp. destruct Hp as [Hq _].
    unfold qualifies in *. apply andb_prop in Hq. destruct Hq as [Hc Hd].
    rewrite (contains_append _ _ _ Hc), existsb_append, Hd, Hrow.
    cbn [andb orb]. rewrite andb_true_r. apply Nat.leb_le.
    rewrite length_app. lia. }
  rewrite !scan_line_parses, Hp, Hp', Hf.
  apply row_elements_app. exact Hlen.
Qed.

(** The example row with a comma at its end. *)
Lemma trailing_fields_ignored_witness :
  scan_line [] (example_row ++ "," ++ "") = Ok example_elements.
Proof.
  rewrite (trailing_fields_ignored [] example_row "").
  - vm_compute. reflexivity.
  - vm_compute. reflexivity.
Defined.

(** ** Splitting a row *)

Lemma split_piece (sep : ascii) (x r : string) :
  Str.existsb (fun c => Ascii.eqb c sep) x = false ->
  Str.split sep (x ++ String sep r) = x :: Str.split sep r.
Proof.
  induction x as [| c x IH]; cbn [Str.existsb String.append Str.split].
  - intros _. rewrite Ascii.eqb_refl. reflexivity.
  - intros H. apply orb_false_elim in H. destruct H as [Hc Hx].
    rewrite Hc, (IH Hx). reflexivity.
Qed.

Lemma split_whole (sep : ascii) (x : string) :
  Str.existsb (fun c => Ascii.eqb c sep) x = false ->
  Str.split sep x = [x].
Proof.
  induction x as [| c x IH]; cbn [Str.existsb Str.split]; [reflexivity |].
  intros H. apply orb_false_elim in H. destruct H as [Hc Hx].
  rewrite Hc, (IH Hx). reflexivity.
Qed.

Lemma split_join (fields : list string) :
  fields <> [] -> List.forallb comma_free fields = true ->
  Str.split "," (String.concat "," fields) = fields.
Proof.
  induction fields as [| x rest IH]; [intros H; contradiction H; reflexivity |].
  intros _ H. cbn [List.forallb] in H. apply andb_prop in H.
  destruct H as [Hx Hrest]. unfold comma_free in Hx.
  apply negb_true_iff in Hx.
  destruct rest as [| y rest'].
  - simpl. apply split_whole. exact Hx.
  - change (String.concat "," (x :: y :: rest'))
      with (x ++ String "," (String.concat "," (y :: rest'))).
    rewrite (split_piece _ _ _ Hx). f_equal.
    apply IH; [discriminate | exact Hrest].
Qed.

(** X6. Splitting a row gives back the fields it was joined from: for
    a list of fields, not empty, none of which holds a comma, the fields
    of the fields joined by commas are the fields themselves, each
    stripped of the white space around it. *)
Theorem split_fields_join (fields : list string) :
  fields <> [] -> List.forallb comma_free fields = true ->
  split_fields (String.concat "," fields) = List.map Str.strip fields.
Proof.
  intros Hne Hc. unfold split_fields. rewrite (split_join fields Hne Hc).
  reflexivity.
Qed.

(** Four fields, one of them empty. *)
Lemma split_fields_join_witness :
  split_fields (String.concat "," [" 0.25"; "30.1 "; ""; " n.a. "]) =
  ["0.25"; "30.1"; ""; "n.a."].
Proof.
  apply (split_fields_join [" 0.25"; "30.1 "; ""; " n.a. "]).
  - discriminate.
  - vm_compute. reflexivity.
Defined.

(** ** Markers out of order *)

Lemma slice_empty (lo hi : Z) (s : string) : hi <= lo -> Str.slice lo hi s = "".
Proof.
  intros H. unfold Str.slice. replace (Z.to_nat (hi - lo)) with 0%nat by lia.
  reflexivity.
Qed.

Lemma data_lines_reversed (text : string) :
  Str.find "$$EOE" text <= Str.find "$$SOE" text + 5 ->
  last_parsed (data_lines text) = None.
Proof.
  intros H. unfold data_lines, data_section. cbv zeta.
  rewrite slice_empty by exact H.
  destruct (Str.contains "$$SOE" text && Str.contains "$$EOE" text);
    reflexivity.
Qed.

(** X7. When the first [$$EOE] does not come after the end of the first
    [$$SOE], the slice between them is empty: the tabular strategy reads
    no row, wherever the rows are, and the result is that of the fallback
    strategy. *)
Theorem markers_out_of_order (text object_id : string) :
  Str.find "$$EOE" text <= Str.find "$$SOE" text + 5 ->
  tabular text = Ok [] /\
  parse_horizons_output text object_id =
  if not_found text then Ok None
  else d <- fallback text ;; Ok (if Dict.truthy d then Some d else None).
Proof.
  intros H. pose proof (data_lines_reversed text H) as Hl.
  split.
  - rewrite tabular_last, Hl. reflexivity.
  - destruct (parse_cases text object_id) as [t [Ht ->]].
    rewrite tabular_last, Hl in Ht. injection Ht as <-.
    rewrite fallback_store. destruct (not_found text); reflexivity.
Qed.

(** The example row between markers in the wrong order: only the
    eccentricity written after them is read. *)
Lemma markers_out_of_order_witness :
  tabular reversed_text = Ok [] /\
  parse_horizons_output reversed_text "1" =
  Ok (Some [("eccentricity", VFloat (Float.of_ratio false 5 10))]).
Proof.
  destruct (markers_out_of_order reversed_text "1") as [H1 H2].
  - vm_compute. discriminate.
  - split; [exact H1 |]. rewrite H2. vm_compute. reflexivity.
Defined.

(** ** The entries of the fallback dictionary *)

Lemma get_app (k : string) (d1 d2 : dict) :
  Dict.get k (d1 ++ d2)%list =
  match Dict.get k d1 with Some v => Some v | None => Dict.get k d2 end.
Proof.
  induction d1 as [| [k' v'] r IH]; simpl; [reflexivity |].
  destruct (String.eqb k k'); [reflexivity | exact IH].
Qed.

Lemma set_fresh (k : string) (v : pyval) (d : dict) :
  Dict.get k d = None -> Dict.set k v d = (d ++ [(k, v)])%list.
Proof.
  induction d as [| [k' v'] r IH]; simpl; [reflexivity |].
  destruct (String.eqb k k'); [discriminate |].
  intros H. rewrite (IH H). reflexivity.
Qed.

(** The entry of a pattern given by its labels. *)
Lemma found_labels (text : string) (kp : string * list string) :
  short (snd kp) ->
  found text (fst kp, of_labels (snd kp)) =
  match extracted text (snd kp) with
  | Some f => [(fst kp, VFloat f)]
  | None => []
  end.
Proof.
  intros Hs. unfold found, extracted. cbn [fst snd].
  rewrite (search_of_labels _ text Hs).
  destruct (Scan.search (snd kp) text) as [m |]; [| reflexivity].
  destruct (matched_value m) as [[v |] | e]; try reflexivity.
  destruct (Float.of_string v); reflexivity.
Qed.

Lemma found_get (text : string) (kp : string * list string) (k : string) :
  short (snd kp) -> k <> fst kp ->
  Dict.get k (found text (fst kp, of_labels (snd kp))) = None.
Proof.
  intros Hs Hk. rewrite (found_labels text kp Hs).
  destruct (extracted text (snd kp)); [| reflexivity].
  simpl. destruct (String.eqb_spec k (fst kp)); [contradiction | reflexivity].
Qed.

(** The loop over the patterns appends, in the order of the patterns, the
    entry of each, when no key comes twice. *)
Lemma fold_store_found (text : string) (ps : list (string * list string))
  (elements : dict) :
  Forall (fun kp => short (snd kp)) ps ->
  NoDup (List.map fst ps) ->
  (forall k, In k (List.map fst ps) -> Dict.get k elements = None) ->
  List.fold_left (store text) ps elements =
  (elements ++
   List.flat_map (found text)
     (List.map (fun kp => (fst kp, of_labels (snd kp))) ps))%list.
Proof.
  intros Hs. revert elements.
  induction Hs as [| kp rest Hkp _ IH]; intros elements Hnd Hfresh;
    cbn [List.fold_left List.map List.flat_map].
  - rewrite app_nil_r. reflexivity.
  - cbn [List.map] in Hnd. inversion Hnd as [| k ks Hk Hrest]; subst.
    assert (Hstore : store text elements kp =
                     (elements ++ found text (fst kp, of_labels (snd kp)))%list).
    { rewrite (found_labels text kp Hkp). unfold store.
      destruct (extracted text (snd kp)).
      - apply set_fresh. apply Hfresh. left; reflexivity.
      - rewrite app_nil_r. reflexivity. }
    rewrite IH.
    + rewrite Hstore, <- app_assoc. reflexivity.
    + exact Hrest.
    + intros k Hin. rewrite Hstore, get_app.
      rewrite (Hfresh k) by (right; exact Hin).
      apply found_get; [exact Hkp |].
      intros ->. contradiction.
Qed.

Lemma fallback_found (text : string) :
  fallback text = Ok (List.flat_map (found text) patterns).
Proof.
  rewrite fallback_store, patterns_labels.
  rewrite (fold_store_found text label_patterns [] patterns_short
             patterns_nodup); [reflexivity |].
  reflexivity.
Qed.

(** *** The matched text is made of the characters of the class *)

Lemma span_forallb (p : ascii -> bool) (s : string) :
  Str.forallb p (fst (Str.span p s)) = true.
Proof.
  induction s as [| c r IH]; simpl; [reflexivity |].
  destruct (p c) eqn:E; [| reflexivity].
  destruct (Str.span p r) as [a b]. simpl in *. rewrite E. exact IH.
Qed.

Lemma branch_valchars (lab s v : string) :
  Scan.branch lab s = Some v -> Str.forallb Re.valchar v = true.
Proof.
  unfold Scan.branch.
  destruct (Scan.literal lab s) as [r1 |]; [| discriminate].
  destruct (Str.lstrip_by Str.isspace r1) as [| c r2]; [discriminate |].
  destruct (Ascii.eqb_spec c "="%char) as [-> | Hc].
  - destruct (Str.truthy (fst (Str.span Re.valchar
                (Str.lstrip_by Str.isspace r2)))); [| discriminate].
    intros H; injection H as <-. apply span_forallb.
  - destruct c as [[] [] [] [] [] [] [] []]; try discriminate.
    contradiction Hc; reflexivity.
Qed.

Lemma alternation_valchars (pattern : list string) (s : string)
  (m : Re.matchobj) (v : string) :
  short pattern -> Scan.alternation pattern s = Some m ->
  matched_value m = Ok (Some v) -> Str.forallb Re.valchar v = true.
Proof.
  intros Hs H.
  destruct pattern as [| l1 [| l2 [| l3 rest]]];
    try (destruct Hs as [Hs | Hs]; discriminate Hs); simpl in H.
  - destruct (Scan.branch l1 s) as [v1 |] eqn:E1; [| discriminate].
    injection H as <-.
    pose proof (branch_truthy _ _ _ E1) as Hv.
    unfold matched_value; simpl; rewrite Hv. intros H; injection H as <-.
    exact (branch_valchars _ _ _ E1).
  - destruct (Scan.branch l1 s) as [v1 |] eqn:E1.
    + injection H as <-.
      pose proof (branch_truthy _ _ _ E1) as Hv.
      unfold matched_value; simpl; rewrite Hv. intros H; injection H as <-.
      exact (branch_valchars _ _ _ E1).
    + destruct (Scan.branch l2 s) as [v2 |] eqn:E2; [| discriminate].
      injection H as <-.
      unfold matched_value; simpl. intros H; injection H as <-.
      exact (branch_valchars _ _ _ E2).
Qed.

Lemma search_valchars (pattern : list string) (s : string)
  (m : Re.matchobj) (v : string) :
  short pattern -> Scan.search pattern s = Some m ->
  matched_value m = Ok (Some v) -> Str.forallb Re.valchar v = true.
Proof.
  intros Hs. induction s as [| c r IH]; simpl.
  - destruct (Scan.alternation pattern "") as [m' |] eqn:E; [| discriminate].
    intros H; injection H as <-. exact (alternation_valchars _ _ _ _ Hs E).
  - destruct (Scan.alternation pattern (String c r)) as [m' |] eqn:E.
    + intros H; injection H as <-. exact (alternation_valchars _ _ _ _ Hs E).
    + exact IH.
Qed.

(** *** No text of the class reads as a NaN *)

Lemma strip_underscores_forallb (p : ascii -> bool) (s t : string)
  (prev : ascii) :
  Float.strip_underscores prev s = Some t ->
  Str.forallb p s = true -> Str.forallb p t = true.
Proof.
  revert prev t. induction s as [| c r IH]; intros prev t; simpl.
  - destruct (Ascii.eqb prev "_"); [discriminate |].
    intros H; injection H as <-; reflexivity.
  - intros H Hp. apply andb_prop in Hp. destruct Hp as [Hc Hr].
    destruct (Ascii.eqb c "_").
    + destruct (Str.isdecimal prev); [| discriminate].
      exact (IH _ _ H Hr).
    + destruct (Ascii.eqb prev "_" && negb (Str.isdecimal c));
        [discriminate |].
      destruct (Float.strip_underscores c r) as [t' |] eqn:E;
        [| discriminate].
      injection H as <-. simpl. rewrite Hc. exact (IH _ _ E Hr).
Qed.

Lemma lstrip_forallb (p q : ascii -> bool) (s : string) :
  Str.forallb p s = true -> Str.forallb p (Str.lstrip_by q s) = true.
Proof.
  induction s as [| c r IH]; simpl; [reflexivity |].
  intros H. destruct (q c); [| exact H].
  apply andb_prop in H. exact (IH (proj2 H)).
Qed.

Lemma rstrip_forallb (p q : ascii -> bool) (s : string) :
  Str.forallb p s = true -> Str.forallb p (Str.rstrip_by q s) = true.
Proof.
  induction s as [| c r IH]; simpl; [reflexivity |].
  intros H. apply andb_prop in H. destruct H as [Hc Hr].
  specialize (IH Hr).
  destruct (Str.rstrip_by q r) as [| a t].
  - destruct (q c); [reflexivity | simpl; rewrite Hc; reflexivity].
  - cbn [Str.forallb] in *. rewrite Hc. exact IH.
Qed.

Lemma sign_forallb (p : ascii -> bool) (s : string) :
  Str.forallb p s = true -> Str.forallb p (snd (Float.sign s)) = true.
Proof.
  unfold Float.sign. destruct s as [| c r]; [reflexivity |].
  intros H. pose proof H as H'. simpl in H'. apply andb_prop in H'.
  destruct c as [[] [] [] [] [] [] [] []]; try exact H; exact (proj2 H').
Qed.

Lemma valchar_not_n (c : ascii) :
  Re.valchar c = true -> Ascii.eqb (Str.lower c) "n" = false.
Proof.
  destruct c as [[] [] [] [] [] [] [] []]; vm_compute; congruence.
Qed.

Lemma valchars_not_nan (u : string) :
  Str.forallb Re.valchar u = true ->
  String.eqb (Str.map Str.lower u) "nan" = false.
Proof.
  destruct u as [| c r]; [reflexivity |].
  simpl. intros H. apply andb_prop in H.
  rewrite (valchar_not_n c (proj1 H)). reflexivity.
Qed.

Lemma binary_round_aux_not_nan (s : bool) (m e : Z) (l : location) :
  0 <= m -> not_nan (binary_round_aux Float.prec Float.emax s m e l) = true.
Proof.
  intros Hm. unfold binary_round_aux.
  destruct (shr_fexp_m m e l Hm) as [Hm' _].
  destruct (shr_fexp Float.prec Float.emax m e l) as [mrs' e'].
  cbn [fst snd] in Hm'.
  assert (H0 : 0 <= shr_m mrs').
  { rewrite Hm'. apply Z.div_pos; [exact Hm |].
    apply Z.pow_pos_nonneg; lia. }
  pose proof (round_nearest_even_cases (shr_m mrs') (loc_of_shr_record mrs'))
    as Hr.
  set (m1 := round_nearest_even (shr_m mrs') (loc_of_shr_record mrs')) in *.
  assert (Hm1 : 0 <= m1) by lia.
  destruct (shr_fexp_m m1 e' loc_Exact Hm1) as [Hm'' _].
  destruct (shr_fexp Float.prec Float.emax m1 e' loc_Exact) as [mrs'' e''].
  cbn [fst snd] in Hm''.
  assert (H2 : 0 <= shr_m mrs'').
  { rewrite Hm''. apply Z.div_pos; [exact Hm1 |].
    apply Z.pow_pos_nonneg; lia. }
  destruct (shr_m mrs'') as [| p | p]; [reflexivity | | lia].
  destruct (e'' <=? Float.emax - Float.prec); reflexivity.
Qed.

Lemma of_ratio_not_nan (neg : bool) (n d : positive) :
  not_nan (Float.of_ratio neg n d) = true.
Proof.
  unfold Float.of_ratio, SFdiv.
  pose proof (div_core_roundable n d) as H.
  destruct (SFdiv_core_binary Float.prec Float.emax (Zpos n) 0 (Zpos d) 0)
    as [[q e] l].
  apply binary_round_aux_not_nan. exact (proj1 H).
Qed.

Lemma of_decimal_not_nan (neg : bool) (m e10 : Z) :
  not_nan (Float.of_decimal neg m e10) = true.
Proof.
  unfold Float.of_decimal. destruct m; try reflexivity.
  destruct (0 <=? e10); apply of_ratio_not_nan.
Qed.

(** [float] gives no NaN on a text made of digits, points and signs. *)
Lemma of_string_not_nan (v : string) (f : Float.float) :
  Str.forallb Re.valchar v = true -> Float.of_string v = Ok f ->
  not_nan f = true.
Proof.
  intros Hv. unfold Float.of_string.
  destruct (Float.strip_underscores "000" v) as [t |] eqn:Et; [| discriminate].
  pose proof (strip_underscores_forallb _ _ _ _ Et Hv) as Ht.
  assert (Hu : Str.forallb Re.valchar
                 (snd (Float.sign (Str.strip_by Float.isspace t))) = true).
  { apply sign_forallb. unfold Str.strip_by.
    apply rstrip_forallb, lstrip_forallb. exact Ht. }
  destruct (Float.sign (Str.strip_by Float.isspace t)) as [neg u].
  cbn [snd] in Hu.
  destruct (String.eqb (Str.map Str.lower u) "inf"
            || String.eqb (Str.map Str.lower u) "infinity").
  - intros H; injection H as <-; reflexivity.
  - rewrite (valchars_not_nan u Hu).
    destruct (Float.number u) as [[m e10] |]; [| discriminate].
    intros H; injection H as <-. apply of_decimal_not_nan.
Qed.

Lemma found_entries (text : string) (kp : string * list string) :
  short (snd kp) -> In (fst kp) (List.map fst patterns) ->
  Forall fallback_entry (found text (fst kp, of_labels (snd kp))).
Proof.
  intros Hs Hin. unfold found. cbn [fst snd].
  rewrite (search_of_labels _ text Hs).
  destruct (Scan.search (snd kp) text) as [m |] eqn:Em; [| constructor].
  destruct (matched_value m) as [[v |] | e] eqn:Ev; try constructor.
  destruct (Float.of_string v) as [f | e] eqn:Ef; constructor;
    [| constructor].
  split; [exact Hin |]. exists f. split; [reflexivity |].
  split; [exact (of_string_valid _ _ Ef) |].
  exact (of_string_not_nan v f (search_valchars _ _ _ _ Hs Em Ev) Ef).
Qed.

Lemma found_entries_all (text : string) :
  Forall fallback_entry (List.flat_map (found text) patterns).
Proof.
  rewrite patterns_labels at 1.
  assert (H : Forall (fun kp : string * list string =>
                        short (snd kp) /\ In (fst kp) (List.map fst patterns))
                label_patterns).
  { pose proof patterns_short as Hs. rewrite Forall_forall in *.
    intros kp Hin. split; [exact (Hs kp Hin) |].
    rewrite patterns_labels, map_map. cbn [fst].
    apply (in_map fst) in Hin. exact Hin. }
  induction H as [| kp rest [Hs Hin] _ IH]; cbn [List.map List.flat_map].
  - constructor.
  - apply Forall_app. split; [exact (found_entries text kp Hs Hin) | exact IH].
Qed.

(** X8. The fallback strategy never raises, and its dictionary is made
    of the entries of the patterns, in the order of the patterns: for
    each pattern that matches and whose matched text is a number, its key
    with that number. Every entry has one of the eight keys of the
    patterns (never the orbital period) and a binary64 float that is not
    a NaN. *)
Theorem fallback_entries (text : string) :
  fallback text = Ok (List.flat_map (found text) patterns) /\
  Forall fallback_entry (List.flat_map (found text) patterns).
Proof.
  split; [apply fallback_found | apply found_entries_all].
Qed.

(** ** Labels inside words *)

Lemma literal_app (pre lab s : string) :
  Scan.literal (pre ++ lab) s =
  match Scan.literal pre s with
  | Some t => Scan.literal lab t
  | None => None
  end.
Proof.
  revert s. induction pre as [| a pre IH]; intros s; simpl; [reflexivity |].
  destruct s as [| b r]; [reflexivity |].
  destruct (Ascii.eqb (Str.lower b) (Str.lower a)); [apply IH | reflexivity].
Qed.

Lemma literal_drop (pre s t : string) :
  Scan.literal pre s = Some t -> t = Str.drop (String.length pre) s.
Proof.
  revert s. induction pre as [| a pre IH]; intros s; simpl.
  - intros H; injection H as <-; reflexivity.
  - destruct s as [| b r]; [discriminate |].
    destruct (Ascii.eqb (Str.lower b) (Str.lower a)); [apply IH | discriminate].
Qed.

(** A branch whose label ends with the label of another: where the first
    matches, the second matches after the characters that come before it
    in the label, with the same group. *)
Lemma branch_suffix (pre lab s v : string) :
  Scan.branch (pre ++ lab) s = Some v ->
  Scan.branch lab (Str.drop (String.length pre) s) = Some v.
Proof.
  unfold Scan.branch. rewrite literal_app.
  destruct (Scan.literal pre s) as [t |] eqn:E; [| discriminate].
  rewrite (literal_drop _ _ _ E). intros H; exact H.
Qed.

Lemma search_at (labs : list string) (n : nat) (s : string) (m : Re.matchobj) :
  Scan.alternation labs (Str.drop n s) = Some m ->
  Scan.search labs s <> None.
Proof.
  revert s. induction n as [| n IH]; intros s H.
  - destruct s; simpl in *; rewrite H; discriminate.
  - destruct s as [| c r].
    + simpl in *. rewrite H; discriminate.
    + cbn [Str.drop] in H. cbn [Scan.search].
      destruct (Scan.alternation labs (String c r)); [discriminate |].
      exact (IH r H).
Qed.

Lemma search_position (labs : list string) (s : string) (m : Re.matchobj) :
  Scan.search labs s = Some m ->
  exists n, Scan.alternation labs (Str.drop n s) = Some m.
Proof.
  induction s as [| c r IH]; simpl.
  - destruct (Scan.alternation labs "") as [m' |] eqn:E; [| discriminate].
    intros H; injection H as <-. exists 0%nat. exact E.
  - destruct (Scan.alternation labs (String c r)) as [m' |] eqn:E.
    + intros H; injection H as <-. exists 0%nat. exact E.
    + intros H. destruct (IH H) as [n Hn]. exists (S n). exact Hn.
Qed.

Lemma short_one (l : string) : short [l].
Proof. left; reflexivity. Qed.

Lemma short_two (l1 l2 : string) : short [l1; l2].
Proof. right; reflexivity. Qed.

Lemma match_one (l s : string) :
  Re.match_ (Re.key_value 1 l) s =
  option_map (fun v => [Some v]) (Scan.branch l s).
Proof.
  change (Re.key_value 1 l) with (of_labels [l]).
  rewrite (match_of_labels [l] s (short_one l)). simpl.
  destruct (Scan.branch l s); reflexivity.
Qed.

Lemma match_two (l1 l2 s : string) :
  Re.match_ (Re.Or (Re.key_value 1 l1) (Re.key_value 2 l2)) s =
  match Scan.branch l1 s with
  | Some v => Some [Some v; None]
  | None => option_map (fun v => [None; Some v]) (Scan.branch l2 s)
  end.
Proof.
  change (Re.Or (Re.key_value 1 l1) (Re.key_value 2 l2))
    with (of_labels [l1; l2]).
  rewrite (match_of_labels [l1; l2] s (short_two l1 l2)). simpl.
  destruct (Scan.branch l1 s); [reflexivity |].
  destruct (Scan.branch l2 s); reflexivity.
Qed.

(** Where the first branch of a pattern matches, so does a pattern whose
    label ends the label of that branch, further on and with the same
    group; and likewise for the second branch. *)
Lemma first_branch_inside (pre lab l2 s v : string) :
  Re.match_ (Re.Or (Re.key_value 1 (pre ++ lab)) (Re.key_value 2 l2)) s =
    Some [Some v; None] ->
  Re.match_ (Re.key_value 1 lab) (Str.drop (String.length pre) s) =
    Some [Some v].
Proof.
  rewrite match_two, match_one.
  destruct (Scan.branch (pre ++ lab) s) as [v1 |] eqn:E.
  - intros H; injection H as <-. rewrite (branch_suffix _ _ _ _ E).
    reflexivity.
  - destruct (Scan.branch l2 s); discriminate.
Qed.

Lemma second_branch_inside (l1 pre lab s v : string) :
  Re.match_ (Re.Or (Re.key_value 1 l1) (Re.key_value 2 (pre ++ lab))) s =
    Some [None; Some v] ->
  Re.match_ (Re.key_value 1 lab) (Str.drop (String.length pre) s) =
    Some [Some v].
Proof.
  rewrite match_two, match_one.
  destruct (Scan.branch l1 s) as [v1 |]; [discriminate |].
  destruct (Scan.branch (pre ++ lab) s) as [v2 |] eqn:E; [| discriminate].
  intros H; injection H as <-. rewrite (branch_suffix _ _ _ _ E).
  reflexivity.
Qed.

Lemma search_inside (l1 l2 pre1 lab1 pre2 lab2 text : string) :
  l1 = pre1 ++ lab1 -> l2 = pre2 ++ lab2 ->
  Re.search (Re.Or (Re.key_value 1 l1) (Re.key_value 2 l2)) text <> None ->
  Re.search (Re.key_value 1 lab1) text <> None \/
  Re.search (Re.key_value 1 lab2) text <> None.
Proof.
  intros -> ->.
  change (Re.Or (Re.key_value 1 (pre1 ++ lab1)) (Re.key_value 2 (pre2 ++ lab2)))
    with (of_labels [pre1 ++ lab1; pre2 ++ lab2]).
  change (Re.key_value 1 lab1) with (of_labels [lab1]).
  change (Re.key_value 1 lab2) with (of_labels [lab2]).
  rewrite (search_of_labels [pre1 ++ lab1; pre2 ++ lab2] text (short_two _ _)).
  rewrite (search_of_labels [lab1] text (short_one _)).
  rewrite (search_of_labels [lab2] text (short_one _)).
  destruct (Scan.search [pre1 ++ lab1; pre2 ++ lab2] text) as [m |] eqn:E;
    [| intros H; contradiction H; reflexivity].
  intros _. destruct (search_position _ _ _ E) as [n Hn].
  cbn [Scan.alternation] in Hn.
  destruct (Scan.branch (pre1 ++ lab1) (Str.drop n text)) as [v |] eqn:E1.
  - left. apply branch_suffix in E1.
    assert (Hd : forall k s, Str.drop k (Str.drop n s) = Str.drop (n + k) s).
    { clear. induction n as [| n IH]; intros k s; [reflexivity |].
      destruct s as [| c r]; [destruct k; reflexivity | apply IH]. }
    rewrite Hd in E1.
    apply (search_at [lab1] (n + String.length pre1) text [Some v]).
    simpl. rewrite E1. reflexivity.
  - destruct (Scan.branch (pre2 ++ lab2) (Str.drop n text)) as [v |] eqn:E2;
      [| discriminate Hn].
    right. apply branch_suffix in E2.
    assert (Hd : forall k s, Str.drop k (Str.drop n s) = Str.drop (n + k) s).
    { clear. induction n as [| n IH]; intros k s; [reflexivity |].
      destruct s as [| c r]; [destruct k; reflexivity | apply IH]. }
    rewrite Hd in E2.
    apply (search_at [lab2] (n + String.length pre2) text [Some v]).
    simpl. rewrite E2. reflexivity.
Qed.

(** X9. The labels of the patterns are not anchored at the start of a
    word. Where the pattern of the longitude of the ascending node
    matches by its branch [node], the pattern of the eccentricity matches
    three characters further on, at the [e] of [node], with the same
    group; where it matches by its branch [Omega], the pattern of the
    semi-major axis matches at the final [a], with the same group; where
    the pattern of the argument of perihelion matches by its branch
    [peri], the pattern of the inclination matches at the final [i].
    Hence a text that the pattern of the node matches is matched by the
    pattern of the eccentricity or by that of the semi-major axis. *)
Theorem labels_inside_words :
  (forall s v,
     Re.match_ (Re.Or (Re.key_value 1 "node") (Re.key_value 2 "Omega")) s =
       Some [Some v; None] ->
     Re.match_ (Re.key_value 1 "e") (Str.drop 3 s) = Some [Some v]) /\
  (forall s v,
     Re.match_ (Re.Or (Re.key_value 1 "node") (Re.key_value 2 "Omega")) s =
       Some [None; Some v] ->
     Re.match_ (Re.key_value 1 "a") (Str.drop 4 s) = Some [Some v]) /\
  (forall s v,
     Re.match_ (Re.Or (Re.key_value 1 "peri") (Re.key_value 2 "w")) s =
       Some [Some v; None] ->
     Re.match_ (Re.key_value 1 "i") (Str.drop 3 s) = Some [Some v]) /\
  (forall text,
     Re.search (Re.Or (Re.key_value 1 "node") (Re.key_value 2 "Omega")) text
       <> None ->
     Re.search (Re.key_value 1 "e") text <> None \/
     Re.search (Re.key_value 1 "a") text <> None).
Proof.
  split; [| split; [| split]].
  - intros s v. exact (first_branch_inside "nod" "e" "Omega" s v).
  - intros s v. exact (second_branch_inside "node" "Omeg" "a" s v).
  - intros s v. exact (first_branch_inside "per" "i" "w" s v).
  - intros text.
    exact (search_inside "node" "Omega" "nod" "e" "Omeg" "a" text
             eq_refl eq_refl).
Qed.

(** The three labels, each followed by a value. *)
Lemma labels_inside_words_witness :
  Re.match_ (Re.key_value 1 "e") (Str.drop 3 "node = 101.5") =
    Some [Some "101.5"] /\
  Re.match_ (Re.key_value 1 "a") (Str.drop 4 "Omega=7") = Some [Some "7"] /\
  Re.match_ (Re.key_value 1 "i") (Str.drop 3 "peri = 311.2") =
    Some [Some "311.2"] /\
  (Re.search (Re.key_value 1 "e") "Omega = 7 deg" <> None \/
   Re.search (Re.key_value 1 "a") "Omega = 7 deg" <> None).
Proof.
  destruct labels_inside_words as (H1 & H2 & H3 & H4).
  split; [| split; [| split]].
  - apply H1. vm_compute. reflexivity.
  - apply H2. vm_compute. reflexivity.
  - apply H3. vm_compute. reflexivity.
  - apply H4. vm_compute. discriminate.
Defined.

(** ** Where the value of a pattern ends *)

Lemma literal_self (lab r : string) : Scan.literal lab (lab ++ r) = Some r.
Proof.
  induction lab as [| a lab IH]; simpl; [reflexivity |].
  rewrite Ascii.eqb_refl. exact IH.
Qed.

Lemma valchar_not_isspace (c : ascii) :
  Re.valchar c = true -> Str.isspace c = false.
Proof.
  intros H. destruct (Str.isspace c) eqn:E; [| reflexivity].
  rewrite (isspace_not_valchar c E) in H. discriminate H.
Qed.

Lemma span_class (p : ascii -> bool) (v rest : string) (c : ascii) :
  Str.forallb p v = true -> p c = false ->
  Str.span p (v ++ String c rest) = (v, String c rest).
Proof.
  intros Hv Hc. induction v as [| x v IH]; simpl.
  - rewrite Hc. reflexivity.
  - simpl in Hv. apply andb_prop in Hv. destruct Hv as [Hx Hv].
    rewrite Hx, (IH Hv). reflexivity.
Qed.

Lemma span_class_end (p : ascii -> bool) (v : string) :
  Str.forallb p v = true -> Str.span p v = (v, "").
Proof.
  intros Hv. induction v as [| x v IH]; simpl; [reflexivity |].
  simpl in Hv. apply andb_prop in Hv. destruct Hv as [Hx Hv].
  rewrite Hx, (IH Hv). reflexivity.
Qed.

Lemma lstrip_spaces (sp : string) (x : ascii) (r : string) :
  Str.forallb Str.isspace sp = true -> Str.isspace x = false ->
  Str.lstrip_by Str.isspace (sp ++ String x r) = String x r.
Proof.
  intros Hsp Hx. induction sp as [| y sp IH]; simpl.
  - rewrite Hx. reflexivity.
  - simpl in Hsp. apply andb_prop in Hsp. destruct Hsp as [Hy Hsp].
    rewrite Hy. exact (IH Hsp).
Qed.

Lemma branch_value (lab sp1 sp2 v rest : string) (c : ascii) :
  Str.forallb Str.isspace sp1 = true -> Str.forallb Str.isspace sp2 = true ->
  Str.forallb Re.valchar v = true -> Str.truthy v = true ->
  Re.valchar c = false ->
  Scan.branch lab (lab ++ sp1 ++ "=" ++ sp2 ++ v ++ String c rest) = Some v.
Proof.
  intros H1 H2 Hv Hne Hc. unfold Scan.branch. rewrite literal_self.
  change ("=" ++ sp2 ++ v ++ String c rest)
    with (String "=" (sp2 ++ v ++ String c rest)).
  rewrite (lstrip_spaces sp1 "=" _ H1 eq_refl).
  destruct v as [| x v]; [discriminate Hne |].
  pose proof Hv as Hv'. simpl in Hv'. apply andb_prop in Hv'.
  change (String x v ++ String c rest) with (String x (v ++ String c rest)).
  rewrite (lstrip_spaces sp2 x _ H2 (valchar_not_isspace x (proj1 Hv'))).
  change (String x (v ++ String c rest)) with (String x v ++ String c rest).
  rewrite (span_class _ _ _ _ Hv Hc). reflexivity.
Qed.

Lemma search_value_text (lab sp1 sp2 v rest : string) (c : ascii) :
  Str.forallb Str.isspace sp1 = true -> Str.forallb Str.isspace sp2 = true ->
  Str.forallb Re.valchar v = true -> Str.truthy v = true ->
  Re.valchar c = false ->
  Re.search (Re.key_value 1 lab)
    (lab ++ sp1 ++ "=" ++ sp2 ++ v ++ String c rest) = Some [Some v].
Proof.
  intros H1 H2 Hv Hne Hc.
  change (Re.key_value 1 lab) with (of_labels [lab]).
  rewrite (search_of_labels [lab] _ (short_one lab)).
  pose proof (branch_value lab sp1 sp2 v rest c H1 H2 Hv Hne Hc) as H.
  destruct (lab ++ sp1 ++ "=" ++ sp2 ++ v ++ String c rest) as [| x s];
    cbn [Scan.search Scan.alternation]; rewrite H; reflexivity.
Qed.

(** X10. The value of a pattern ends at the first character that is not
    a digit, a point or a sign. For a text made of a label, white space,
    [=], white space, a run [v] of such characters and then another
    character, the pattern of the label matches with the group [v], and
    the step of the loop stores the float of [v] alone, or nothing when
    [v] is not a number: a decimal exponent such as [E+02] is not
    read. *)
Theorem value_ends_at_class (key lab sp1 sp2 v rest : string) (c : ascii) :
  Str.forallb Str.isspace sp1 = true -> Str.forallb Str.isspace sp2 = true ->
  Str.forallb Re.valchar v = true -> Str.truthy v = true ->
  Re.valchar c = false ->
  let text := lab ++ sp1 ++ "=" ++ sp2 ++ v ++ String c rest in
  Re.search (Re.key_value 1 lab) text = Some [Some v] /\
  fallback_step text [] (key, Re.key_value 1 lab) =
  Ok match Float.of_string v with
     | Ok f => [(key, VFloat f)]
     | Raise _ => []
     end.
Proof.
  intros H1 H2 Hv Hne Hc text.
  pose proof (search_value_text lab sp1 sp2 v rest c H1 H2 Hv Hne Hc) as Hs.
  fold text in Hs. split; [exact Hs |].
  unfold fallback_step. rewrite Hs.
  unfold matched_value. cbn [Re.group nth_error Nat.pred rbind truthy_group].
  rewrite Hne. cbn [rbind float_of_group].
  destruct (Float.of_string v) as [f | e] eqn:E; [reflexivity |].
  rewrite (of_string_raise _ _ E). reflexivity.
Qed.

(** A semi-major axis written [5.06E+02] is stored as 5.06. *)
Lemma value_ends_at_class_witness :
  Re.search (Re.key_value 1 "A") "A= 5.06E+02 " = Some [Some "5.06"] /\
  fallback_step "A= 5.06E+02 " [] ("semimajor_axis", Re.key_value 1 "A") =
  Ok [("semimajor_axis", VFloat (Float.of_ratio false 506 100))].
Proof.
  exact (value_ends_at_class "semimajor_axis" "A" "" " " "5.06" "+02 " "E"
           eq_refl eq_refl eq_refl eq_refl eq_refl).
Defined.

(** ** The shape of the elements *)

Lemma field_value_ok (parts : list string) (i : nat) (key : string)
  (v : pyval) :
  key <> "orbital_period" ->
  field parts i (VInt 0) = Ok v -> value_ok (key, v).
Proof.
  intros Hk H. apply field_ok in H.
  destruct H as [s [_ [[_ ->] | [f [Hf ->]]]]].
  - split; [reflexivity | exact Hk].
  - exact (of_string_valid _ _ Hf).
Qed.

Lemma row_schema (parts : list string) (d : dict) :
  row_elements parts = Ok d -> schema d.
Proof.
  intros H. apply row_elements_ok in H.
  destruct H as (ec & qr & inc & om & w & ma & a & ad & pr & -> & H).
  decompose [and] H. clear H. split; [| split].
  - cbn. repeat (constructor;
                 [simpl; intros Hin;
                  repeat (destruct Hin as [Hin | Hin]; [discriminate Hin |]);
                  exact Hin |]).
    constructor.
  - intros k Hk. exact Hk.
  - repeat (constructor;
            [first [ eapply field_value_ok; [discriminate | eassumption] ] |]).
    constructor; [| constructor].
    match goal with
    | Hp : field parts 11 VNone = Ok pr |- _ => apply field_ok in Hp;
        destruct Hp as [s [_ [[_ ->] | [f [Hf ->]]]]]
    end.
    + reflexivity.
    + exact (of_string_valid _ _ Hf).
Qed.

Lemma found_keys (text : string) (ps : list (string * Re.regex)) (k : string) :
  In k (Dict.keys (List.flat_map (found text) ps)) -> In k (List.map fst ps).
Proof.
  induction ps as [| kp rest IH]; cbn [List.flat_map List.map]; [auto |].
  unfold Dict.keys. rewrite map_app. intros H. apply in_app_or in H.
  destruct H as [H | H].
  - left. unfold found in H.
    destruct (Re.search (snd kp) text) as [m |]; [| destruct H].
    destruct (matched_value m) as [[v |] | e]; try destruct H.
    destruct (Float.of_string v); [| destruct H].
    destruct H as [H | []]. exact H.
  - right. exact (IH H).
Qed.

Lemma found_nodup (text : string) (ps : list (string * Re.regex)) :
  NoDup (List.map fst ps) ->
  NoDup (Dict.keys (List.flat_map (found text) ps)).
Proof.
  induction ps as [| kp rest IH]; cbn [List.flat_map List.map];
    [constructor |].
  intros Hnd. inversion Hnd as [| k ks Hk Hrest]; subst.
  unfold Dict.keys. rewrite map_app.
  assert (Hrest' := IH Hrest).
  unfold found at 1.
  destruct (Re.search (snd kp) text) as [m |]; [| exact Hrest'].
  destruct (matched_value m) as [[v |] | e]; try exact Hrest'.
  destruct (Float.of_string v); [| exact Hrest'].
  cbn [List.map List.app fst]. constructor; [| exact Hrest'].
  intros Hin. apply Hk. exact (found_keys text rest _ Hin).
Qed.

Lemma patterns_keys_nodup : NoDup (List.map fst patterns).
Proof.
  rewrite patterns_labels, map_map. exact patterns_nodup.
Qed.

Lemma fallback_schema (text : string) :
  schema (List.flat_map (found text) patterns).
Proof.
  split; [exact (found_nodup text patterns patterns_keys_nodup) | split].
  - intros k Hk. apply found_keys in Hk.
    simpl in Hk. unfold element_keys, positions. simpl.
    repeat (destruct Hk as [<- | Hk]; [tauto |]). destruct Hk.
  - pose proof (found_entries_all text) as H.
    eapply Forall_impl; [| exact H].
    intros [k v] [_ [f [Hv [Hf _]]]]. simpl in Hv. subst v. exact Hf.
Qed.

Lemma schema_nil : schema [].
Proof.
  split; [constructor | split; [intros k [] | constructor]].
Qed.

Lemma scan_lines_schema (lines : list string) (elements d : dict) :
  schema elements -> scan_lines elements lines = Ok d -> schema d.
Proof.
  revert elements. induction lines as [| line rest IH]; intros elements Hs;
    cbn [scan_lines].
  - intros H; injection H as <-. exact Hs.
  - destruct (scan_line_cases elements line) as [[d' [Hrow ->]] | ->];
      cbn [rbind].
    + apply IH. exact (row_schema _ _ Hrow).
    + apply IH. exact Hs.
Qed.

Lemma tabular_schema (text : string) (d : dict) :
  tabular text = Ok d -> schema d.
Proof.
  unfold tabular.
  destruct (Str.contains "$$SOE" text && Str.contains "$$EOE" text).
  - apply scan_lines_schema. exact schema_nil.
  - intros H; injection H as <-. exact schema_nil.
Qed.

Lemma fold_store_found_all (text : string) :
  List.fold_left (store text) label_patterns [] =
  List.flat_map (found text) patterns.
Proof.
  pose proof (fallback_store text) as H1.
  rewrite fallback_found in H1. injection H1 as H1. symmetry. exact H1.
Qed.

(** X11. The extractor never raises, and a dictionary it returns has
    keys among the nine of the display, none twice; the values are
    binary64 floats, but for the integer zero of an empty field under a
    key other than the orbital period and [None] under the orbital
    period. *)
Theorem extractor_schema (text object_id : string) :
  match parse_horizons_output text object_id with
  | Ok (Some d) => schema d
  | Ok None => True
  | Raise _ => False
  end.
Proof.
  destruct (parse_cases text object_id) as [t [Ht ->]].
  destruct (not_found text); [exact I |].
  destruct (Dict.truthy t).
  - exact (tabular_schema _ _ Ht).
  - cbv zeta. rewrite fold_store_found_all.
    destruct (Dict.truthy (List.flat_map (found text) patterns));
      [apply fallback_schema | exact I].
Qed.

(** ** The run of [main] *)

Lemma picked_app {A B : Type} (R : A -> B -> Prop) (l1 l2 : list A)
  (d1 d2 : list B) :
  picked R l1 d1 -> picked R l2 d2 -> picked R (l1 ++ l2) (d1 ++ d2).
Proof.
  intros H1 H2. induction H1; simpl.
  - exact H2.
  - apply picked_skip; assumption.
  - apply picked_keep; assumption.
Qed.

Lemma picked_length {A B : Type} (R : A -> B -> Prop) (l : list A)
  (d : list B) :
  picked R l d -> (List.length d <= List.length l)%nat.
Proof. induction 1; simpl; lia. Qed.

(** The lines of the table are picked among the entries the records were
    picked from. *)
Lemma picked_lines {A : Type} (R : A -> dict -> Prop)
  (T : A -> cluster_line -> Prop) (l : list A) (d : list dict) :
  (forall a r x, R a r -> is_extreme r = true -> line_of r x -> T a x) ->
  picked R l d ->
  forall ls, Forall2 line_of (List.filter is_extreme d) ls -> picked T l ls.
Proof.
  intros HT. induction 1 as [| a l d _ IH | a l r d Hr _ IH]; intros ls Hls.
  - simpl in Hls. inversion Hls. constructor.
  - apply picked_skip. exact (IH ls Hls).
  - cbn [List.filter] in Hls. destruct (is_extreme r) eqn:Ex.
    + inversion Hls as [| r' x rest ls' Hx Hrest]; subst.
      apply picked_keep; [exact (HT a r x Hr Ex Hx) | exact (IH _ Hrest)].
    + apply picked_skip. exact (IH ls Hls).
Qed.

Lemma picked_forall {A B : Type} (R : A -> B -> Prop) (P : B -> Prop)
  (l : list A) (d : list B) :
  (forall a r, R a r -> P r) -> picked R l d -> Forall P d.
Proof.
  intros HP. induction 1 as [| a l d _ IH | a l r d Hr _ IH].
  - constructor.
  - exact IH.
  - constructor; [exact (HP a r Hr) | exact IH].
Qed.

Section RunFacts.

Variable horizons : list request -> request -> option string.

(** A step of the loop over the planets makes one request and appends the
    record of the planet, or nothing. *)
Lemma planet_step_cases (ep : string) (planets : list dict)
  (log : list request) (info : planet_info) :
  exists new,
    planet_step horizons ep (planets, log) info =
      ((planets ++ new)%list, (log ++ [(planet_id info, ep)])%list) /\
    picked planet_entry [info] new.
Proof.
  unfold planet_step.
  pose proof (fetch_elements_log horizons (planet_id info) ep log) as Hlog.
  pose proof (fetch_elements_some horizons (planet_id info) ep log) as Hsome.
  destruct (fetch_elements horizons (planet_id info) ep log) as [[e |] log'];
    cbn [fst snd] in *; subst log'.
  - destruct (Hsome e eq_refl) as [Ht Hok]. rewrite Ht.
    exists [planet_record info e]. split; [reflexivity |].
    apply picked_keep; [| constructor].
    exists e. repeat split; assumption.
  - exists []. rewrite app_nil_r. split; [reflexivity |].
    apply picked_skip; constructor.
Qed.

Lemma planet_loop (ep : string) (infos : list planet_info)
  (planets : list dict) (log : list request) :
  exists new,
    List.fold_left (planet_step horizons ep) infos (planets, log) =
      ((planets ++ new)%list,
       (log ++ List.map (fun info => (planet_id info, ep)) infos)%list) /\
    picked planet_entry infos new.
Proof.
  revert planets log. induction infos as [| info rest IH]; intros planets log.
  - exists []. cbn [List.fold_left List.map]. rewrite !app_nil_r.
    split; [reflexivity | constructor].
  - cbn [List.fold_left List.map].
    destruct (planet_step_cases ep planets log info) as [n1 [-> H1]].
    destruct (IH (planets ++ n1)%list (log ++ [(planet_id info, ep)])%list)
      as [n2 [-> H2]].
    exists (n1 ++ n2)%list. rewrite <- !app_assoc. split; [reflexivity |].
    exact (picked_app _ [info] rest n1 n2 H1 H2).
Qed.

Lemma resolve_log (ep : string) (info : tno_info) (log : list request) :
  exists rs, snd (resolve horizons ep info log) = (log ++ rs)%list /\
    attempts ep info rs.
Proof.
  rewrite resolve_attempts.
  destruct (truthy_opt (fst (fetch_elements horizons (tno_id info) ep log))).
  - exists [(tno_id info, ep)]. split; [apply fetch_elements_log |].
    left; reflexivity.
  - exists [(tno_id info, ep); ("DES=" ++ tno_id info, ep)].
    split; [| right; reflexivity].
    rewrite !fetch_elements_log, <- app_assoc. reflexivity.
Qed.

(** A step of the loop over the TNOs never raises: it makes one request or
    two and appends the record of the TNO, or nothing. *)
Lemma tno_step_entry (ep : string) (info : tno_info) (tnos : list dict)
  (log : list request) :
  exists new rs,
    tno_step horizons ep tnos log info =
      (Ok (tnos ++ new)%list, (log ++ rs)%list) /\
    picked tno_entry [info] new /\ attempts ep info rs.
Proof.
  destruct (resolve_log ep info log) as [rs [Hrs Hat]].
  pose proof (resolve_some horizons ep info log) as Hsome.
  unfold tno_step.
  destruct (resolve horizons ep info log) as [[e |] l]; cbn [fst snd] in *;
    subst l.
  - destruct (Hsome e eq_refl) as [Ht Hok]. rewrite Ht.
    destruct (tno_type_total e Hok) as [b Hb].
    assert (Hr : exists r, tno_record info e = Ok r).
    { unfold tno_record. rewrite Hb. cbn [rbind]. eexists; reflexivity. }
    destruct Hr as [r Hr]. rewrite Hr. cbn [rbind].
    exists [r], rs. split; [reflexivity |]. split; [| exact Hat].
    apply picked_keep; [| constructor].
    exists e. repeat split; assumption.
  - exists [], rs. rewrite app_nil_r. split; [reflexivity |].
    split; [| exact Hat]. apply picked_skip; constructor.
Qed.

Lemma tno_loop_entries (ep : string) (infos : list tno_info)
  (tnos : list dict) (log : list request) :
  exists new groups,
    tno_loop horizons ep tnos log infos =
      (Ok (tnos ++ new)%list, (log ++ List.concat groups)%list) /\
    picked tno_entry infos new /\ Forall2 (attempts ep) infos groups.
Proof.
  revert tnos log. induction infos as [| info rest IH]; intros tnos log.
  - exists [], []. cbn [tno_loop List.concat]. rewrite !app_nil_r.
    split; [reflexivity |]. split; constructor.
  - cbn [tno_loop].
    destruct (tno_step_entry ep info tnos log) as (n1 & rs & -> & H1 & Hat).
    destruct (IH (tnos ++ n1)%list (log ++ rs)%list)
      as (n2 & groups & -> & H2 & Hg).
    exists (n1 ++ n2)%list, (rs :: groups). cbn [List.concat].
    rewrite <- !app_assoc. split; [reflexivity |].
    split; [exact (picked_app _ [info] rest n1 n2 H1 H2) |].
    constructor; assumption.
Qed.

(** What [main] leaves, whatever the service answers. *)
Lemma main_run :
  exists planets tnos groups,
    picked planet_entry get_planet_data planets /\
    picked tno_entry get_tno_list tnos /\
    Forall2 (attempts epoch) get_tno_list groups /\
    main horizons =
    {| run_requests :=
         (List.map (fun info => (planet_id info, epoch)) get_planet_data
          ++ List.concat groups)%list;
       run_document := Some {| doc_planets := planets; doc_etnos := tnos |};
       run_summary := match tnos with
                      | [] => Ok []
                      | _ :: _ => clustering tnos
                      end |}.
Proof.
  unfold main.
  destruct (planet_loop epoch get_planet_data [] []) as [planets [E Hp]].
  cbn [List.app] in E. rewrite E.
  destruct (tno_loop_entries epoch get_tno_list []
              (List.map (fun info => (planet_id info, epoch)) get_planet_data))
    as (tnos & groups & Et & Ht & Hg).
  cbn [List.app] in Et. rewrite Et.
  exists planets, tnos, groups.
  repeat split; assumption.
Qed.

End RunFacts.

Lemma attempts_length (ep : string) (infos : list tno_info)
  (groups : list (list request)) :
  Forall2 (attempts ep) infos groups ->
  (List.length infos <= List.length (List.concat groups)
   <= 2 * List.length infos)%nat.
Proof.
  induction 1 as [| info rs infos groups Hat _ IH]; cbn [List.concat].
  - simpl. lia.
  - rewrite length_app. cbn [List.length].
    destruct Hat as [-> | ->]; simpl; lia.
Qed.

Lemma attempts_epoch (ep : string) (infos : list tno_info)
  (groups : list (list request)) :
  Forall2 (attempts ep) infos groups ->
  Forall (fun r => snd r = ep) (List.concat groups).
Proof.
  induction 1 as [| info rs infos groups Hat _ IH]; cbn [List.concat].
  - constructor.
  - apply Forall_app. split; [| exact IH].
    destruct Hat as [-> | ->]; repeat constructor.
Qed.

(** X12. Whatever the service answers, [main] requests the four planets
    first, each once, in the order of the catalogue, and then the TNOs in
    the order of the catalogue, each by its identifier and, or not, by the
    form prefixed with [DES=] after it: between 19 and 34 requests, all
    for the epoch 2023-09-13. *)
Theorem main_requests
  (horizons : list request -> request -> option string) :
  exists groups,
    Forall2 (attempts epoch) get_tno_list groups /\
    run_requests (main horizons) =
      (List.map (fun info => (planet_id info, epoch)) get_planet_data
       ++ List.concat groups)%list /\
    (19 <= List.length (run_requests (main horizons)) <= 34)%nat /\
    Forall (fun r => snd r = "2023-09-13") (run_requests (main horizons)).
Proof.
  destruct (main_run horizons) as (planets & tnos & groups & _ & _ & Hg & ->).
  exists groups. cbn [run_requests].
  split; [exact Hg |]. split; [reflexivity |].
  split.
  - rewrite length_app.
    pose proof (attempts_length _ _ _ Hg) as H.
    rewrite length_map.
    change (List.length get_tno_list) with 15%nat in H.
    change (List.length get_planet_data) with 4%nat.
    unfold request in *. lia.
  - apply Forall_app. split.
    + repeat constructor.
    + exact (attempts_epoch _ _ _ Hg).
Qed.

(** X13. Whatever the service answers, [main] writes its document; the
    planets of the document are records of catalogue entries, in the
    order of the catalogue and one at most for each, and so are the TNOs.
    Each record holds elements that are not empty and have the shape the
    extractor gives; there are at most 4 planets and 15 TNOs. *)
Theorem main_document
  (horizons : list request -> request -> option string) :
  exists doc,
    run_document (main horizons) = Some doc /\
    picked planet_entry get_planet_data (doc_planets doc) /\
    picked tno_entry get_tno_list (doc_etnos doc) /\
    (List.length (doc_planets doc) <= 4)%nat /\
    (List.length (doc_etnos doc) <= 15)%nat.
Proof.
  destruct (main_run horizons) as (planets & tnos & groups & Hp & Ht & _ & ->).
  exists {| doc_planets := planets; doc_etnos := tnos |}.
  cbn [run_document doc_planets doc_etnos].
  split; [reflexivity |]. split; [exact Hp |]. split; [exact Ht |].
  split.
  - exact (picked_length _ _ _ Hp).
  - exact (picked_length _ _ _ Ht).
Qed.

Lemma tno_entry_ok (info : tno_info) (r : dict) :
  tno_entry info r -> tno_ok r.
Proof.
  intros (e & Hr & _ & Hok). unfold tno_record in Hr.
  destruct (tno_type e) as [ty | x]; [| discriminate Hr].
  injection Hr as <-.
  exists (tno_name info), (tno_designation info), ty, e.
  split; [reflexivity | exact Hok].
Qed.

(** The line of a record tagged [extreme_tno]. *)
Lemma extreme_entry_line (info : tno_info) (r : dict) (l : cluster_line) :
  tno_entry info r -> is_extreme r = true -> line_of r l ->
  exceeds (line_q l) 30 /\ line_name l = VStr (tno_name info).
Proof.
  intros (e & Hr & _ & Hok) Hx (elem & He & Hn & _ & Hq).
  unfold tno_record, tno_type in Hr.
  assert (Hnum : number (Dict.get_default "perihelion" (VInt 0) e)).
  { apply elem_value_number, elements_ok_default; [exact Hok | discriminate]. }
  destruct (py_gt_thirty _ Hnum) as [b [Hb Hiff]].
  rewrite Hb in Hr. cbn [rbind] in Hr. injection Hr as <-.
  cbn in He, Hn. injection He as <-. injection Hn as <-.
  split; [| reflexivity].
  rewrite Hq. apply Hiff.
  destruct b; [reflexivity | discriminate Hx].
Qed.

(** X14. Whatever the service answers, the clustering table is printed
    without an exception; its lines are lines of TNOs of the catalogue, in
    the order of the catalogue and one at most for each, and the
    perihelion distance of every line is above 30: at most 15 lines. *)
Theorem clustering_table
  (horizons : list request -> request -> option string) :
  exists lines,
    run_summary (main horizons) = Ok lines /\
    picked table_line get_tno_list lines /\
    (List.length lines <= 15)%nat.
Proof.
  destruct (main_run horizons) as (planets & tnos & groups & _ & Ht & _ & ->).
  cbn [run_summary].
  assert (Hok : Forall tno_ok tnos)
    by exact (picked_forall _ _ _ _ tno_entry_ok Ht).
  assert (H : exists ls,
             match tnos with [] => Ok [] | _ :: _ => clustering tnos end
             = Ok ls /\
             Forall2 line_of (List.filter is_extreme tnos) ls).
  { destruct tnos as [| t rest].
    - exists []. split; [reflexivity | constructor].
    - exact (clustering_ok (t :: rest) Hok). }
  destruct H as [ls [-> Hls]]. exists ls. split; [reflexivity |].
  assert (Hp : picked table_line get_tno_list ls).
  { apply (picked_lines tno_entry table_line _ _) with (2 := Ht) (3 := Hls).
    intros info r x Hr Ex Hx.
    destruct (extreme_entry_line info r x Hr Ex Hx) as [Hq Hn].
    split; assumption. }
  split; [exact Hp |]. exact (picked_length _ _ _ Hp).
Qed.

(** ** A service that answers a request the same way whenever it is made *)

Section Independent.

Variable answer : request -> option string.

Lemma fetch_elements_of (object_id : string) (log : list request) :
  fetch_elements (fun _ => answer) object_id epoch log =
  (elements_of answer object_id, (log ++ [(object_id, epoch)])%list).
Proof.
  unfold fetch_elements, elements_of.
  destruct (answer (object_id, epoch)) as [data |]; [| reflexivity].
  destruct (parse_horizons_output data object_id); reflexivity.
Qed.

Lemma elements_of_truthy (object_id : string) (e : dict) :
  elements_of answer object_id = Some e -> Dict.truthy e = true.
Proof.
  intros H.
  apply (fetch_elements_some (fun _ => answer) object_id epoch [] e).
  rewrite fetch_elements_of. exact H.
Qed.

Lemma planet_step_of (planets : list dict) (log : list request)
  (info : planet_info) :
  planet_step (fun _ => answer) epoch (planets, log) info =
  ((planets ++ planet_of answer info)%list,
   (log ++ [(planet_id info, epoch)])%list).
Proof.
  unfold planet_step, planet_of. rewrite fetch_elements_of.
  destruct (elements_of answer (planet_id info)) as [e |] eqn:E.
  - rewrite (elements_of_truthy _ _ E). reflexivity.
  - rewrite app_nil_r. reflexivity.
Qed.

Lemma planet_loop_of (infos : list planet_info) (planets : list dict)
  (log : list request) :
  List.fold_left (planet_step (fun _ => answer) epoch) infos (planets, log) =
  ((planets ++ List.flat_map (planet_of answer) infos)%list,
   (log ++ List.map (fun info => (planet_id info, epoch)) infos)%list).
Proof.
  revert planets log. induction infos as [| info rest IH]; intros planets log;
    cbn [List.fold_left List.flat_map List.map].
  - rewrite !app_nil_r. reflexivity.
  - rewrite planet_step_of, IH, <- !app_assoc. reflexivity.
Qed.

Lemma resolve_of (info : tno_info) (log : list request) :
  resolve (fun _ => answer) epoch info log =
  (retained answer info, (log ++ requests_of answer info)%list).
Proof.
  rewrite resolve_attempts, !fetch_elements_of. cbn [fst snd].
  unfold retained, requests_of.
  destruct (elements_of answer (tno_id info)) as [e |] eqn:E.
  - cbn [truthy_opt]. rewrite (elements_of_truthy _ _ E). reflexivity.
  - cbn [truthy_opt]. rewrite <- app_assoc. reflexivity.
Qed.

Lemma tno_step_of (tnos : list dict) (log : list request) (info : tno_info) :
  tno_step (fun _ => answer) epoch tnos log info =
  (Ok (tnos ++ tno_of answer info)%list,
   (log ++ requests_of answer info)%list).
Proof.
  pose proof (resolve_some (fun _ => answer) epoch info log) as Hsome.
  unfold tno_step, tno_of. rewrite resolve_of in *. cbn [fst] in Hsome.
  destruct (retained answer info) as [e |] eqn:E.
  - destruct (Hsome e eq_refl) as [Ht Hok]. rewrite Ht.
    destruct (tno_type_total e Hok) as [b Hb].
    unfold tno_record. rewrite Hb. reflexivity.
  - rewrite app_nil_r. reflexivity.
Qed.

Lemma tno_loop_of (infos : list tno_info) (tnos : list dict)
  (log : list request) :
  tno_loop (fun _ => answer) epoch tnos log infos =
  (Ok (tnos ++ List.flat_map (tno_of answer) infos)%list,
   (log ++ List.flat_map (requests_of answer) infos)%list).
Proof.
  revert tnos log. induction infos as [| info rest IH]; intros tnos log;
    cbn [tno_loop List.flat_map].
  - rewrite !app_nil_r. reflexivity.
  - rewrite tno_step_of, IH, <- !app_assoc. reflexivity.
Qed.

End Independent.

(** X15. For a service that answers a request the same way whenever it
    is made, the requests and the document of [main] are computed entry
    by entry: a planet is kept when its identifier gives elements; a TNO
    is requested by its identifier, and by the form prefixed with [DES=]
    only when the identifier gives nothing, and is kept when one of the
    two gives elements. What is kept for an entry does not depend on the
    other entries. *)
Theorem main_independent (answer : request -> option string) :
  run_requests (main (fun _ => answer)) =
    (List.map (fun info => (planet_id info, epoch)) get_planet_data
     ++ List.flat_map (requests_of answer) get_tno_list)%list /\
  run_document (main (fun _ => answer)) =
    Some {| doc_planets := List.flat_map (planet_of answer) get_planet_data;
            doc_etnos := List.flat_map (tno_of answer) get_tno_list |}.
Proof.
  unfold main. rewrite planet_loop_of. cbn [List.app].
  rewrite tno_loop_of. cbn [List.app run_requests run_document].
  split; reflexivity.
Qed.

(** ** The longitude of perihelion is within one turn *)

Lemma inexact_loc (mrs : shr_record) :
  inexact mrs = false -> loc_of_shr_record mrs = loc_Exact.
Proof.
  destruct mrs as [m [] []]; unfold inexact; simpl; intros H;
    try discriminate H; reflexivity.
Qed.

Lemma shr_1_inexact (mrs : shr_record) :
  0 <= shr_m mrs ->
  inexact (shr_1 mrs) = inexact mrs || Z.odd (shr_m mrs).
Proof.
  destruct mrs as [m r s]. unfold inexact. cbn [shr_m shr_r shr_s].
  intros Hm.
  destruct m as [| [p | p |] | p]; try lia; cbn [shr_1 shr_r shr_s Z.odd];
    destruct r, s; reflexivity.
Qed.

Lemma odd_mod2 (m : Z) : Z.odd m = negb (m mod 2 ^ 1 =? 0).
Proof.
  change (2 ^ 1) with 2. rewrite Zmod_odd.
  destruct (Z.odd m); reflexivity.
Qed.

Lemma mod_pow_split (m a b : Z) :
  0 <= m -> 0 <= a -> 0 <= b ->
  (m mod 2 ^ (a + b) =? 0) =
  (m mod 2 ^ a =? 0) && ((m / 2 ^ a) mod 2 ^ b =? 0).
Proof.
  intros Hm Ha Hb.
  assert (Hpa : 0 < 2 ^ a) by (apply Z.pow_pos_nonneg; lia).
  assert (Hpb : 0 < 2 ^ b) by (apply Z.pow_pos_nonneg; lia).
  rewrite Z.pow_add_r by lia.
  rewrite Z.rem_mul_r by lia.
  pose proof (Z.mod_pos_bound m (2 ^ a) Hpa) as H1.
  pose proof (Z.mod_pos_bound (m / 2 ^ a) (2 ^ b) Hpb) as H2.
  destruct (Z.eqb_spec (m mod 2 ^ a) 0) as [E1 | E1];
    destruct (Z.eqb_spec ((m / 2 ^ a) mod 2 ^ b) 0) as [E2 | E2];
    cbn [andb]; apply Z.eqb_eq || apply Z.eqb_neq; nia.
Qed.

Lemma iter_shr_inexact (p : positive) (mrs : shr_record) :
  0 <= shr_m mrs ->
  inexact (iter_pos shr_1 p mrs) =
  inexact mrs || negb (shr_m mrs mod 2 ^ Zpos p =? 0).
Proof.
  revert mrs. induction p as [p IH | p IH |]; intros mrs Hm; cbn [iter_pos].
  - assert (H1 : 0 <= shr_m (shr_1 mrs))
      by (rewrite shr_1_m by exact Hm; apply Z.div_pos; lia).
    assert (Hp : 0 < 2 ^ Zpos p) by (apply Z.pow_pos_nonneg; lia).
    assert (H2 : 0 <= shr_m (iter_pos shr_1 p (shr_1 mrs)))
      by (rewrite iter_shr_m by exact H1; apply Z.div_pos; lia).
    rewrite IH by exact H2. rewrite IH by exact H1.
    rewrite iter_shr_m by exact H1.
    rewrite shr_1_inexact by exact Hm. rewrite shr_1_m by exact Hm.
    rewrite (Pos2Z.inj_xI p).
    replace (2 * Zpos p + 1) with (1 + (Zpos p + Zpos p)) by lia.
    rewrite (mod_pow_split (shr_m mrs) 1 (Zpos p + Zpos p)) by lia.
    change (2 ^ 1) with 2.
    rewrite (mod_pow_split (shr_m mrs / 2) (Zpos p) (Zpos p))
      by (try apply Z.div_pos; lia).
    rewrite odd_mod2. change (2 ^ 1) with 2.
    destruct (inexact mrs), (shr_m mrs mod 2 =? 0),
      (shr_m mrs / 2 mod 2 ^ Zpos p =? 0),
      ((shr_m mrs / 2 / 2 ^ Zpos p) mod 2 ^ Zpos p =? 0); reflexivity.
  - assert (Hp : 0 < 2 ^ Zpos p) by (apply Z.pow_pos_nonneg; lia).
    assert (H2 : 0 <= shr_m (iter_pos shr_1 p mrs))
      by (rewrite iter_shr_m by exact Hm; apply Z.div_pos; lia).
    rewrite IH by exact H2. rewrite IH by exact Hm.
    rewrite iter_shr_m by exact Hm.
    rewrite (Pos2Z.inj_xO p).
    replace (2 * Zpos p) with (Zpos p + Zpos p) by lia.
    rewrite (mod_pow_split (shr_m mrs) (Zpos p) (Zpos p)) by lia.
    destruct (inexact mrs), (shr_m mrs mod 2 ^ Zpos p =? 0),
      ((shr_m mrs / 2 ^ Zpos p) mod 2 ^ Zpos p =? 0); reflexivity.
  - rewrite shr_1_inexact by exact Hm. rewrite odd_mod2. reflexivity.
Qed.

(** A shift of an exact mantissa loses bits only when the mantissa is not
    a multiple of the power of two it is divided by. *)
Lemma shr_fexp_loc (m e : Z) :
  0 <= m ->
  let n := Z.max 0 (fexp64 (Zdigits2 m + e) - e) in
  m mod 2 ^ n = 0 ->
  loc_of_shr_record (fst (shr_fexp Float.prec Float.emax m e loc_Exact)) =
  loc_Exact.
Proof.
  intros Hm n Hmod. unfold shr_fexp. rewrite fexp64_eq.
  unfold n in Hmod. clear n.
  destruct (fexp64 (Zdigits2 m + e) - e) as [| p | p] eqn:E; unfold shr;
    cbn [fst]; try reflexivity.
  replace (Z.max 0 (Zpos p)) with (Zpos p) in Hmod by lia.
  apply inexact_loc. rewrite iter_shr_inexact by exact Hm.
  cbn [shr_record_of_loc inexact shr_r shr_s shr_m orb].
  rewrite Hmod. reflexivity.
Qed.

Lemma digits_upto (m e : Z) :
  0 <= m -> e <= -44 -> m <= 360 * 2 ^ (- e) ->
  fexp64 (Zdigits2 m + e) <= -44.
Proof.
  intros Hm He Hb.
  assert (Hd : Zdigits2 m + e <= 9).
  { destruct (Z.eq_dec m 0) as [-> | Hm0]; [simpl; lia |].
    destruct (Zdigits2_bounds m ltac:(lia)) as [Hlo _].
    pose proof (Zdigits2_pos m ltac:(lia)) as Hdp.
    assert (Hlt : 2 ^ (Zdigits2 m - 1) < 2 ^ (9 - e)).
    { apply Z.le_lt_trans with (1 := Hlo).
      apply Z.le_lt_trans with (1 := Hb).
      replace (9 - e) with (9 + - e) by lia.
      rewrite Z.pow_add_r by lia. change (2 ^ 9) with 512.
      assert (0 < 2 ^ (- e)) by (apply Z.pow_pos_nonneg; lia). lia. }
    apply Z.pow_lt_mono_r_iff in Hlt; lia. }
  unfold fexp64. lia.
Qed.

(** A shift keeps a mantissa within its bound. *)
Lemma shift_upto (m e n : Z) :
  0 <= m -> 0 <= n -> e + n <= -44 -> m <= 360 * 2 ^ (- e) ->
  m / 2 ^ n <= 360 * 2 ^ (- (e + n)) /\
  (m mod 2 ^ n <> 0 -> m / 2 ^ n < 360 * 2 ^ (- (e + n))).
Proof.
  intros Hm Hn He Hb.
  assert (Hp : 0 < 2 ^ n) by (apply Z.pow_pos_nonneg; lia).
  assert (Hk : 360 * 2 ^ (- e) = 360 * 2 ^ (- (e + n)) * 2 ^ n).
  { rewrite <- Z.mul_assoc, <- Z.pow_add_r by lia. f_equal. f_equal. lia. }
  rewrite Hk in Hb.
  pose proof (Z.div_mod m (2 ^ n) ltac:(lia)) as Hdm.
  pose proof (Z.mod_pos_bound m (2 ^ n) Hp) as Hmod.
  split.
  - nia.
  - intros Hne. nia.
Qed.

(** Rounding a mantissa that stands for at most 360 gives at most 360. *)
Lemma binary_round_aux_upto (s : bool) (m e : Z) :
  0 <= m -> e <= -44 -> m <= 360 * 2 ^ (- e) ->
  upto s (binary_round_aux Float.prec Float.emax s m e loc_Exact).
Proof.
  intros Hm He Hb. unfold binary_round_aux.
  pose proof (shr_fexp_loc m e Hm) as Hloc.
  destruct (shr_fexp_m m e loc_Exact Hm) as [Hm' He'].
  destruct (shr_fexp Float.prec Float.emax m e loc_Exact) as [mrs' e'].
  cbn [fst snd] in Hm', He', Hloc. cbv zeta in Hloc.
  pose proof (digits_upto m e Hm He Hb) as Hf.
  set (n := Z.max 0 (fexp64 (Zdigits2 m + e) - e)) in *.
  assert (Hn : 0 <= n) by (unfold n; lia).
  assert (Hen : e + n <= -44) by (unfold n; lia).
  destruct (shift_upto m e n Hm Hn Hen Hb) as [Hle Hlt].
  rewrite <- Hm', <- He' in Hle, Hlt.
  assert (H0 : 0 <= shr_m mrs').
  { rewrite Hm'. apply Z.div_pos; [exact Hm |].
    apply Z.pow_pos_nonneg; lia. }
  pose proof (round_nearest_even_cases (shr_m mrs') (loc_of_shr_record mrs'))
    as Hr.
  assert (Hm1 : 0 <= round_nearest_even (shr_m mrs') (loc_of_shr_record mrs')
                <= 360 * 2 ^ (- e')).
  { destruct (Z.eq_dec (m mod 2 ^ n) 0) as [Hz | Hnz].
    - rewrite (Hloc Hz). cbn [round_nearest_even]. lia.
    - specialize (Hlt Hnz). lia. }
  set (m1 := round_nearest_even (shr_m mrs') (loc_of_shr_record mrs')) in *.
  assert (He'44 : e' <= -44) by lia.
  destruct (shr_fexp_m m1 e' loc_Exact (proj1 Hm1)) as [Hm'' He''].
  destruct (shr_fexp Float.prec Float.emax m1 e' loc_Exact) as [mrs'' e''].
  cbn [fst snd] in Hm'', He''.
  pose proof (digits_upto m1 e' (proj1 Hm1) He'44 (proj2 Hm1)) as Hf2.
  set (n2 := Z.max 0 (fexp64 (Zdigits2 m1 + e') - e')) in *.
  assert (Hn2 : 0 <= n2) by (unfold n2; lia).
  assert (Hen2 : e' + n2 <= -44) by (unfold n2; lia).
  destruct (shift_upto m1 e' n2 (proj1 Hm1) Hn2 Hen2 (proj2 Hm1)) as [Hle2 _].
  rewrite <- Hm'', <- He'' in Hle2.
  assert (H2 : 0 <= shr_m mrs'').
  { rewrite Hm''. apply Z.div_pos; [exact (proj1 Hm1) |].
    apply Z.pow_pos_nonneg; lia. }
  destruct (shr_m mrs'') as [| p | p]; [reflexivity | | lia].
  assert (Hok : (e'' <=? Float.emax - Float.prec) = true).
  { apply Z.leb_le. unfold Float.emax, Float.prec. lia. }
  rewrite Hok. cbn [upto]. split; [reflexivity |]. split; [lia | exact Hle2].
Qed.

Lemma iter_xO (p d : positive) :
  Zpos (Pos.iter xO p d) = Zpos p * 2 ^ Zpos d.
Proof.
  induction d as [| d IH] using Pos.peano_ind.
  - simpl. rewrite (Pos2Z.inj_xO p). lia.
  - rewrite Pos.iter_succ, (Pos2Z.inj_xO (Pos.iter xO p d)), IH.
    rewrite Pos2Z.inj_succ, Z.pow_succ_r by lia. ring.
Qed.

(** Bringing a mantissa to a smaller exponent keeps what it stands for. *)
Lemma shl_align_value (m : positive) (e e' : Z) :
  let '(mz, ez) := shl_align m e e' in
  ez <= e /\ Zpos mz = Zpos m * 2 ^ (e - ez).
Proof.
  unfold shl_align. destruct (e' - e) as [| d | d] eqn:E.
  - rewrite Z.sub_diag. simpl. lia.
  - rewrite Z.sub_diag. simpl. lia.
  - split; [lia |]. rewrite iter_xO. f_equal. f_equal. lia.
Qed.

Lemma binary_round_upto (s : bool) (m : positive) (e : Z) :
  e <= -44 -> Zpos m <= 360 * 2 ^ (- e) ->
  upto s (binary_round Float.prec Float.emax s m e).
Proof.
  intros He Hb. unfold binary_round.
  pose proof (shl_align_value m e
                (fexp Float.prec Float.emax (Zpos (digits2_pos m) + e))) as H.
  destruct (shl_align m e
              (fexp Float.prec Float.emax (Zpos (digits2_pos m) + e)))
    as [mz ez].
  destruct H as [Hez Hmz].
  apply binary_round_aux_upto; [lia | lia |].
  rewrite Hmz.
  replace (- ez) with (- e + (e - ez)) by lia.
  rewrite Z.pow_add_r by lia.
  assert (0 < 2 ^ (e - ez)) by (apply Z.pow_pos_nonneg; lia). nia.
Qed.

Lemma binary_normalize_upto (s : bool) (m e : Z) :
  0 <= m -> e <= -44 -> m <= 360 * 2 ^ (- e) ->
  upto s (binary_normalize Float.prec Float.emax (cond_Zopp s m) e s).
Proof.
  intros Hm He Hb. destruct m as [| p | p]; [| | lia].
  - destruct s; reflexivity.
  - destruct s; cbn [cond_Zopp Z.opp binary_normalize];
      apply binary_round_upto; assumption.
Qed.

(** The remainder of [fmod] by 360 has the sign of the dividend and is at
    most 360 in magnitude. *)
Lemma fmod_upto (s : bool) (m : positive) (e : Z) :
  upto s (Float.fmod (S754_finite s m e) three_sixty).
Proof.
  unfold Float.fmod, three_sixty. cbv zeta.
  set (e0 := Z.min e (-44)).
  assert (He0 : e0 <= -44) by (unfold e0; lia).
  assert (HY : Z.shiftl 6333186975989760 (-44 - e0) = 360 * 2 ^ (- e0)).
  { rewrite Z.shiftl_mul_pow2 by lia.
    change 6333186975989760 with (360 * 2 ^ 44).
    rewrite <- Z.mul_assoc, <- Z.pow_add_r by lia. f_equal. f_equal. lia. }
  rewrite HY.
  assert (Hp : 0 < 360 * 2 ^ (- e0)).
  { assert (0 < 2 ^ (- e0)) by (apply Z.pow_pos_nonneg; lia). lia. }
  pose proof (Z.mod_pos_bound (Z.shiftl (Zpos m) (e - e0)) _ Hp) as Hr.
  apply binary_normalize_upto; lia.
Qed.

Lemma shl_align_le (m : positive) (e e' : Z) :
  e' <= e ->
  Zpos (fst (shl_align m e e')) = Zpos m * 2 ^ (e - e').
Proof.
  intros H. unfold shl_align. destruct (e' - e) as [| d | d] eqn:E;
    cbn [fst]; [| lia |].
  - replace (e - e') with 0 by lia. simpl. lia.
  - rewrite iter_xO. f_equal. f_equal. lia.
Qed.

(** Adding 360 to a negative float of magnitude at most 360. *)
Lemma add_upto (m : positive) (e : Z) :
  upto true (S754_finite true m e) ->
  upto false (Float.add (S754_finite true m e) three_sixty).
Proof.
  intros [_ [He Hb]]. unfold Float.add, SFadd, three_sixty.
  replace (Z.min e (-44)) with e by lia.
  cbn [cond_Zopp].
  rewrite (shl_align_le m e e) by lia.
  rewrite (shl_align_le 6333186975989760 (-44) e) by lia.
  rewrite Z.sub_diag, Z.pow_0_r, Z.mul_1_r.
  assert (HY : 6333186975989760 * 2 ^ (-44 - e) = 360 * 2 ^ (- e)).
  { change 6333186975989760 with (360 * 2 ^ 44).
    rewrite <- Z.mul_assoc, <- Z.pow_add_r by lia. f_equal. f_equal. lia. }
  rewrite HY.
  apply (binary_normalize_upto false (- Zpos m + 360 * 2 ^ (- e)) e); lia.
Qed.

Lemma ltb_three_sixty_zero : Float.ltb three_sixty Float.zero = false.
Proof. reflexivity. Qed.

(** The remainder by 360 is a NaN, [+0.0], or positive and at most 360. *)
Lemma rem_upto (x : Float.float) :
  Float.rem x three_sixty = S754_nan \/ upto false (Float.rem x three_sixty).
Proof.
  destruct x as [s | s | | s m e].
  - right. reflexivity.
  - left. reflexivity.
  - left. reflexivity.
  - right. unfold Float.rem. cbv zeta.
    pose proof (fmod_upto s m e) as H.
    destruct (Float.fmod (S754_finite s m e) three_sixty)
      as [s' | s' | | s' m' e'] eqn:E; cbn [upto] in H; try contradiction.
    + reflexivity.
    + cbn [Float.is_zero]. rewrite ltb_three_sixty_zero.
      destruct H as [-> H]. destruct s.
      * change (Float.ltb (S754_finite true m' e') Float.zero) with true.
        cbn [Bool.eqb]. apply add_upto. split; [reflexivity | exact H].
      * change (Float.ltb (S754_finite false m' e') Float.zero) with false.
        cbn [Bool.eqb]. split; [reflexivity | exact H].
Qed.

Lemma upto_turn (f : Float.float) : upto false f -> turn (VFloat f).
Proof.
  destruct f as [s | s | | s m e]; cbn [upto turn]; try contradiction.
  - intros H; exact H.
  - intros [-> [He Hb]]. split; [reflexivity |].
    cbn [above]. destruct (0 <=? e) eqn:E0; [apply Z.leb_le in E0; lia |].
    lia.
Qed.

Lemma rem_turn (x : Float.float) : turn (VFloat (Float.rem x three_sixty)).
Proof.
  destruct (rem_upto x) as [-> | H]; [exact I | exact (upto_turn _ H)].
Qed.

Lemma lon_peri_within (elem : dict) :
  match lon_peri elem with
  | Ok v => turn v
  | Raise _ => True
  end.
Proof.
  unfold lon_peri.
  destruct (py_add (Dict.get_default "longitude_ascending_node" (VInt 0) elem)
              (Dict.get_default "argument_perihelion" (VInt 0) elem))
    as [[| z | f | s | d] | x]; cbn [rbind py_mod]; try exact I.
  - cbn [turn]. apply Z.mod_pos_bound. lia.
  - rewrite of_int_three_sixty. cbn [rbind]. apply rem_turn.
Qed.

Lemma line_turn (t : dict) (l : cluster_line) :
  tno_ok t -> line_of t l -> turn (line_lon_peri l).
Proof.
  intros (name & designation & ty & e & -> & Hok) (elem & He & _ & Hl & _).
  cbn in He. injection He as <-. rewrite Hl.
  pose proof (lon_peri_within e) as H.
  rewrite (lon_peri_longitude e Hok) in H. exact H.
Qed.

Lemma lines_turn (ts : list dict) (ls : list cluster_line) :
  Forall tno_ok ts -> Forall2 line_of ts ls ->
  Forall (fun l => turn (line_lon_peri l)) ls.
Proof.
  intros Hts H. induction H as [| t l ts ls Hl _ IH]; [constructor |].
  inversion Hts as [| t' ts' Ht Hrest]; subst.
  constructor; [exact (line_turn t l Ht Hl) | exact (IH Hrest)].
Qed.

(** X16. The longitude of perihelion is within one turn: whatever the
    elements, when [lon_peri] raises nothing its value is an integer from
    0 to 359, or a float that is a NaN (the sum was not finite), [+0.0],
    or positive and not above 360. So is the longitude of every line of
    the clustering table, whatever the service answers. The bound 360 is
    reached: a node of -1e-20, read by the fallback strategy, gives the
    longitude 360.0. *)
Theorem longitude_within_turn :
  (forall elem,
     match lon_peri elem with
     | Ok v => turn v
     | Raise _ => True
     end) /\
  (forall horizons,
     exists lines,
       run_summary (main horizons) = Ok lines /\
       Forall (fun l => turn (line_lon_peri l)) lines) /\
  (exists elem,
     parse_horizons_output "node = -0.00000000000000000001" "1" =
       Ok (Some elem) /\
     lon_peri elem = Ok (VFloat three_sixty)).
Proof.
  split; [exact lon_peri_within | split].
  - intros horizons.
    destruct (tno_loop_ok horizons epoch get_tno_list [] 
                (snd (List.fold_left (planet_step horizons epoch)
                        get_planet_data ([], []))) (Forall_nil _))
      as (tnos & log2 & Hloop & Hts).
    unfold main.
    destruct (List.fold_left (planet_step horizons epoch) get_planet_data
                ([], [])) as [planets log1].
    cbn [snd] in Hloop. rewrite Hloop. cbn [run_summary].
    destruct tnos as [| t rest].
    + exists []. split; [reflexivity | constructor].
    + destruct (clustering_ok (t :: rest) Hts) as [ls [Hls Hlines]].
      exists ls. split; [exact Hls |].
      apply (lines_turn (List.filter is_extreme (t :: rest))); [| exact Hlines].
      rewrite Forall_forall in *. intros x Hx.
      apply filter_In in Hx. apply Hts. exact (proj1 Hx).
  - eexists. split; vm_compute; reflexivity.
Qed.
